(** * cooking-app-server: the authorization gate of the REST backend

    A shallow embedding of [index.js] (the newest revision of the server):
    the bearer-token middleware, the role gates, and the route handlers
    registered inside [run()], over an explicit model of the document
    store, of the identity provider and of the other collaborators.

    Conventions.
    - A JavaScript value is a [jsval]; a document and a request body are
      JavaScript objects, [gmap string jsval].
    - A handler is a computation in the monad [M]: it threads the [World]
      (the database, the log of store calls, the log of token
      verifications, the console) and may throw an [Exn].
    - Everything the server does not implement itself (Firebase, the BSON
      [ObjectId] class, store faults, the clock, [Math.random], the
      ECMAScript coercions of non-string values, Stripe) is a field of
      the environment [Env]. *)

From Stdlib Require Import PrimFloat Ascii.
From stdpp Require Import gmap strings list pretty.

#[local] Set Warnings "-register-all".
#[local] Open Scope string_scope.

(** ** JavaScript values *)

(** Error objects thrown by the collaborators and by the runtime. *)
Inductive Exn : Type :=
| FirebaseError (code : string)   (* rejected by admin.auth().verifyIdToken *)
| MongoError (code : Z)           (* thrown by a collection method; 11000 = duplicate key *)
| BSONError                       (* thrown by new ObjectId(x) *)
| TypeError                       (* property read on null *)
| StripeError (code : string).    (* rejected by stripe.checkout.sessions.create *)

Inductive jsval : Type :=
| JUndef
| JNull
| JBool (b : bool)
| JNum (x : float)
| JStr (s : string)
| JDate (ms : Z)
| JOid (hex : string)
| JErr (e : Exn)
| JArr (xs : list jsval)
| JObj (o : gmap string jsval).

Abbreviation jsobj := (gmap string jsval).

(** [o.k]: an absent property reads as [undefined]. *)
Definition get (o : jsobj) (k : string) : jsval := default JUndef (o !! k).

(** [o.k = v]. *)
Definition set (k : string) (v : jsval) (o : jsobj) : jsobj := <[k := v]> o.

(** ECMAScript ToBoolean. *)
Definition truthy (v : jsval) : bool :=
  match v with
  | JUndef | JNull => false
  | JBool b => b
  | JNum x => negb (PrimFloat.eqb x 0%float || negb (PrimFloat.eqb x x))
  | JStr s => negb (String.eqb s "")
  | JDate _ | JOid _ | JErr _ | JArr _ | JObj _ => true
  end.

(** [a === b]. Objects compare by reference; the server never compares an
    object with itself, so two object operands are never identical. *)
Definition strict_eq (a b : jsval) : bool :=
  match a, b with
  | JUndef, JUndef => true
  | JNull, JNull => true
  | JBool x, JBool y => Bool.eqb x y
  | JNum x, JNum y => PrimFloat.eqb x y
  | JStr x, JStr y => String.eqb x y
  | _, _ => false
  end.

(** ** The collaborators *)

Record Env : Type := {
  (** [admin.auth().verifyIdToken(token)]: the [email] claim of the decoded
      token ([None] when the token carries none), or the rejection. *)
  verifyIdToken : string -> Exn + option string;
  (** [ObjectId.isValid(id)] on a route parameter. *)
  ObjectId_isValid : string -> bool;
  (** [new ObjectId(x)]: the identifier, or [None] when the constructor
      throws; the first argument is the number of store calls made so far
      (the constructor generates an identifier when [x] is nullish). *)
  ObjectId_new : nat -> jsval -> option string;
  (** The identifier the driver gives a document inserted without [_id]. *)
  ObjectId_generate : nat -> string;
  (** Whether the n-th store call of the run fails, and with which code
      (network failure, unique-index violation, rejected update, ...). *)
  store_fault : nat -> option Z;
  (** The store's evaluation of a query value that is not a string, an
      identifier or null against a stored value. *)
  query_match : jsval -> jsval -> bool;
  (** The store's [sort({ field: -1 })] of a result list. *)
  store_sort : string -> list jsobj -> list jsobj;
  (** The store's [skip(s).limit(l)] window over a result list; [None] when
      the store rejects the arguments. *)
  cursor_window : jsval -> jsval -> list jsobj -> option (list jsobj);
  (** [new Date()] at the n-th store call, and [new Date(v)]. *)
  Date_now : nat -> jsval;
  Date_new : jsval -> jsval;
  (** [Math.floor(1000 + Math.random() * 9000)]. *)
  random_chef_number : nat -> Z;
  (** ECMAScript [String(v)] on a value that is not a string. *)
  ToString : jsval -> string;
  (** [parseInt], and the numeric operators with their coercions. *)
  js_parseInt : jsval -> jsval;
  js_sub : jsval -> jsval -> jsval;
  js_mul : jsval -> jsval -> jsval;
  js_add : jsval -> jsval -> jsval;
  js_div : jsval -> jsval -> jsval;
  Math_ceil : jsval -> jsval;
  (** [stripe.checkout.sessions.create] for a price and an order id: the
      session's [url]. *)
  stripe_create : jsval -> jsval -> Exn + jsval;
}.

(** ** The document store *)

Inductive Coll : Type :=
| userColl | mealsColl | reviewsCollection | favoritesCollection
| ordersCollection | roleRequestColl | orderRequestsCollection
| paymentCollection.

#[global] Instance Coll_eq_dec : EqDecision Coll.
Proof. solve_decision. Defined.

(** The database [cook-db]: each collection in insertion order. *)
Record DB : Type := {
  users : list jsobj;
  meals : list jsobj;
  reviews : list jsobj;
  favorites : list jsobj;
  orders : list jsobj;
  roleRequests : list jsobj;
  orderRequests : list jsobj;
  payments : list jsobj;
}.

Definition coll (c : Coll) (d : DB) : list jsobj :=
  match c with
  | userColl => users d
  | mealsColl => meals d
  | reviewsCollection => reviews d
  | favoritesCollection => favorites d
  | ordersCollection => orders d
  | roleRequestColl => roleRequests d
  | orderRequestsCollection => orderRequests d
  | paymentCollection => payments d
  end.

Definition set_coll (c : Coll) (l : list jsobj) (d : DB) : DB :=
  match c with
  | userColl => {| users := l; meals := meals d; reviews := reviews d; favorites := favorites d; orders := orders d; roleRequests := roleRequests d; orderRequests := orderRequests d; payments := payments d |}
  | mealsColl => {| users := users d; meals := l; reviews := reviews d; favorites := favorites d; orders := orders d; roleRequests := roleRequests d; orderRequests := orderRequests d; payments := payments d |}
  | reviewsCollection => {| users := users d; meals := meals d; reviews := l; favorites := favorites d; orders := orders d; roleRequests := roleRequests d; orderRequests := orderRequests d; payments := payments d |}
  | favoritesCollection => {| users := users d; meals := meals d; reviews := reviews d; favorites := l; orders := orders d; roleRequests := roleRequests d; orderRequests := orderRequests d; payments := payments d |}
  | ordersCollection => {| users := users d; meals := meals d; reviews := reviews d; favorites := favorites d; orders := l; roleRequests := roleRequests d; orderRequests := orderRequests d; payments := payments d |}
  | roleRequestColl => {| users := users d; meals := meals d; reviews := reviews d; favorites := favorites d; orders := orders d; roleRequests := l; orderRequests := orderRequests d; payments := payments d |}
  | orderRequestsCollection => {| users := users d; meals := meals d; reviews := reviews d; favorites := favorites d; orders := orders d; roleRequests := roleRequests d; orderRequests := l; payments := payments d |}
  | paymentCollection => {| users := users d; meals := meals d; reviews := reviews d; favorites := favorites d; orders := orders d; roleRequests := roleRequests d; orderRequests := orderRequests d; payments := l |}
  end.

(** A call on a collection, as it reaches the driver. *)
Inductive StoreCall : Type :=
| CFindOne (c : Coll) (filter : jsobj)
| CFind (c : Coll) (filter : jsobj)
| CCount (c : Coll)
| CInsertOne (c : Coll) (doc : jsobj)
| CUpdateOne (c : Coll) (filter : jsobj) (fields : jsobj)
| CDeleteOne (c : Coll) (filter : jsobj).

(** ** The world a request runs in *)

Record World : Type := {
  db : DB;
  store_log : list StoreCall;          (* calls that reached the store, oldest first *)
  verify_log : list string;            (* tokens handed to verifyIdToken *)
  console : list (string * Exn);       (* console.error(label, err) *)
}.

Definition with_db (d : DB) (w : World) : World :=
  {| db := d; store_log := store_log w; verify_log := verify_log w; console := console w |}.
Definition log_store (c : StoreCall) (w : World) : World :=
  {| db := db w; store_log := store_log w ++ [c]; verify_log := verify_log w; console := console w |}.
Definition log_verify (t : string) (w : World) : World :=
  {| db := db w; store_log := store_log w; verify_log := verify_log w ++ [t]; console := console w |}.
Definition log_console (l : string) (e : Exn) (w : World) : World :=
  {| db := db w; store_log := store_log w; verify_log := verify_log w; console := console w ++ [(l, e)] |}.

(** ** The monad of handlers: state and exceptions *)

Inductive Res (A : Type) : Type :=
| Val (a : A)
| Exc (e : Exn).
Arguments Val {A} a.
Arguments Exc {A} e.

Definition M (A : Type) : Type := World -> Res A * World.

Definition ret {A} (a : A) : M A := fun w => (Val a, w).

Definition bind {A B} (m : M A) (k : A -> M B) : M B :=
  fun w => match m w with
           | (Val a, w') => k a w'
           | (Exc e, w') => (Exc e, w')
           end.

Definition throw {A} (e : Exn) : M A := fun w => (Exc e, w).

(** [try { m } catch (err) { h(err) }]. *)
Definition try_catch {A} (m : M A) (h : Exn -> M A) : M A :=
  fun w => match m w with
           | (Val a, w') => (Val a, w')
           | (Exc e, w') => h e w'
           end.

Definition console_error (label : string) (e : Exn) : M unit :=
  fun w => (Val tt, log_console label e w).

Declare Scope js_scope.
Delimit Scope js_scope with js.
Notation "x <- m ;; k" := (bind m (fun x => k))
  (at level 100, m at next level, right associativity) : js_scope.
Notation "m ;;; k" := (bind m (fun _ => k))
  (at level 100, right associativity) : js_scope.
#[local] Open Scope js_scope.

(** ** Requests, responses, routes *)

Record Request : Type := {
  authorization : option string;   (* req.headers.authorization *)
  body : jsobj;                    (* req.body, the parsed JSON object ({} when there is none) *)
  query : jsobj;                   (* req.query *)
  tokenEmail : jsval;              (* req.tokenEmail, set by verifyJWT *)
}.

Definition with_tokenEmail (v : jsval) (req : Request) : Request :=
  {| authorization := authorization req; body := body req; query := query req;
     tokenEmail := v |}.

Record Response : Type := { status : Z; payload : jsval }.

(** [res.status(s).send(b)] and [res.send(b)]. *)
Definition status_send (s : Z) (b : jsval) : Response := {| status := s; payload := b |}.
Definition send (b : jsval) : Response := status_send 200 b.

(** [{ message: m }]. *)
Definition message (m : string) : jsval := JObj {[ "message" := JStr m ]}.

(** [decodedToken.email]: a string, or [undefined]. *)
Definition email_claim (email : option string) : jsval :=
  match email with
  | Some e => JStr e
  | None => JUndef
  end.

(** What a middleware does: call [next()] or answer. *)
Inductive Step : Type :=
| Next (req : Request)
| Respond (r : Response).

(** How a request ends: with a response written by the server's code, or
    with the rejection of an async handler that catches nothing (the
    server's code then writes no response). *)
Inductive Outcome : Type :=
| Responded (r : Response)
| Unhandled (e : Exn).

(** The routes registered on [app], with their path parameters. *)
Inductive Route : Type :=
| POST_users
| GET_users
| PATCH_users_make_fraud (email : string)
| POST_meals
| GET_meals
| GET_meals_id (id : string)
| GET_reviews
| GET_reviews_mealId (mealId : string)
| POST_reviews
| POST_favorites
| GET_favorites_email (email : string)
| DELETE_favorites_id (id : string)
| POST_orders
| GET_orders
| GET_orders_id (id : string)
| GET_users_email (email : string)
| POST_role_requests
| GET_role_requests
| PATCH_role_requests_accept (id : string)
| PATCH_role_requests_reject (id : string)
| GET_user_reviews
| DELETE_reviews_id (id : string)
| PATCH_reviews_id (id : string)
| POST_order_requests
| GET_order_requests
| GET_orders_chef (email : string)
| PATCH_order_requests_id (id : string)
| PATCH_orders_id (id : string)
| GET_meals_chef (email : string)
| DELETE_meals_id (id : string)
| PATCH_meals_id (id : string)
| POST_create_payment_intent
| POST_payment_success
| GET_payments_id (id : string)
| GET_admin_statistics
| GET_root.

Inductive Gate : Type := verifyJWT_gate | verifyAdmin_gate | verifyChef_gate.

(** ** Header parsing *)

(** [s.split(" ")]. *)
Fixpoint split_space (s : string) : list string :=
  match s with
  | EmptyString => [""]
  | String c s' =>
      if Ascii.eqb c " "%char then "" :: split_space s'
      else match split_space s' with
           | [] => [String c ""]
           | p :: ps => String c p :: ps
           end
  end.

(** [getTokenFromHeader(req)]; [None] is [null]. *)
Definition getTokenFromHeader (req : Request) : option string :=
  match authorization req with
  | None => None
  | Some auth =>
      if negb (truthy (JStr auth)) then None
      else
        let parts := split_space auth in
        if negb (Nat.eqb (List.length parts) 2) then None
        else parts !! 1
  end.

(** A number that counts documents. *)
Fixpoint num_of_nat (n : nat) : float :=
  match n with
  | O => 0%float
  | S n' => PrimFloat.add (num_of_nat n') 1%float
  end.

Section Server.
Context (env : Env).

(** ** Store operations *)

(** BSON serialisation of the top-level fields: [undefined] is written as
    null (the driver's default, ignoreUndefined = false). *)
Definition to_bson (o : jsobj) : jsobj :=
  (fun v => match v with JUndef => JNull | _ => v end) <$> o.

Definition scalar_eq (v q : jsval) : bool :=
  match v, q with
  | JStr a, JStr b => String.eqb a b
  | JOid a, JOid b => String.eqb a b
  | _, _ => false
  end.

Definition is_null (v : jsval) : bool :=
  match v with JNull | JUndef => true | _ => false end.

(** Does the stored field value satisfy the equality condition [q]?
    A null condition matches a missing field; an array field matches when
    one of its elements does. *)
Definition field_matches (stored : option jsval) (q : jsval) : bool :=
  match q with
  | JUndef | JNull =>
      match stored with
      | None => true
      | Some (JArr xs) => existsb is_null xs
      | Some v => is_null v
      end
  | JStr _ | JOid _ =>
      match stored with
      | None => false
      | Some (JArr xs) => existsb (fun x => scalar_eq x q) xs
      | Some v => scalar_eq v q
      end
  | _ => query_match env (default JUndef stored) q
  end.

(** A filter is a conjunction of equality conditions. *)
Definition matches (filter doc : jsobj) : bool :=
  bool_decide (map_Forall (fun k q => field_matches (doc !! k) q = true) (to_bson filter)).

Fixpoint update_first (p : jsobj -> bool) (f : jsobj -> jsobj) (l : list jsobj) : list jsobj :=
  match l with
  | [] => []
  | d :: l' => if p d then f d :: l' else d :: update_first p f l'
  end.

Fixpoint delete_first (p : jsobj -> bool) (l : list jsobj) : list jsobj :=
  match l with
  | [] => []
  | d :: l' => if p d then l' else d :: delete_first p l'
  end.

(** 1 when some document satisfies [p], else 0. *)
Definition count_first (p : jsobj -> bool) (l : list jsobj) : nat :=
  match List.find p l with
  | Some _ => 1
  | None => 0
  end.

(** The number of store calls made so far: the index of the next one. *)
Definition ticks : M nat := fun w => (Val (List.length (store_log w)), w).

(** One call on the driver: it is logged, then it fails if the
    environment says so, and otherwise acts on the database. *)
Definition store {A} (c : StoreCall) (f : DB -> A * DB) : M A :=
  fun w =>
    let w1 := log_store c w in
    match store_fault env (List.length (store_log w)) with
    | Some code => (Exc (MongoError code), w1)
    | None => let '(a, d) := f (db w) in (Val a, with_db d w1)
    end.

(** [c.findOne(filter)]: the first matching document, or null. *)
Definition findOne (c : Coll) (filter : jsobj) : M (option jsobj) :=
  store (CFindOne c filter) (fun d => (List.find (matches filter) (coll c d), d)).

(** [c.find(filter)] read to the end, in the store's natural order. *)
Definition find_all (c : Coll) (filter : jsobj) : M (list jsobj) :=
  store (CFind c filter) (fun d => (List.filter (matches filter) (coll c d), d)).

(** [c.countDocuments()]. *)
Definition countDocuments (c : Coll) : M jsval :=
  store (CCount c) (fun d => (JNum (num_of_nat (List.length (coll c d))), d)).

(** The driver gives a document an [_id] when it has none. *)
Definition ensure_id (n : nat) (doc : jsobj) : jsobj :=
  if is_null (get doc "_id") then set "_id" (JOid (ObjectId_generate env n)) doc
  else doc.

(** [c.insertOne(doc)]: the document is appended, and the acknowledgement
    carries its id. *)
Definition insertOne (c : Coll) (doc : jsobj) : M jsval :=
  n <- ticks ;;
  let doc' := ensure_id n doc in
  store (CInsertOne c doc')
    (fun d => (JObj {[ "acknowledged" := JBool true; "insertedId" := get doc' "_id" ]},
               set_coll c (coll c d ++ [to_bson doc']) d)).

(** [c.updateOne(filter, { $set: fields })]: the first matching document
    gets the fields. The acknowledgement carries [matchedCount]; the
    driver's other counters are left out. *)
Definition updateOne (c : Coll) (filter fields : jsobj) : M jsval :=
  store (CUpdateOne c filter fields)
    (fun d =>
       (JObj {[ "acknowledged" := JBool true;
                "matchedCount" := JNum (num_of_nat (count_first (matches filter) (coll c d))) ]},
        set_coll c (update_first (matches filter) (fun doc => to_bson fields ∪ doc) (coll c d)) d)).

(** [c.deleteOne(filter)]. *)
Definition deleteOne (c : Coll) (filter : jsobj) : M jsval :=
  store (CDeleteOne c filter)
    (fun d =>
       (JObj {[ "acknowledged" := JBool true;
                "deletedCount" := JNum (num_of_nat (count_first (matches filter) (coll c d))) ]},
        set_coll c (delete_first (matches filter) (coll c d)) d)).

(** [new ObjectId(x)]. *)
Definition new_ObjectId (x : jsval) : M jsval :=
  n <- ticks ;;
  match ObjectId_new env n x with
  | Some hex => ret (JOid hex)
  | None => throw BSONError
  end.

(** [new Date()]. *)
Definition new_Date : M jsval :=
  n <- ticks ;; ret (Date_now env n).

(** [String(v)]. *)
Definition String_ (v : jsval) : string :=
  match v with
  | JStr s => s
  | _ => ToString env v
  end.

(** A list of documents as a JavaScript array. *)
Definition docs (l : list jsobj) : jsval := JArr (JObj <$> l).

(** ** Middleware *)

(** [verifyJWT]: the token of the header is verified by the identity
    provider and its email becomes [req.tokenEmail]. *)
Definition verifyJWT (req : Request) : M Step :=
  match getTokenFromHeader req with
  | None => ret (Respond (status_send 401 (message "Unauthorized Access!")))
  | Some token =>
      if negb (truthy (JStr token))
      then ret (Respond (status_send 401 (message "Unauthorized Access!")))
      else
        fun w =>
          let w1 := log_verify token w in
          match verifyIdToken env token with
          | inr email => (Val (Next (with_tokenEmail (email_claim email) req)), w1)
          | inl err =>
              (Val (Respond (status_send 401
                      (JObj {[ "message" := JStr "Unauthorized Access!"; "err" := JErr err ]}))),
               log_console "verifyJWT error:" err w1)
          end
  end.

(** [verifyAdmin]: no try/catch, a store failure rejects the request. *)
Definition verifyAdmin (req : Request) : M Step :=
  user <- findOne userColl {[ "email" := tokenEmail req ]} ;;
  match user with
  | None => ret (Respond (status_send 403 (message "Admin only!")))
  | Some u =>
      if negb (strict_eq (get u "role") (JStr "admin"))
      then ret (Respond (status_send 403 (message "Admin only!")))
      else ret (Next req)
  end.

(** [verifyChef]: chefs and admins pass. *)
Definition verifyChef (req : Request) : M Step :=
  try_catch
    (let email := tokenEmail req in
     user <- findOne userColl {[ "email" := email ]} ;;
     match user with
     | None => ret (Respond (status_send 404 (message "User not found!")))
     | Some u =>
         if negb (strict_eq (get u "role") (JStr "chef")) && negb (strict_eq (get u "role") (JStr "admin"))
         then ret (Respond (status_send 403 (message "Access denied! Chef only.")))
         else ret (Next req)
     end)
    (fun err =>
       console_error "verifyChef error:" err ;;;
       ret (Respond (status_send 500 (message "Server error in verifyChef")))).

Definition run_gate (g : Gate) (req : Request) : M Step :=
  match g with
  | verifyJWT_gate => verifyJWT req
  | verifyAdmin_gate => verifyAdmin req
  | verifyChef_gate => verifyChef req
  end.

(** Express runs the middleware in order; the first that answers ends the
    request. *)
Fixpoint run_chain (gs : list Gate) (h : Request -> M Response) (req : Request) : M Response :=
  match gs with
  | [] => h req
  | g :: gs' =>
      s <- run_gate g req ;;
      match s with
      | Next req' => run_chain gs' h req'
      | Respond r => ret r
      end
  end.

(** ** Route handlers *)

(** [POST /users]: self-registration. *)
Definition post_users (req : Request) : M Response :=
  try_catch
    (let user := body req in
     if negb (truthy (get user "email"))
     then ret (status_send 400 (message "email required"))
     else if negb (strict_eq (tokenEmail req) (get user "email"))
     then ret (status_send 403 (message "Forbidden!"))
     else
       exists_ <- findOne userColl {[ "email" := get user "email" ]} ;;
       match exists_ with
       | Some _ => ret (send (message "User already exists"))
       | None =>
           result <- insertOne userColl user ;;
           ret (send result)
       end)
    (fun err =>
       console_error "/users POST error:" err ;;;
       ret (status_send 500 (JObj {[ "message" := JStr "Server error"; "error" := JErr err ]}))).

(** [GET /users]. *)
Definition get_users (req : Request) : M Response :=
  l <- find_all userColl ∅ ;;
  ret (send (docs (store_sort env "_id" l))).

(** [PATCH /users/make-fraud/:email]. *)
Definition patch_users_make_fraud (email : string) (req : Request) : M Response :=
  result <- updateOne userColl {[ "email" := JStr email ]} {[ "status" := JStr "fraud" ]} ;;
  ret (send (JObj {[ "success" := JBool true; "result" := result ]})).

(** [POST /meals]: the handler has no try/catch; reading [user.role] on
    null throws. *)
Definition post_meals (req : Request) : M Response :=
  user <- findOne userColl {[ "email" := tokenEmail req ]} ;;
  match user with
  | None => throw TypeError
  | Some u =>
      if strict_eq (get u "role") (JStr "chef") && strict_eq (get u "status") (JStr "fraud")
      then ret (status_send 403
                  (JObj {[ "errorType" := JStr "FRAUD_USER";
                           "message" := JStr "You are marked as fraud. You cannot create meals." ]}))
      else
        let meal := body req in
        now <- new_Date ;;
        let meal := set "createdAt" now meal in
        result <- insertOne mealsColl meal ;;
        ret (send result)
  end.

(** [GET /meals]: one page of meals. *)
Definition get_meals (req : Request) : M Response :=
  try_catch
    (let or_ (a b : jsval) := if truthy a then a else b in
     let page := or_ (js_parseInt env (get (query req) "page")) (JNum 1) in
     let limit := or_ (js_parseInt env (get (query req) "limit")) (JNum 10) in
     let skip := js_mul env (js_sub env page (JNum 1)) limit in
     totalMeals <- countDocuments mealsColl ;;
     l <- find_all mealsColl ∅ ;;
     match cursor_window env skip limit l with
     | None => throw (MongoError 2)
     | Some meals_ =>
         ret (send (JObj {[ "meals" := docs meals_;
                            "totalMeals" := totalMeals;
                            "totalPages" := Math_ceil env (js_div env totalMeals limit);
                            "currentPage" := page ]}))
     end)
    (fun err =>
       console_error "/meals GET error:" err ;;;
       ret (status_send 500 (message "Failed to fetch meals"))).

(** [GET /meals/:id]. *)
Definition get_meals_id (id : string) (req : Request) : M Response :=
  try_catch
    (if negb (ObjectId_isValid env id)
     then ret (status_send 400 (message "Invalid meal id"))
     else
       oid <- new_ObjectId (JStr id) ;;
       meal <- findOne mealsColl {[ "_id" := oid ]} ;;
       match meal with
       | None => ret (status_send 404 (message "Meal not found"))
       | Some m => ret (send (JObj m))
       end)
    (fun err =>
       console_error "/meals/:id error:" err ;;;
       ret (status_send 500 (JObj {[ "message" := JStr "Failed to fetch meal"; "error" := JErr err ]}))).

(** [GET /reviews]. *)
Definition get_reviews (req : Request) : M Response :=
  try_catch
    (l <- find_all reviewsCollection ∅ ;;
     ret (send (docs (store_sort env "date" l))))
    (fun err =>
       console_error "/reviews GET error:" err ;;;
       ret (status_send 500 (JObj {[ "message" := JStr "Failed to fetch reviews"; "error" := JErr err ]}))).

(** [GET /reviews/:mealId]. *)
Definition get_reviews_mealId (mealId : string) (req : Request) : M Response :=
  try_catch
    (l <- find_all reviewsCollection {[ "foodId" := JStr mealId ]} ;;
     ret (send (docs (store_sort env "date" l))))
    (fun err =>
       console_error "/reviews/:mealId error:" err ;;;
       ret (status_send 500 (JObj {[ "message" := JStr "Failed to fetch reviews"; "error" := JErr err ]}))).

(** [POST /reviews]: the reviewer field is checked only when it is given. *)
Definition post_reviews (req : Request) : M Response :=
  try_catch
    (let review := body req in
     if negb (truthy (get review "foodId"))
     then ret (status_send 400 (message "foodId required"))
     else if truthy (get review "reviewerEmail")
             && negb (strict_eq (get review "reviewerEmail") (tokenEmail req))
     then ret (status_send 403 (message "Forbidden!"))
     else
       let review := set "foodId" (JStr (String_ (get review "foodId"))) review in
       date <- (if truthy (get review "date") then ret (Date_new env (get review "date"))
                else new_Date) ;;
       let review := set "date" date review in
       result <- insertOne reviewsCollection review ;;
       ret (send result))
    (fun err =>
       console_error "/reviews POST error:" err ;;;
       ret (status_send 500 (JObj {[ "message" := JStr "Failed to submit review"; "error" := JErr err ]}))).

(** [POST /favorites]. *)
Definition post_favorites (req : Request) : M Response :=
  try_catch
    (let favorite := body req in
     if negb (truthy (get favorite "userEmail")) || negb (truthy (get favorite "mealId"))
     then ret (status_send 400 (message "userEmail and mealId required"))
     else if negb (strict_eq (get favorite "userEmail") (tokenEmail req))
     then ret (status_send 403 (message "Forbidden!"))
     else
       let mealIdStr := JStr (String_ (get favorite "mealId")) in
       exists_ <- findOne favoritesCollection
                    {[ "userEmail" := get favorite "userEmail"; "mealId" := mealIdStr ]} ;;
       match exists_ with
       | Some _ => ret (send (JObj {[ "exists" := JBool true ]}))
       | None =>
           let favorite := set "mealId" mealIdStr favorite in
           now <- new_Date ;;
           let favorite := set "addedTime" now favorite in
           result <- insertOne favoritesCollection favorite ;;
           ret (send (JObj {[ "success" := JBool true; "result" := result ]}))
       end)
    (fun err =>
       console_error "/favorites POST error:" err ;;;
       ret (status_send 500 (JObj {[ "message" := JStr "Failed to add favorite"; "error" := JErr err ]}))).

(** [GET /favorites/:email]. *)
Definition get_favorites_email (email : string) (req : Request) : M Response :=
  l <- find_all favoritesCollection {[ "userEmail" := JStr email ]} ;;
  ret (send (docs l)).

(** [DELETE /favorites/:id]: no validity check, no try/catch. *)
Definition delete_favorites_id (id : string) (req : Request) : M Response :=
  oid <- new_ObjectId (JStr id) ;;
  result <- deleteOne favoritesCollection {[ "_id" := oid ]} ;;
  ret (send result).

(** [POST /orders]: the handler has no try/catch; reading [user.status]
    on null throws. *)
Definition post_orders (req : Request) : M Response :=
  user <- findOne userColl {[ "email" := tokenEmail req ]} ;;
  match user with
  | None => throw TypeError
  | Some u =>
      if strict_eq (get u "status") (JStr "fraud") && strict_eq (get u "role") (JStr "user")
      then ret (status_send 403
                  (JObj {[ "errorType" := JStr "FRAUD_USER";
                           "message" := JStr "You are marked as fraud. You cannot place orders." ]}))
      else
        let order := body req in
        orderTime <- new_Date ;;
        let order := set "orderTime" orderTime order in
        let order := set "orderStatus" (JStr "pending") order in
        let order := set "paymentStatus" (JStr "pending") order in
        createdAt <- new_Date ;;
        let order := set "createdAt" createdAt order in
        result <- insertOne ordersCollection order ;;
        ret (send result)
  end.

(** [GET /orders?email=]. *)
Definition get_orders (req : Request) : M Response :=
  try_catch
    (let email := get (query req) "email" in
     if negb (truthy email)
     then ret (status_send 400 (message "Email query required"))
     else
       l <- find_all ordersCollection {[ "userEmail" := email ]} ;;
       ret (send (docs (store_sort env "createdAt" l))))
    (fun err =>
       console_error "/orders GET error:" err ;;;
       ret (status_send 500 (message "Failed to fetch orders"))).

(** [GET /orders/:id]. *)
Definition get_orders_id (id : string) (req : Request) : M Response :=
  try_catch
    (if negb (ObjectId_isValid env id)
     then ret (status_send 400 (message "Invalid order id"))
     else
       oid <- new_ObjectId (JStr id) ;;
       order <- findOne ordersCollection {[ "_id" := oid ]} ;;
       match order with
       | None => ret (status_send 404 (message "Order not found"))
       | Some o => ret (send (JObj o))
       end)
    (fun err =>
       console_error "/orders/:id GET error:" err ;;;
       ret (status_send 500 (message "Server Error"))).

(** [GET /users/:email]. *)
Definition get_users_email (email : string) (req : Request) : M Response :=
  try_catch
    (if negb (strict_eq (JStr email) (tokenEmail req))
     then ret (status_send 403 (message "Forbidden!"))
     else
       user <- findOne userColl {[ "email" := JStr email ]} ;;
       match user with
       | None => ret (status_send 404 (message "User not found"))
       | Some u => ret (send (JObj u))
       end)
    (fun err =>
       console_error "/users/:email GET error:" err ;;;
       ret (status_send 500 (JObj {[ "message" := JStr "Failed to fetch user"; "error" := JErr err ]}))).

(** [POST /role-requests]: a duplicate-key error of the store is a
    conflict. *)
Definition post_role_requests (req : Request) : M Response :=
  try_catch
    (let body_ := delete "_id" (body req) in
     if negb (truthy (get body_ "userEmail")) || negb (truthy (get body_ "requestType"))
     then ret (status_send 400 (message "Missing fields"))
     else if negb (strict_eq (get body_ "userEmail") (tokenEmail req))
     then ret (status_send 403 (message "Forbidden!"))
     else
       now <- new_Date ;;
       let body_ := set "requestTime" now body_ in
       let body_ := set "requestStatus" (JStr "pending") body_ in
       result <- insertOne roleRequestColl body_ ;;
       ret (send (JObj {[ "success" := JBool true; "result" := result ]})))
    (fun err =>
       match err with
       | MongoError 11000 =>
           ret (status_send 409
                  (JObj {[ "success" := JBool false;
                           "message" := JStr "You already submitted a request. Please wait for admin approval." ]}))
       | _ =>
           console_error "/role-requests POST error:" err ;;;
           ret (status_send 500 (message "Failed to create role request"))
       end).

(** [GET /role-requests]. *)
Definition get_role_requests (req : Request) : M Response :=
  try_catch
    (l <- find_all roleRequestColl ∅ ;;
     ret (send (docs (store_sort env "requestTime" l))))
    (fun err =>
       console_error "/role-requests GET error:" err ;;;
       ret (status_send 500 (JObj {[ "message" := JStr "Failed to fetch role requests"; "error" := JErr err ]}))).

(** ["chef-" + Math.floor(1000 + Math.random() * 9000)]. *)
Definition generate_chefId : M jsval :=
  n <- ticks ;;
  ret (JStr ("chef-" +:+ pretty (random_chef_number env n))).

(** [PATCH /role-requests/accept/:id]: the user record is written first,
    the request second. *)
Definition patch_role_requests_accept (id : string) (req : Request) : M Response :=
  try_catch
    (oid <- new_ObjectId (JStr id) ;;
     request <- findOne roleRequestColl {[ "_id" := oid ]} ;;
     match request with
     | None => ret (status_send 404 (message "Request not found"))
     | Some rq =>
         user <- findOne userColl {[ "email" := get rq "userEmail" ]} ;;
         match user with
         | None => ret (status_send 404 (message "User not found"))
         | Some _ =>
             let updateFields : jsobj := {[ "role" := get rq "requestType" ]} in
             updateFields <-
               (if strict_eq (get rq "requestType") (JStr "chef")
                then chefId <- generate_chefId ;; ret (set "chefId" chefId updateFields)
                else ret updateFields) ;;
             updateOne userColl {[ "email" := get rq "userEmail" ]} updateFields ;;;
             oid' <- new_ObjectId (JStr id) ;;
             updateOne roleRequestColl {[ "_id" := oid' ]} {[ "requestStatus" := JStr "approved" ]} ;;;
             ret (send (JObj {[ "success" := JBool true; "message" := JStr "Request Approved!" ]}))
         end
     end)
    (fun err =>
       console_error "/role-requests/accept error:" err ;;;
       ret (status_send 500 (message "Server Error"))).

(** [PATCH /role-requests/reject/:id]: only the request is written. *)
Definition patch_role_requests_reject (id : string) (req : Request) : M Response :=
  try_catch
    (oid <- new_ObjectId (JStr id) ;;
     request <- findOne roleRequestColl {[ "_id" := oid ]} ;;
     match request with
     | None => ret (status_send 404 (message "Request not found"))
     | Some _ =>
         oid' <- new_ObjectId (JStr id) ;;
         updateOne roleRequestColl {[ "_id" := oid' ]} {[ "requestStatus" := JStr "rejected" ]} ;;;
         ret (send (JObj {[ "success" := JBool true; "message" := JStr "Request Rejected!" ]}))
     end)
    (fun err =>
       console_error "/role-requests/reject error:" err ;;;
       ret (status_send 500 (message "Server Error"))).

(** [GET /user-reviews?email=]. *)
Definition get_user_reviews (req : Request) : M Response :=
  try_catch
    (let email := get (query req) "email" in
     if negb (truthy email)
     then ret (status_send 400 (message "email is required"))
     else if negb (strict_eq email (tokenEmail req))
     then ret (status_send 403 (message "Forbidden!"))
     else
       l <- find_all reviewsCollection {[ "reviewerEmail" := email ]} ;;
       ret (send (docs (store_sort env "date" l))))
    (fun err =>
       console_error "/user-reviews GET error:" err ;;;
       ret (status_send 500 (message "Failed to fetch user reviews"))).

(** [DELETE /reviews/:id]: only the reviewer deletes. *)
Definition delete_reviews_id (id : string) (req : Request) : M Response :=
  try_catch
    (if negb (ObjectId_isValid env id)
     then ret (status_send 400 (message "Invalid review id"))
     else
       oid <- new_ObjectId (JStr id) ;;
       review <- findOne reviewsCollection {[ "_id" := oid ]} ;;
       match review with
       | None => ret (status_send 404 (message "Review not found"))
       | Some rv =>
           if negb (strict_eq (get rv "reviewerEmail") (tokenEmail req))
           then ret (status_send 403 (message "Forbidden!"))
           else
             oid' <- new_ObjectId (JStr id) ;;
             deleteOne reviewsCollection {[ "_id" := oid' ]} ;;;
             ret (send (JObj {[ "success" := JBool true ]}))
       end)
    (fun err =>
       console_error "/reviews DELETE error:" err ;;;
       ret (status_send 500 (message "Failed to delete review"))).

(** [PATCH /reviews/:id]: only the reviewer updates. *)
Definition patch_reviews_id (id : string) (req : Request) : M Response :=
  try_catch
    (let rating := get (body req) "rating" in
     let comment := get (body req) "comment" in
     if negb (ObjectId_isValid env id)
     then ret (status_send 400 (message "Invalid review id"))
     else
       oid <- new_ObjectId (JStr id) ;;
       review <- findOne reviewsCollection {[ "_id" := oid ]} ;;
       match review with
       | None => ret (status_send 404 (message "Review not found"))
       | Some rv =>
           if negb (strict_eq (get rv "reviewerEmail") (tokenEmail req))
           then ret (status_send 403 (message "Forbidden!"))
           else
             oid' <- new_ObjectId (JStr id) ;;
             now <- new_Date ;;
             updated <- updateOne reviewsCollection {[ "_id" := oid' ]}
                          {[ "rating" := rating; "comment" := comment; "date" := now ]} ;;
             ret (send (JObj {[ "success" := JBool true; "updated" := updated ]}))
       end)
    (fun err =>
       console_error "/reviews PATCH error:" err ;;;
       ret (status_send 500 (message "Failed to update review"))).

(** [POST /order-requests]. *)
Definition post_order_requests (req : Request) : M Response :=
  try_catch
    (let orderData := body req in
     now <- new_Date ;;
     let orderData := set "createdAt" now orderData in
     result <- insertOne orderRequestsCollection orderData ;;
     ret (send result))
    (fun err =>
       console_error "/order-requests POST error:" err ;;;
       ret (status_send 500 (message "Server Error"))).

(** [GET /order-requests]. *)
Definition get_order_requests (req : Request) : M Response :=
  try_catch
    (l <- find_all orderRequestsCollection ∅ ;;
     ret (send (docs (store_sort env "createdAt" l))))
    (fun err =>
       console_error "/order-requests GET error:" err ;;;
       ret (status_send 500 (message "Server Error"))).

(** [GET /orders/chef/:email]. *)
Definition get_orders_chef (email : string) (req : Request) : M Response :=
  try_catch
    (l <- find_all ordersCollection {[ "chefEmail" := JStr email ]} ;;
     ret (send (docs (store_sort env "createdAt" l))))
    (fun err =>
       console_error "/orders/chef error:" err ;;;
       ret (status_send 500 (message "Server Error"))).

(** [PATCH /order-requests/:id]. *)
Definition patch_order_requests_id (id : string) (req : Request) : M Response :=
  try_catch
    (let paymentStatus := get (body req) "paymentStatus" in
     oid <- new_ObjectId (JStr id) ;;
     result <- updateOne orderRequestsCollection {[ "_id" := oid ]}
                 {[ "paymentStatus" := paymentStatus ]} ;;
     ret (send result))
    (fun err =>
       console_error "/order-requests/:id PATCH error:" err ;;;
       ret (status_send 500 (message "Server Error"))).

(** [PATCH /orders/:id]. *)
Definition patch_orders_id (id : string) (req : Request) : M Response :=
  try_catch
    (let orderStatus := get (body req) "orderStatus" in
     oid <- new_ObjectId (JStr id) ;;
     result <- updateOne ordersCollection {[ "_id" := oid ]}
                 {[ "orderStatus" := orderStatus ]} ;;
     ret (send result))
    (fun err =>
       console_error "/orders/:id PATCH error:" err ;;;
       ret (status_send 500 (message "Server Error"))).

(** [GET /meals/chef/:email]. *)
Definition get_meals_chef (email : string) (req : Request) : M Response :=
  l <- find_all mealsColl {[ "chefEmail" := JStr email ]} ;;
  ret (send (docs l)).

(** [DELETE /meals/:id]. *)
Definition delete_meals_id (id : string) (req : Request) : M Response :=
  oid <- new_ObjectId (JStr id) ;;
  result <- deleteOne mealsColl {[ "_id" := oid ]} ;;
  ret (send result).

(** [PATCH /meals/:id]: the body is the [$set] document. *)
Definition patch_meals_id (id : string) (req : Request) : M Response :=
  let updatedMeal := body req in
  oid <- new_ObjectId (JStr id) ;;
  result <- updateOne mealsColl {[ "_id" := oid ]} updatedMeal ;;
  ret (send result).

(** [POST /create-payment-intent]. *)
Definition post_create_payment_intent (req : Request) : M Response :=
  let price := get (body req) "price" in
  let orderId := get (body req) "orderId" in
  match stripe_create env price orderId with
  | inl err => throw err
  | inr url => ret (send (JObj {[ "paymentUrl" := url ]}))
  end.

(** [POST /payment-success]: no middleware, no try/catch. *)
Definition post_payment_success (req : Request) : M Response :=
  let orderId := get (body req) "orderId" in
  let paymentInfo := get (body req) "paymentInfo" in
  oid <- new_ObjectId orderId ;;
  updateOne ordersCollection {[ "_id" := oid ]} {[ "paymentStatus" := JStr "paid" ]} ;;;
  now <- new_Date ;;
  insertOne paymentCollection
    {[ "orderId" := orderId; "paymentInfo" := paymentInfo; "time" := now ]} ;;;
  ret (send (JObj {[ "success" := JBool true ]})).

(** [GET /payments/:id]: looked up by [orderId], not by [_id]. *)
Definition get_payments_id (id : string) (req : Request) : M Response :=
  try_catch
    (payment <- findOne paymentCollection {[ "orderId" := JStr id ]} ;;
     match payment with
     | None => ret (status_send 404 (message "Payment not found"))
     | Some p => ret (send (JObj p))
     end)
    (fun err =>
       ret (status_send 500 (JObj {[ "message" := JStr "Server error"; "error" := JErr err ]}))).

(** [GET /admin/statistics]. *)
Definition get_admin_statistics (req : Request) : M Response :=
  totalUsers <- countDocuments userColl ;;
  orders_ <- find_all ordersCollection ∅ ;;
  let totalPaymentAmount :=
    foldl (fun sum o => js_add env sum (js_mul env (get o "price") (get o "quantity")))
      (JNum 0)
      (List.filter (fun o => strict_eq (get o "paymentStatus") (JStr "paid")) orders_) in
  let ordersPending :=
    List.length (List.filter (fun o => strict_eq (get o "orderStatus") (JStr "pending")) orders_) in
  let ordersDelivered :=
    List.length (List.filter (fun o => strict_eq (get o "orderStatus") (JStr "delivered")) orders_) in
  ret (send (JObj {[ "totalUsers" := totalUsers;
                     "totalPaymentAmount" := totalPaymentAmount;
                     "ordersPending" := JNum (num_of_nat ordersPending);
                     "ordersDelivered" := JNum (num_of_nat ordersDelivered) ]})).

(** [GET /]. *)
Definition get_root (req : Request) : M Response :=
  ret (send (JStr "Hello from Server..")).

(** ** The route table *)

(** The middleware each route is registered with, in order. *)
Definition middlewares (r : Route) : list Gate :=
  match r with
  | POST_users => [verifyJWT_gate]
  | GET_users => [verifyJWT_gate; verifyAdmin_gate]
  | PATCH_users_make_fraud _ => [verifyJWT_gate; verifyAdmin_gate]
  | POST_meals => [verifyJWT_gate; verifyChef_gate]
  | GET_meals => []
  | GET_meals_id _ => []
  | GET_reviews => []
  | GET_reviews_mealId _ => [verifyJWT_gate]
  | POST_reviews => [verifyJWT_gate]
  | POST_favorites => [verifyJWT_gate]
  | GET_favorites_email _ => [verifyJWT_gate]
  | DELETE_favorites_id _ => []
  | POST_orders => [verifyJWT_gate]
  | GET_orders => []
  | GET_orders_id _ => []
  | GET_users_email _ => [verifyJWT_gate]
  | POST_role_requests => [verifyJWT_gate]
  | GET_role_requests => [verifyJWT_gate; verifyAdmin_gate]
  | PATCH_role_requests_accept _ => [verifyJWT_gate; verifyAdmin_gate]
  | PATCH_role_requests_reject _ => [verifyJWT_gate; verifyAdmin_gate]
  | GET_user_reviews => [verifyJWT_gate]
  | DELETE_reviews_id _ => [verifyJWT_gate]
  | PATCH_reviews_id _ => [verifyJWT_gate]
  | POST_order_requests => [verifyJWT_gate]
  | GET_order_requests => [verifyJWT_gate; verifyChef_gate]
  | GET_orders_chef _ => [verifyJWT_gate; verifyChef_gate]
  | PATCH_order_requests_id _ => []
  | PATCH_orders_id _ => [verifyJWT_gate; verifyChef_gate]
  | GET_meals_chef _ => [verifyJWT_gate; verifyChef_gate]
  | DELETE_meals_id _ => [verifyJWT_gate; verifyChef_gate]
  | PATCH_meals_id _ => [verifyJWT_gate; verifyChef_gate]
  | POST_create_payment_intent => [verifyJWT_gate]
  | POST_payment_success => []
  | GET_payments_id _ => []
  | GET_admin_statistics => [verifyJWT_gate; verifyAdmin_gate]
  | GET_root => []
  end.

Definition handler (r : Route) : Request -> M Response :=
  match r with
  | POST_users => post_users
  | GET_users => get_users
  | PATCH_users_make_fraud email => patch_users_make_fraud email
  | POST_meals => post_meals
  | GET_meals => get_meals
  | GET_meals_id id => get_meals_id id
  | GET_reviews => get_reviews
  | GET_reviews_mealId mealId => get_reviews_mealId mealId
  | POST_reviews => post_reviews
  | POST_favorites => post_favorites
  | GET_favorites_email email => get_favorites_email email
  | DELETE_favorites_id id => delete_favorites_id id
  | POST_orders => post_orders
  | GET_orders => get_orders
  | GET_orders_id id => get_orders_id id
  | GET_users_email email => get_users_email email
  | POST_role_requests => post_role_requests
  | GET_role_requests => get_role_requests
  | PATCH_role_requests_accept id => patch_role_requests_accept id
  | PATCH_role_requests_reject id => patch_role_requests_reject id
  | GET_user_reviews => get_user_reviews
  | DELETE_reviews_id id => delete_reviews_id id
  | PATCH_reviews_id id => patch_reviews_id id
  | POST_order_requests => post_order_requests
  | GET_order_requests => get_order_requests
  | GET_orders_chef email => get_orders_chef email
  | PATCH_order_requests_id id => patch_order_requests_id id
  | PATCH_orders_id id => patch_orders_id id
  | GET_meals_chef email => get_meals_chef email
  | DELETE_meals_id id => delete_meals_id id
  | PATCH_meals_id id => patch_meals_id id
  | POST_create_payment_intent => post_create_payment_intent
  | POST_payment_success => post_payment_success
  | GET_payments_id id => get_payments_id id
  | GET_admin_statistics => get_admin_statistics
  | GET_root => get_root
  end.

(** One request, from the first middleware to the end of the handler. *)
Definition serve (r : Route) (req : Request) (w : World) : Outcome * World :=
  match run_chain (middlewares r) (handler r) req w with
  | (Val resp, w') => (Responded resp, w')
  | (Exc e, w') => (Unhandled e, w')
  end.

End Server.

(** ** A concrete environment

    Used to run the server on explicit requests: tokens [tokA], [tokB],
    [tokAdmin] and [tokGhost] verify, the others are rejected; an
    identifier is 24 hexadecimal digits; no store call fails. *)

Definition is_hex_digit (c : ascii) : bool :=
  let n := nat_of_ascii c in
  (Nat.leb 48 n && Nat.leb n 57) || (Nat.leb 65 n && Nat.leb n 70)
  || (Nat.leb 97 n && Nat.leb n 102).

Fixpoint all_hex (s : string) : bool :=
  match s with
  | EmptyString => true
  | String c s' => is_hex_digit c && all_hex s'
  end.

Definition hex24 (s : string) : bool :=
  Nat.eqb (String.length s) 24 && all_hex s.

Definition verify0 (token : string) : Exn + option string :=
  if String.eqb token "tokA" then inr (Some "a@x.com")
  else if String.eqb token "tokB" then inr (Some "b@x.com")
  else if String.eqb token "tokAdmin" then inr (Some "admin@x.com")
  else if String.eqb token "tokGhost" then inr (Some "ghost@x.com")
  else if String.eqb token "tokExpired" then inl (FirebaseError "auth/id-token-expired")
  else inl (FirebaseError "auth/argument-error").

Definition env0 : Env := {|
  verifyIdToken := verify0;
  ObjectId_isValid := hex24;
  ObjectId_new := fun n x =>
    match x with
    | JStr s => if hex24 s then Some s else None
    | JUndef | JNull | JNum _ => Some ("generated-" +:+ pretty n)
    | _ => None
    end;
  ObjectId_generate := fun n => "generated-" +:+ pretty n;
  store_fault := fun _ => None;
  query_match := fun _ _ => false;
  store_sort := fun _ l => l;
  cursor_window := fun _ _ l => Some l;
  Date_now := fun n => JDate (Z.of_nat n);
  Date_new := fun v => v;
  random_chef_number := fun _ => 4711%Z;
  ToString := fun _ => "[object Object]";
  js_parseInt := fun v => v;
  js_sub := fun a _ => a;
  js_mul := fun a _ => a;
  js_add := fun a _ => a;
  js_div := fun a _ => a;
  Math_ceil := fun a => a;
  stripe_create := fun _ _ => inl (StripeError "api_connection_error");
|}.

(** [env0] with the store failing at its [k]-th call. *)
Definition env0_failing_at (k : nat) : Env := {|
  verifyIdToken := verifyIdToken env0;
  ObjectId_isValid := ObjectId_isValid env0;
  ObjectId_new := ObjectId_new env0;
  ObjectId_generate := ObjectId_generate env0;
  store_fault := fun n => if Nat.eqb n k then Some 89%Z else None;
  query_match := query_match env0;
  store_sort := store_sort env0;
  cursor_window := cursor_window env0;
  Date_now := Date_now env0;
  Date_new := Date_new env0;
  random_chef_number := random_chef_number env0;
  ToString := ToString env0;
  js_parseInt := js_parseInt env0;
  js_sub := js_sub env0;
  js_mul := js_mul env0;
  js_add := js_add env0;
  js_div := js_div env0;
  Math_ceil := Math_ceil env0;
  stripe_create := stripe_create env0;
|}.

Definition empty_db : DB :=
  {| users := []; meals := []; reviews := []; favorites := []; orders := [];
     roleRequests := []; orderRequests := []; payments := [] |}.

Definition world_of (d : DB) : World :=
  {| db := d; store_log := []; verify_log := []; console := [] |}.

(** A request with the header [Bearer <token>] and the given body. *)
Definition bearer (token : string) (b : jsobj) : Request :=
  {| authorization := Some ("Bearer " +:+ token); body := b; query := ∅; tokenEmail := JUndef |}.

(** A request without credentials. *)
Definition anonymous (b : jsobj) : Request :=
  {| authorization := None; body := b; query := ∅; tokenEmail := JUndef |}.

Definition user_doc (email role status_ : string) : jsobj :=
  {[ "email" := JStr email; "role" := JStr role; "status" := JStr status_ ]}.

(** A database whose three users are all flagged as fraud. *)
Definition fraud_db : DB :=
  {| users := [user_doc "a@x.com" "chef" "fraud"; user_doc "b@x.com" "user" "fraud";
               user_doc "admin@x.com" "admin" "fraud"];
     meals := []; reviews := []; favorites := []; orders := [];
     roleRequests := []; orderRequests := []; payments := [] |}.

(** A database with an ordinary user, a chef and an admin. *)
Definition plain_db : DB :=
  {| users := [user_doc "a@x.com" "user" "normal"; user_doc "b@x.com" "chef" "normal";
               user_doc "admin@x.com" "admin" "normal"];
     meals := []; reviews := []; favorites := []; orders := [];
     roleRequests := []; orderRequests := []; payments := [] |}.

(** A pending request of [a@x.com] to become a chef. *)
Definition chef_request : jsobj :=
  {[ "_id" := JOid "0123456789abcdef01234567"; "userEmail" := JStr "a@x.com";
     "requestType" := JStr "chef"; "requestStatus" := JStr "pending" ]}.

Definition request_db : DB :=
  {| users := users plain_db; meals := []; reviews := []; favorites := []; orders := [];
     roleRequests := [chef_request]; orderRequests := []; payments := [] |}.

(** ** Vocabulary of the statements *)

(** A route is protected when [verifyJWT] is its first middleware. *)
Definition protected (r : Route) : bool :=
  match middlewares r with
  | verifyJWT_gate :: _ => true
  | _ => false
  end.

(** The header is missing, or does not split into exactly two segments. *)
Definition malformed_header (req : Request) : Prop :=
  match authorization req with
  | None => True
  | Some a => List.length (split_space a) ≠ 2
  end.

(** The request carries a token that the identity provider verifies,
    with the given email claim. *)
Definition authenticated (env : Env) (req : Request) (token : string) (email : option string) : Prop :=
  getTokenFromHeader req = Some token ∧ token ≠ "" ∧ verifyIdToken env token = inr email.

(** The request carries a token that the identity provider rejects. *)
Definition rejected (env : Env) (req : Request) (token : string) (err : Exn) : Prop :=
  getTokenFromHeader req = Some token ∧ token ≠ "" ∧ verifyIdToken env token = inl err.

(** No store call fails. *)
Definition store_reliable (env : Env) : Prop := ∀ n, store_fault env n = None.

(** The record [findOne({ email })] returns for a principal. *)
Definition user_record (env : Env) (email : jsval) (d : DB) : option jsobj :=
  List.find (matches env {[ "email" := email ]}) (users d).

(** The role gate of a route: the middleware registered after
    [verifyJWT], when there is one. *)
Definition role_gate (r : Route) : option Gate :=
  match middlewares r with
  | [verifyJWT_gate; g] => Some g
  | _ => None
  end.

(** The status of the response, when the server's code wrote one. *)
Definition status_of (o : Outcome) : option Z :=
  match o with
  | Responded r => Some (status r)
  | Unhandled _ => None
  end.

(** A field of the response's JSON object. *)
Definition field_of (o : Outcome) (k : string) : jsval :=
  match o with
  | Responded {| payload := JObj b |} => get b k
  | _ => JUndef
  end.

(** The owner field that a self-ownership-gated creation route compares
    with the principal. *)
Definition owner_field (r : Route) : option string :=
  match r with
  | POST_users => Some "email"
  | POST_favorites => Some "userEmail"
  | POST_role_requests => Some "userEmail"
  | _ => None
  end.

(** The fields such a route requires before it compares the owner. *)
Definition required_fields (r : Route) : list string :=
  match r with
  | POST_users => ["email"]
  | POST_favorites => ["userEmail"; "mealId"]
  | POST_role_requests => ["userEmail"; "requestType"]
  | _ => []
  end.

(** ** The earliest revision

    [index.js] also holds the first revision of the server: a token
    middleware that takes the second segment of the header without
    counting the segments, and seven routes over the users, the meals and
    the reviews. It runs over the same store and collaborators. *)

Module Legacy.

Inductive Route : Type :=
| POST_users
| GET_users
| POST_meals
| GET_meals
| GET_meals_id (id : string)
| GET_reviews
| GET_root.

Section Server.
Context (env : Env).

(** [verifyJWT]: [req?.headers?.authorization?.split(" ")[1]] is the
    token; the rejection is written with [console.log(err)]. *)
Definition verifyJWT (req : Request) : M Step :=
  let token : option string :=
    match authorization req with
    | None => None
    | Some auth => split_space auth !! 1
    end in
  match token with
  | None => ret (Respond (status_send 401 (message "Unauthorized Access!")))
  | Some token =>
      if negb (truthy (JStr token))
      then ret (Respond (status_send 401 (message "Unauthorized Access!")))
      else
        fun w =>
          let w1 := log_verify token w in
          match verifyIdToken env token with
          | inr email => (Val (Next (with_tokenEmail (email_claim email) req)), w1)
          | inl err =>
              (Val (Respond (status_send 401
                      (JObj {[ "message" := JStr "Unauthorized Access!"; "err" := JErr err ]}))),
               log_console "" err w1)
          end
  end.

(** [POST /users]: no required-field check, no try/catch. *)
Definition post_users (req : Request) : M Response :=
  let user := body req in
  if negb (strict_eq (tokenEmail req) (get user "email"))
  then ret (status_send 403 (message "Forbidden!"))
  else
    exists_ <- findOne env userColl {[ "email" := get user "email" ]} ;;
    match exists_ with
    | Some _ => ret (send (message "User already exists"))
    | None =>
        result <- insertOne env userColl user ;;
        ret (send result)
    end.

(** [GET /users]: public. *)
Definition get_users (req : Request) : M Response :=
  result <- find_all env userColl ∅ ;;
  ret (send (docs result)).

(** [POST /meals]: only under the caller's own email. *)
Definition post_meals (req : Request) : M Response :=
  let meal := body req in
  try_catch
    (if negb (strict_eq (get meal "userEmail") (tokenEmail req))
     then ret (status_send 403 (message "Forbidden!"))
     else
       createdAt <- (if truthy (get meal "createdAt")
                     then ret (Date_new env (get meal "createdAt"))
                     else new_Date env) ;;
       let meal := set "createdAt" createdAt meal in
       result <- insertOne env mealsColl meal ;;
       ret (send result))
    (fun err =>
       ret (status_send 500 (JObj {[ "message" := JStr "Failed to add meal"; "error" := JErr err ]}))).

(** [GET /meals]. *)
Definition get_meals (req : Request) : M Response :=
  try_catch
    (meals_ <- find_all env mealsColl ∅ ;;
     ret (send (docs meals_)))
    (fun err =>
       ret (status_send 500 (JObj {[ "message" := JStr "Failed to fetch meals"; "error" := JErr err ]}))).

(** [GET /meals/:id]: no validity check, no try/catch. *)
Definition get_meals_id (id : string) (req : Request) : M Response :=
  oid <- new_ObjectId env (JStr id) ;;
  meal <- findOne env mealsColl {[ "_id" := oid ]} ;;
  match meal with
  | None => ret (status_send 404 (message "Meal not found"))
  | Some m => ret (send (JObj m))
  end.

(** [GET /reviews]. *)
Definition get_reviews (req : Request) : M Response :=
  result <- find_all env reviewsCollection ∅ ;;
  ret (send (docs result)).

(** [GET /]. *)
Definition get_root (req : Request) : M Response :=
  ret (send (JStr "Hello from Server..")).

(** Whether the route is registered with [verifyJWT]. *)
Definition guarded (r : Route) : bool :=
  match r with
  | POST_users | POST_meals => true
  | _ => false
  end.

Definition handler (r : Route) : Request -> M Response :=
  match r with
  | POST_users => post_users
  | GET_users => get_users
  | POST_meals => post_meals
  | GET_meals => get_meals
  | GET_meals_id id => get_meals_id id
  | GET_reviews => get_reviews
  | GET_root => get_root
  end.

(** One request, from the middleware to the end of the handler. *)
Definition serve (r : Route) (req : Request) (w : World) : Outcome * World :=
  let run : M Response :=
    if guarded r
    then (s <- verifyJWT req ;;
          match s with
          | Next req' => handler r req'
          | Respond resp => ret resp
          end)
    else handler r req in
  match run w with
  | (Val resp, w') => (Responded resp, w')
  | (Exc e, w') => (Unhandled e, w')
  end.

End Server.

End Legacy.

(** ** More vocabulary *)

(** [parts.join(" ")]. *)
Fixpoint join_space (parts : list string) : string :=
  match parts with
  | [] => ""
  | [p] => p
  | p :: ps => p +:+ " " +:+ join_space ps
  end.

(** The string holds no space. *)
Fixpoint spaceless (s : string) : bool :=
  match s with
  | EmptyString => true
  | String c s' => negb (Ascii.eqb c " "%char) && spaceless s'
  end.

(** The routes registered with [app.get]. *)
Definition is_get (r : Route) : bool :=
  match r with
  | GET_users | GET_meals | GET_meals_id _ | GET_reviews | GET_reviews_mealId _
  | GET_favorites_email _ | GET_orders | GET_orders_id _ | GET_users_email _
  | GET_role_requests | GET_user_reviews | GET_order_requests | GET_orders_chef _
  | GET_meals_chef _ | GET_payments_id _ | GET_admin_statistics | GET_root => true
  | _ => false
  end.

(** The routes whose handlers write to the users: self-registration, the
    fraud flag and the approval of a role request. *)
Definition writes_users (r : Route) : bool :=
  match r with
  | POST_users | PATCH_users_make_fraud _ | PATCH_role_requests_accept _ => true
  | _ => false
  end.

(** A computation keeps the relation [R] between the world it starts in
    and the world it ends in. *)
Definition keeps {A} (R : World -> World -> Prop) (m : M A) : Prop :=
  forall w, R w (m w).2.

(** The same database. *)
Definition same_db (w w' : World) : Prop := db w' = db w.

(** The same users. *)
Definition same_users (w w' : World) : Prop := users (db w') = users (db w).

(** The emails of the user records, in the order of the collection. *)
Definition user_emails (d : DB) : list jsval := (fun u => get u "email") <$> users d.

(** Every user record is still there, at its place and under its email;
    records may have been added after them. *)
Definition users_persist (w w' : World) : Prop :=
  user_emails (db w) `prefix_of` user_emails (db w').

(** No token was handed to the identity provider. *)
Definition same_verify_log (w w' : World) : Prop := verify_log w' = verify_log w.

(** A request that differs from [req] in its credentials only. *)
Definition with_credentials (a : option string) (t : jsval) (req : Request) : Request :=
  {| authorization := a; body := body req; query := query req; tokenEmail := t |}.

(** What a relation lets a store call do to a collection: append a
    document, rewrite the first match, drop the first match. *)
Definition allows_insert (R : World -> World -> Prop) (c : Coll) : Prop :=
  forall w d call,
    R w (with_db (set_coll c (coll c (db w) ++ [d]) (db w)) (log_store call w)).

Definition allows_update (R : World -> World -> Prop) (c : Coll) (fields : jsobj) : Prop :=
  forall w p call,
    R w (with_db (set_coll c (update_first p (fun doc => to_bson fields ∪ doc) (coll c (db w)))
                    (db w))
           (log_store call w)).

Definition allows_delete (R : World -> World -> Prop) (c : Coll) : Prop :=
  forall w p call,
    R w (with_db (set_coll c (delete_first p (coll c (db w))) (db w)) (log_store call w)).

(** A relation between worlds that every step which only reads or logs
    respects. *)
Class Frame (R : World -> World -> Prop) : Prop := {
  frame_refl : forall w, R w w;
  frame_trans : forall a b c, R a b -> R b c -> R a c;
  frame_store : forall call w, R w (log_store call w);
  frame_console : forall l e w, R w (log_console l e w);
}.

(** A frame that a token verification respects as well. *)
Class VerifyFrame (R : World -> World -> Prop) : Prop :=
  frame_verify : forall t w, R w (log_verify t w).

(** The tokens a request makes the server verify: the header's token on a
    protected route, when there is one and it is not empty. *)
Definition verified_tokens (r : Route) (req : Request) : list string :=
  if protected r
  then match getTokenFromHeader req with
       | Some t => if truthy (JStr t) then [t] else []
       | None => []
       end
  else [].

(** The value the driver writes for a field: [undefined] becomes null. *)
Definition bson_value (v : jsval) : jsval :=
  match v with
  | JUndef => JNull
  | _ => v
  end.

(** A review of the meal [m1] by [a@x.com]. *)
Definition sample_review : jsobj :=
  {[ "_id" := JOid "0123456789abcdef01234567"; "foodId" := JStr "m1";
     "reviewerEmail" := JStr "a@x.com" ]}.

Definition review_db : DB :=
  {| users := users plain_db; meals := []; reviews := [sample_review]; favorites := [];
     orders := []; roleRequests := []; orderRequests := []; payments := [] |}.

(** A pending request of [a@x.com] to become an admin. *)
Definition admin_request : jsobj :=
  {[ "_id" := JOid "0123456789abcdef01234567"; "userEmail" := JStr "a@x.com";
     "requestType" := JStr "admin"; "requestStatus" := JStr "pending" ]}.

Definition admin_request_db : DB :=
  {| users := users plain_db; meals := []; reviews := []; favorites := []; orders := [];
     roleRequests := [admin_request]; orderRequests := []; payments := [] |}.

(** [env0] with the store failing at its [k]-th call with the given code. *)
Definition env0_failing_with (k : nat) (code : Z) : Env := {|
  verifyIdToken := verifyIdToken env0;
  ObjectId_isValid := ObjectId_isValid env0;
  ObjectId_new := ObjectId_new env0;
  ObjectId_generate := ObjectId_generate env0;
  store_fault := fun n => if Nat.eqb n k then Some code else None;
  query_match := query_match env0;
  store_sort := store_sort env0;
  cursor_window := cursor_window env0;
  Date_now := Date_now env0;
  Date_new := Date_new env0;
  random_chef_number := random_chef_number env0;
  ToString := ToString env0;
  js_parseInt := js_parseInt env0;
  js_sub := js_sub env0;
  js_mul := js_mul env0;
  js_add := js_add env0;
  js_div := js_div env0;
  Math_ceil := Math_ceil env0;
  stripe_create := stripe_create env0;
|}.

(** The status codes the server's code writes. *)
Definition known_status (s : Z) : bool :=
  bool_decide (s ∈ [200; 400; 401; 403; 404; 409; 500]%Z).

(** A computation that answers, when it answers, with a known status. *)
Definition answers_known (m : M Response) : Prop :=
  forall w, match (m w).1 with
            | Val r => known_status (status r) = true
            | Exc _ => True
            end.

(** A delivered order of [a@x.com] and a meal, both of the chef
    [c@x.com]. *)
Definition delivered_order : jsobj :=
  {[ "_id" := JOid "0123456789abcdef01234567"; "userEmail" := JStr "a@x.com";
     "chefEmail" := JStr "c@x.com"; "orderStatus" := JStr "delivered";
     "paymentStatus" := JStr "paid" ]}.

Definition other_chefs_meal : jsobj :=
  {[ "_id" := JOid "0123456789abcdef01234567"; "foodName" := JStr "Soup";
     "chefEmail" := JStr "c@x.com" ]}.

Definition order_db : DB :=
  {| users := users plain_db; meals := [other_chefs_meal]; reviews := []; favorites := [];
     orders := [delivered_order]; roleRequests := []; orderRequests := []; payments := [] |}.

(** ** Tactics *)

(** Closes [authenticated] and [rejected] on a concrete request. *)
Ltac by_evaluation :=
  split; [vm_compute; reflexivity | split; [discriminate | vm_compute; reflexivity]].

(** Case analysis on the conditions and store results of a handler. *)
Ltac handler_cases :=
  repeat (match goal with
          | |- context [store_fault ?e ?n] => destruct (store_fault e n) eqn:?
          | |- context [List.find ?p ?l] => destruct (List.find p l) eqn:?
          | |- context [if ?b then _ else _] => destruct b eqn:?
          end;
          cbn [fst snd db store_log with_db log_console log_store log_verify coll]).

(** ** Basic facts *)

Lemma truthy_JStr (s : string) : truthy (JStr s) = true ↔ s ≠ "".
Proof.
  simpl. destruct (String.eqb_spec s "") as [-> | Hne]; simpl; split; congruence.
Qed.

Lemma strict_eq_JStr_r (v : jsval) (s : string) :
  strict_eq v (JStr s) = true ↔ v = JStr s.
Proof.
  destruct v; simpl; try (split; congruence).
  destruct (String.eqb_spec s0 s); split; congruence.
Qed.

Lemma strict_eq_JStr_l (v : jsval) (s : string) :
  strict_eq (JStr s) v = true ↔ v = JStr s.
Proof.
  destruct v; simpl; try (split; congruence).
  destruct (String.eqb_spec s s0); split; congruence.
Qed.

Lemma strict_eq_email_claim (v : jsval) (email : option string) :
  truthy v = true → strict_eq v (email_claim email) = true → v = email_claim email.
Proof.
  destruct email as [e |]; simpl.
  - intros _. apply strict_eq_JStr_r.
  - destruct v; simpl; congruence.
Qed.

Lemma protected_head (r : Route) :
  protected r = true → ∃ gs, middlewares r = verifyJWT_gate :: gs.
Proof.
  unfold protected. destruct (middlewares r) as [| [] gs]; try discriminate. eauto.
Qed.

Lemma getToken_malformed (req : Request) :
  malformed_header req → getTokenFromHeader req = None.
Proof.
  unfold malformed_header, getTokenFromHeader.
  destruct (authorization req) as [a |]; [| done].
  intros Hlen. destruct (negb (truthy (JStr a))); [done |].
  destruct (Nat.eqb_spec (List.length (split_space a)) 2); [done | reflexivity].
Qed.

Lemma verifyJWT_malformed (env : Env) (req : Request) (w : World) :
  malformed_header req →
  verifyJWT env req w = (Val (Respond (status_send 401 (message "Unauthorized Access!"))), w).
Proof.
  intros H. unfold verifyJWT. rewrite (getToken_malformed req H). reflexivity.
Qed.

Lemma verifyJWT_authenticated (env : Env) (req : Request) (token : string) (email : option string) (w : World) :
  authenticated env req token email →
  verifyJWT env req w = (Val (Next (with_tokenEmail (email_claim email) req)), log_verify token w).
Proof.
  intros (Htok & Hne & Hver). unfold verifyJWT. rewrite Htok.
  apply truthy_JStr in Hne. rewrite Hne. simpl. rewrite Hver. reflexivity.
Qed.

Lemma verifyJWT_rejected (env : Env) (req : Request) (token : string) (err : Exn) (w : World) :
  rejected env req token err →
  verifyJWT env req w =
    (Val (Respond (status_send 401
            (JObj {[ "message" := JStr "Unauthorized Access!"; "err" := JErr err ]}))),
     log_console "verifyJWT error:" err (log_verify token w)).
Proof.
  intros (Htok & Hne & Hver). unfold verifyJWT. rewrite Htok.
  apply truthy_JStr in Hne. rewrite Hne. simpl. rewrite Hver. reflexivity.
Qed.

Lemma run_chain_authenticated (env : Env) (gs : list Gate) (h : Request → M Response)
    (req : Request) (token : string) (email : option string) (w : World) :
  authenticated env req token email →
  run_chain env (verifyJWT_gate :: gs) h req w =
    run_chain env gs h (with_tokenEmail (email_claim email) req) (log_verify token w).
Proof.
  intros H. simpl. unfold bind. rewrite (verifyJWT_authenticated env req token email w H).
  reflexivity.
Qed.

(** A store call that does not fail. *)
Lemma store_ok {A} (env : Env) (c : StoreCall) (f : DB → A * DB) (w : World) :
  store_fault env (List.length (store_log w)) = None →
  store env c f w = (Val (f (db w)).1, with_db (f (db w)).2 (log_store c w)).
Proof.
  intros H. unfold store. rewrite H. destruct (f (db w)); reflexivity.
Qed.

(** A store call that fails changes nothing but the log. *)
Lemma store_fails {A} (env : Env) (c : StoreCall) (f : DB → A * DB) (w : World) (code : Z) :
  store_fault env (List.length (store_log w)) = Some code →
  store env c f w = (Exc (MongoError code), log_store c w).
Proof.
  intros H. unfold store. rewrite H. reflexivity.
Qed.

(** ** C4: a malformed header never passes the token middleware *)

(** C4. On every protected route, a request whose Authorization header is
    missing or does not split into exactly two space-separated segments is
    answered 401 by [verifyJWT]; the world is left as it was (no token is
    handed to the identity provider, the store is not called), and the
    answer does not depend on the middleware and the handler that follow
    (the policy checks are not reached). *)
Theorem malformed_header_unauthenticated (env : Env) (r : Route) (req : Request) (w : World) :
  protected r = true →
  malformed_header req →
  serve env r req w = (Responded (status_send 401 (message "Unauthorized Access!")), w)
  ∧ ∀ (gs : list Gate) (h : Request → M Response),
      run_chain env (verifyJWT_gate :: gs) h req w
      = (Val (status_send 401 (message "Unauthorized Access!")), w).
Proof.
  intros Hp Hm.
  assert (Hchain : ∀ gs h, run_chain env (verifyJWT_gate :: gs) h req w
                           = (Val (status_send 401 (message "Unauthorized Access!")), w)).
  { intros gs h. simpl. unfold bind. rewrite (verifyJWT_malformed env req w Hm). reflexivity. }
  split; [| exact Hchain].
  destruct (protected_head r Hp) as [gs Hgs].
  unfold serve. rewrite Hgs, Hchain. reflexivity.
Qed.

Lemma malformed_header_unauthenticated_witness :
  serve env0 POST_orders
    {| authorization := Some "Bearer tokA extra"; body := ∅; query := ∅; tokenEmail := JUndef |}
    (world_of empty_db)
  = (Responded (status_send 401 (message "Unauthorized Access!")), world_of empty_db).
Proof.
  apply (malformed_header_unauthenticated env0 POST_orders
           {| authorization := Some "Bearer tokA extra"; body := ∅; query := ∅; tokenEmail := JUndef |}
           (world_of empty_db)).
  - reflexivity.
  - vm_compute. lia.
Defined.

(** ** The role gates *)

Lemma role_gate_chain (r : Route) (g : Gate) :
  role_gate r = Some g → middlewares r = [verifyJWT_gate; g].
Proof.
  unfold role_gate.
  destruct (middlewares r) as [| [] [| g' [| ? ?]]]; try discriminate.
  intros [= ->]. reflexivity.
Qed.

Lemma findOne_ok (env : Env) (c : Coll) (filter : jsobj) (w : World) :
  store_fault env (List.length (store_log w)) = None →
  findOne env c filter w
  = (Val (List.find (matches env filter) (coll c (db w))), log_store (CFindOne c filter) w).
Proof.
  intros H. unfold findOne. rewrite store_ok by exact H. reflexivity.
Qed.

Lemma verifyChef_ok (env : Env) (req : Request) (w : World) :
  store_fault env (List.length (store_log w)) = None →
  verifyChef env req w =
    (Val match user_record env (tokenEmail req) (db w) with
         | None => Respond (status_send 404 (message "User not found!"))
         | Some u =>
             if negb (strict_eq (get u "role") (JStr "chef"))
                && negb (strict_eq (get u "role") (JStr "admin"))
             then Respond (status_send 403 (message "Access denied! Chef only."))
             else Next req
         end,
     log_store (CFindOne userColl {[ "email" := tokenEmail req ]}) w).
Proof.
  intros H. unfold verifyChef, try_catch, bind. rewrite findOne_ok by exact H.
  unfold user_record. simpl.
  destruct (List.find _ (users (db w))) as [u |]; [| reflexivity].
  destruct (negb _ && negb _); reflexivity.
Qed.

Lemma verifyAdmin_ok (env : Env) (req : Request) (w : World) :
  store_fault env (List.length (store_log w)) = None →
  verifyAdmin env req w =
    (Val match user_record env (tokenEmail req) (db w) with
         | None => Respond (status_send 403 (message "Admin only!"))
         | Some u =>
             if negb (strict_eq (get u "role") (JStr "admin"))
             then Respond (status_send 403 (message "Admin only!"))
             else Next req
         end,
     log_store (CFindOne userColl {[ "email" := tokenEmail req ]}) w).
Proof.
  intros H. unfold verifyAdmin, bind. rewrite findOne_ok by exact H.
  unfold user_record. simpl.
  destruct (List.find _ (users (db w))) as [u |]; [| reflexivity].
  destruct (negb _); reflexivity.
Qed.

Lemma strict_eq_JStr_false (v : jsval) (s : string) :
  v ≠ JStr s → strict_eq v (JStr s) = false.
Proof.
  intros H. destruct (strict_eq v (JStr s)) eqn:E; [| reflexivity].
  apply strict_eq_JStr_r in E. contradiction.
Qed.

(** ** C6: what the role gates answer *)

(** C6, counterexample. The principal [ghost@x.com] is authenticated and
    has no user record; on the admin-gated route GET /users the answer is
    403, not 404. *)
Lemma admin_gate_absent_record_is_forbidden :
  authenticated env0 (bearer "tokGhost" ∅) "tokGhost" (Some "ghost@x.com")
  ∧ user_record env0 (JStr "ghost@x.com") empty_db = None
  ∧ role_gate GET_users = Some verifyAdmin_gate
  ∧ status_of (serve env0 GET_users (bearer "tokGhost" ∅) (world_of empty_db)).1 = Some 403%Z
  ∧ status_of (serve env0 GET_users (bearer "tokGhost" ∅) (world_of empty_db)).1 ≠ Some 404%Z.
Proof.
  repeat split; try (vm_compute; reflexivity); vm_compute; discriminate.
Qed.

(** C6, amended. On a chef-gated route an authenticated principal without
    a user record is answered 404, and one whose role is neither chef nor
    admin is answered 403. On an admin-gated route both the principal
    without a record and the one whose role is not admin are answered 403.
    In each case the store has been asked one [findOne] on the users and
    nothing else. *)
Theorem role_gate_failures (env : Env) (r : Route) (req : Request)
    (token : string) (email : option string) (w : World) :
  authenticated env req token email →
  store_fault env (List.length (store_log w)) = None →
  let w' := log_store (CFindOne userColl {[ "email" := email_claim email ]}) (log_verify token w) in
  let record := user_record env (email_claim email) (db w) in
  (role_gate r = Some verifyChef_gate →
     (record = None →
        serve env r req w = (Responded (status_send 404 (message "User not found!")), w'))
     ∧ (∀ u, record = Some u → get u "role" ≠ JStr "chef" → get u "role" ≠ JStr "admin" →
        serve env r req w = (Responded (status_send 403 (message "Access denied! Chef only.")), w')))
  ∧ (role_gate r = Some verifyAdmin_gate →
     (record = None →
        serve env r req w = (Responded (status_send 403 (message "Admin only!")), w'))
     ∧ (∀ u, record = Some u → get u "role" ≠ JStr "admin" →
        serve env r req w = (Responded (status_send 403 (message "Admin only!")), w'))).
Proof.
  intros Hauth Hok w' record.
  split; intros Hg; apply role_gate_chain in Hg; unfold serve; rewrite Hg;
    rewrite (run_chain_authenticated env _ _ req token email w Hauth);
    simpl; unfold bind.
  - rewrite verifyChef_ok by exact Hok. simpl. fold record.
    split.
    + intros ->. reflexivity.
    + intros u -> Hc Ha.
      rewrite (strict_eq_JStr_false _ _ Hc), (strict_eq_JStr_false _ _ Ha). reflexivity.
  - rewrite verifyAdmin_ok by exact Hok. simpl. fold record.
    split.
    + intros ->. reflexivity.
    + intros u -> Ha. rewrite (strict_eq_JStr_false _ _ Ha). reflexivity.
Qed.

Lemma role_gate_failures_witness :
  serve env0 POST_meals (bearer "tokGhost" ∅) (world_of empty_db)
  = (Responded (status_send 404 (message "User not found!")),
     log_store (CFindOne userColl {[ "email" := JStr "ghost@x.com" ]})
       (log_verify "tokGhost" (world_of empty_db))).
Proof.
  apply (role_gate_failures env0 POST_meals (bearer "tokGhost" ∅) "tokGhost"
           (Some "ghost@x.com") (world_of empty_db)).
  - by_evaluation.
  - reflexivity.
  - reflexivity.
  - reflexivity.
Defined.

(** ** C9: what a rejected token is answered *)

(** C9, counterexample. Two tokens rejected for different reasons get
    different responses: the body carries the provider's error. *)
Lemma rejected_tokens_are_distinguishable :
  rejected env0 (bearer "tokExpired" ∅) "tokExpired" (FirebaseError "auth/id-token-expired")
  ∧ rejected env0 (bearer "tokForged" ∅) "tokForged" (FirebaseError "auth/argument-error")
  ∧ (serve env0 POST_users (bearer "tokExpired" ∅) (world_of empty_db)).1
    ≠ (serve env0 POST_users (bearer "tokForged" ∅) (world_of empty_db)).1
  ∧ field_of (serve env0 POST_users (bearer "tokExpired" ∅) (world_of empty_db)).1 "err"
    = JErr (FirebaseError "auth/id-token-expired")
  ∧ field_of (serve env0 POST_users (bearer "tokForged" ∅) (world_of empty_db)).1 "err"
    = JErr (FirebaseError "auth/argument-error").
Proof.
  repeat split; try (vm_compute; reflexivity); vm_compute; discriminate.
Qed.

(** C9, amended. Two requests to a protected route whose tokens are
    rejected, for whatever reasons, are both answered with status 401 and
    the same message; each cause is logged on the console, and it is also
    sent to the caller in the [err] field of the body. After the rejection
    nothing else runs: the store is not called. *)
Theorem rejected_token_response (env : Env) (r : Route) (req1 req2 : Request)
    (token1 token2 : string) (err1 err2 : Exn) (w1 w2 : World) :
  protected r = true →
  rejected env req1 token1 err1 →
  rejected env req2 token2 err2 →
  serve env r req1 w1 =
    (Responded (status_send 401
       (JObj {[ "message" := JStr "Unauthorized Access!"; "err" := JErr err1 ]})),
     log_console "verifyJWT error:" err1 (log_verify token1 w1))
  ∧ serve env r req2 w2 =
    (Responded (status_send 401
       (JObj {[ "message" := JStr "Unauthorized Access!"; "err" := JErr err2 ]})),
     log_console "verifyJWT error:" err2 (log_verify token2 w2)).
Proof.
  intros Hp H1 H2. destruct (protected_head r Hp) as [gs Hgs].
  unfold serve. rewrite Hgs. simpl. unfold bind.
  rewrite (verifyJWT_rejected env req1 token1 err1 w1 H1).
  rewrite (verifyJWT_rejected env req2 token2 err2 w2 H2).
  split; reflexivity.
Qed.

Lemma rejected_token_response_witness :
  status_of (serve env0 POST_users (bearer "tokExpired" ∅) (world_of empty_db)).1 = Some 401%Z
  ∧ status_of (serve env0 POST_users (bearer "tokForged" ∅) (world_of empty_db)).1 = Some 401%Z.
Proof.
  destruct (rejected_token_response env0 POST_users
              (bearer "tokExpired" ∅) (bearer "tokForged" ∅)
              "tokExpired" "tokForged"
              (FirebaseError "auth/id-token-expired") (FirebaseError "auth/argument-error")
              (world_of empty_db) (world_of empty_db)) as [E1 E2].
  - reflexivity.
  - by_evaluation.
  - by_evaluation.
  - rewrite E1, E2. split; reflexivity.
Defined.

Lemma insertOne_ok (env : Env) (c : Coll) (doc : jsobj) (w : World) :
  store_fault env (List.length (store_log w)) = None →
  let doc' := ensure_id env (List.length (store_log w)) doc in
  insertOne env c doc w
  = (Val (JObj {[ "acknowledged" := JBool true; "insertedId" := get doc' "_id" ]}),
     with_db (set_coll c (coll c (db w) ++ [to_bson doc']) (db w))
       (log_store (CInsertOne c doc') w)).
Proof.
  intros H doc'. unfold insertOne, bind, ticks. rewrite store_ok by exact H. reflexivity.
Qed.

Lemma updateOne_ok (env : Env) (c : Coll) (filter fields : jsobj) (w : World) :
  store_fault env (List.length (store_log w)) = None →
  updateOne env c filter fields w
  = (Val (JObj {[ "acknowledged" := JBool true;
                  "matchedCount" := JNum (num_of_nat (count_first (matches env filter) (coll c (db w)))) ]}),
     with_db (set_coll c (update_first (matches env filter)
                            (fun doc => to_bson fields ∪ doc) (coll c (db w))) (db w))
       (log_store (CUpdateOne c filter fields) w)).
Proof.
  intros H. unfold updateOne. rewrite store_ok by exact H. reflexivity.
Qed.

(** The chef gate lets chefs and admins through to the handler. *)
Lemma chef_chain_pass (env : Env) (h : Request → M Response) (req : Request)
    (token : string) (email : option string) (u : jsobj) (w : World) :
  authenticated env req token email →
  store_fault env (List.length (store_log w)) = None →
  user_record env (email_claim email) (db w) = Some u →
  get u "role" = JStr "chef" ∨ get u "role" = JStr "admin" →
  run_chain env [verifyJWT_gate; verifyChef_gate] h req w
  = h (with_tokenEmail (email_claim email) req)
      (log_store (CFindOne userColl {[ "email" := email_claim email ]}) (log_verify token w)).
Proof.
  intros Hauth Hok Hrec Hrole.
  rewrite (run_chain_authenticated env _ _ req token email w Hauth).
  cbn [run_chain run_gate]. unfold bind.
  rewrite verifyChef_ok by exact Hok.
  cbn [tokenEmail with_tokenEmail db log_verify]. rewrite Hrec.
  destruct Hrole as [-> | ->]; reflexivity.
Qed.

(** The admin gate lets admins through to the handler. *)
Lemma admin_chain_pass (env : Env) (h : Request → M Response) (req : Request)
    (token : string) (email : option string) (u : jsobj) (w : World) :
  authenticated env req token email →
  store_fault env (List.length (store_log w)) = None →
  user_record env (email_claim email) (db w) = Some u →
  get u "role" = JStr "admin" →
  run_chain env [verifyJWT_gate; verifyAdmin_gate] h req w
  = h (with_tokenEmail (email_claim email) req)
      (log_store (CFindOne userColl {[ "email" := email_claim email ]}) (log_verify token w)).
Proof.
  intros Hauth Hok Hrec Hrole.
  rewrite (run_chain_authenticated env _ _ req token email w Hauth).
  cbn [run_chain run_gate]. unfold bind.
  rewrite verifyAdmin_ok by exact Hok.
  cbn [tokenEmail with_tokenEmail db log_verify]. rewrite Hrec, Hrole.
  reflexivity.
Qed.

(** ** C1: the fraud gate *)

(** C1. For an authenticated principal whose user record has status
    [fraud] (and a store that answers): with role [chef], POST /meals is
    answered 403 and the database is unchanged; with role [user],
    POST /orders is answered 403 and the database is unchanged; with role
    [admin], neither route is blocked: each answers 200 and appends the
    new document to its collection. *)
Theorem fraud_gate (env : Env) (req : Request) (token : string) (email : option string)
    (u : jsobj) (w : World) :
  authenticated env req token email →
  store_reliable env →
  user_record env (email_claim email) (db w) = Some u →
  get u "status" = JStr "fraud" →
  (get u "role" = JStr "chef" →
     ∃ w', serve env POST_meals req w
           = (Responded (status_send 403
                (JObj {[ "errorType" := JStr "FRAUD_USER";
                         "message" := JStr "You are marked as fraud. You cannot create meals." ]})), w')
           ∧ db w' = db w)
  ∧ (get u "role" = JStr "user" →
     ∃ w', serve env POST_orders req w
           = (Responded (status_send 403
                (JObj {[ "errorType" := JStr "FRAUD_USER";
                         "message" := JStr "You are marked as fraud. You cannot place orders." ]})), w')
           ∧ db w' = db w)
  ∧ (get u "role" = JStr "admin" →
     (∃ ack w' meal, serve env POST_meals req w = (Responded (send ack), w')
                     ∧ db w' = set_coll mealsColl (meals (db w) ++ [meal]) (db w))
     ∧ (∃ ack w' order, serve env POST_orders req w = (Responded (send ack), w')
                        ∧ db w' = set_coll ordersCollection (orders (db w) ++ [order]) (db w))).
Proof.
  intros Hauth Hok Hrec Hstatus.
  assert (Hmeals : ∀ role,
            get u "role" = JStr role → role = "chef" ∨ role = "admin" →
            run_chain env (middlewares POST_meals) (handler env POST_meals) req w
            = (if strict_eq (JStr role) (JStr "chef")
               then ret (status_send 403
                      (JObj {[ "errorType" := JStr "FRAUD_USER";
                               "message" := JStr "You are marked as fraud. You cannot create meals." ]}))
               else
                 now <- new_Date env ;;
                 result <- insertOne env mealsColl (set "createdAt" now (body req)) ;;
                 ret (send result))
              (log_store (CFindOne userColl {[ "email" := email_claim email ]})
                 (log_store (CFindOne userColl {[ "email" := email_claim email ]})
                    (log_verify token w)))).
  { intros role Hrole Hcase. cbn [middlewares handler].
    rewrite (chef_chain_pass env _ req token email u w Hauth (Hok _) Hrec)
      by (destruct Hcase as [-> | ->]; [left | right]; exact Hrole).
    unfold post_meals at 1. unfold bind at 1.
    rewrite findOne_ok by apply Hok.
    cbn [tokenEmail with_tokenEmail db log_verify log_store coll].
    fold (user_record env (email_claim email) (db w)).
    rewrite Hrec, Hrole, Hstatus. cbn [strict_eq]. rewrite String.eqb_refl, andb_true_r.
    reflexivity. }
  assert (Horders :
            run_chain env (middlewares POST_orders) (handler env POST_orders) req w
            = (if strict_eq (get u "role") (JStr "user")
               then ret (status_send 403
                      (JObj {[ "errorType" := JStr "FRAUD_USER";
                               "message" := JStr "You are marked as fraud. You cannot place orders." ]}))
               else
                 orderTime <- new_Date env ;;
                 createdAt <- new_Date env ;;
                 result <- insertOne env ordersCollection
                             (set "createdAt" createdAt
                                (set "paymentStatus" (JStr "pending")
                                   (set "orderStatus" (JStr "pending")
                                      (set "orderTime" orderTime (body req))))) ;;
                 ret (send result))
              (log_store (CFindOne userColl {[ "email" := email_claim email ]})
                 (log_verify token w))).
  { cbn [middlewares handler].
    rewrite (run_chain_authenticated env _ _ req token email w Hauth).
    cbn [run_chain]. unfold post_orders at 1. unfold bind at 1.
    rewrite findOne_ok by apply Hok.
    cbn [tokenEmail with_tokenEmail db log_verify log_store coll].
    fold (user_record env (email_claim email) (db w)).
    rewrite Hrec, Hstatus. cbn [strict_eq]. rewrite String.eqb_refl, andb_true_l.
    reflexivity. }
  unfold serve. split; [| split].
  - intros Hrole. rewrite (Hmeals "chef" Hrole) by (left; reflexivity).
    eexists. split; reflexivity.
  - intros Hrole. rewrite Horders, Hrole.
    eexists. split; reflexivity.
  - intros Hrole. split.
    + rewrite (Hmeals "admin" Hrole) by (right; reflexivity).
      cbn [strict_eq String.eqb Ascii.eqb Bool.eqb].
      unfold new_Date, bind, ticks, ret.
      rewrite insertOne_ok by apply Hok.
      do 3 eexists. split; reflexivity.
    + rewrite Horders, Hrole.
      cbn [strict_eq String.eqb Ascii.eqb Bool.eqb].
      unfold new_Date, bind, ticks, ret.
      rewrite insertOne_ok by apply Hok.
      do 3 eexists. split; reflexivity.
Qed.

Lemma fraud_gate_witness :
  ∃ w', serve env0 POST_meals (bearer "tokA" ∅) (world_of fraud_db)
        = (Responded (status_send 403
             (JObj {[ "errorType" := JStr "FRAUD_USER";
                      "message" := JStr "You are marked as fraud. You cannot create meals." ]})), w')
        ∧ db w' = db (world_of fraud_db).
Proof.
  refine (proj1 (fraud_gate env0 (bearer "tokA" ∅) "tokA" (Some "a@x.com")
                   (user_doc "a@x.com" "chef" "fraud") (world_of fraud_db) _ _ _ _) _).
  - by_evaluation.
  - intros n. reflexivity.
  - vm_compute. reflexivity.
  - vm_compute. reflexivity.
  - vm_compute. reflexivity.
Defined.

(** ** C3: the self-ownership check of the creation routes *)

Lemma strict_eq_claim_r (v : jsval) (email : option string) :
  v ≠ email_claim email → strict_eq v (email_claim email) = false.
Proof.
  destruct email as [e |]; simpl.
  - apply strict_eq_JStr_false.
  - destruct v; simpl; congruence.
Qed.

Lemma strict_eq_claim_l (v : jsval) (email : option string) :
  v ≠ email_claim email → strict_eq (email_claim email) v = false.
Proof.
  destruct email as [e |]; cbn [email_claim].
  - intros H. destruct (strict_eq (JStr e) v) eqn:E; [| reflexivity].
    apply strict_eq_JStr_l in E. contradiction.
  - destruct v; simpl; congruence.
Qed.

Lemma get_delete_ne (o : jsobj) (k k' : string) : k ≠ k' → get (delete k o) k' = get o k'.
Proof. intros H. unfold get. rewrite lookup_delete_ne by exact H. reflexivity. Qed.

(** C3, counterexample. The principal is [a@x.com]; the favorite names
    [b@x.com] as its owner and has no meal id: the answer is 400, not
    403. *)
Lemma owner_mismatch_can_be_invalid_argument :
  authenticated env0 (bearer "tokA" {[ "userEmail" := JStr "b@x.com" ]}) "tokA" (Some "a@x.com")
  ∧ get {[ "userEmail" := JStr "b@x.com" ]} "userEmail" ≠ JStr "a@x.com"
  ∧ status_of (serve env0 POST_favorites (bearer "tokA" {[ "userEmail" := JStr "b@x.com" ]})
                 (world_of plain_db)).1 = Some 400%Z
  ∧ status_of (serve env0 POST_favorites (bearer "tokA" {[ "userEmail" := JStr "b@x.com" ]})
                 (world_of plain_db)).1 ≠ Some 403%Z.
Proof.
  split; [by_evaluation |].
  repeat split; try (vm_compute; reflexivity); vm_compute; discriminate.
Qed.

(** C3, amended. On POST /users, POST /favorites and POST /role-requests,
    a request of an authenticated principal whose owner field differs from
    the principal never reaches the store: the database and the log of
    store calls are as before. The answer is 403 when the fields the route
    requires are all present and non-empty, and 400 otherwise. *)
Theorem owner_mismatch_no_write (env : Env) (r : Route) (k : string) (req : Request)
    (token : string) (email : option string) (w : World) :
  authenticated env req token email →
  owner_field r = Some k →
  get (body req) k ≠ email_claim email →
  ∃ resp,
    serve env r req w = (Responded resp, log_verify token w)
    ∧ status resp = (if forallb (fun f => truthy (get (body req) f)) (required_fields r)
                     then 403 else 400)%Z.
Proof.
  intros Hauth Hr Hne.
  pose proof (strict_eq_claim_r _ _ Hne) as Er.
  pose proof (strict_eq_claim_l _ _ Hne) as El.
  unfold serve.
  destruct r; try discriminate Hr; injection Hr as <-;
    cbn [middlewares handler required_fields forallb];
    rewrite (run_chain_authenticated env _ _ req token email w Hauth);
    cbn [run_chain].
  - unfold post_users, try_catch. cbn [body tokenEmail with_tokenEmail].
    rewrite El. destruct (truthy (get (body req) "email"));
      eexists; split; reflexivity.
  - unfold post_favorites, try_catch. cbn [body tokenEmail with_tokenEmail].
    rewrite Er.
    destruct (truthy (get (body req) "userEmail")), (truthy (get (body req) "mealId"));
      eexists; split; reflexivity.
  - unfold post_role_requests, try_catch. cbn [body tokenEmail with_tokenEmail].
    rewrite !get_delete_ne by discriminate. rewrite Er.
    destruct (truthy (get (body req) "userEmail")), (truthy (get (body req) "requestType"));
      eexists; split; reflexivity.
Qed.

Lemma owner_mismatch_no_write_witness :
  ∃ resp,
    serve env0 POST_users (bearer "tokA" {[ "email" := JStr "b@x.com" ]}) (world_of plain_db)
    = (Responded resp, log_verify "tokA" (world_of plain_db))
    ∧ status resp = 403%Z.
Proof.
  refine (owner_mismatch_no_write env0 POST_users "email"
            (bearer "tokA" {[ "email" := JStr "b@x.com" ]}) "tokA" (Some "a@x.com")
            (world_of plain_db) _ _ _).
  - by_evaluation.
  - reflexivity.
  - vm_compute. discriminate.
Defined.

(** ** C2: the owner field of a created resource *)

Lemma get_set_ne (o : jsobj) (k k' : string) (v : jsval) :
  k ≠ k' → get (set k v o) k' = get o k'.
Proof. intros H. unfold get, set. rewrite lookup_insert_ne by exact H. reflexivity. Qed.

Lemma get_ensure_id_ne (env : Env) (n : nat) (o : jsobj) (k : string) :
  "_id" ≠ k → get (ensure_id env n o) k = get o k.
Proof.
  intros H. unfold ensure_id. destruct (is_null (get o "_id")); [| reflexivity].
  apply get_set_ne, H.
Qed.

Lemma get_to_bson (o : jsobj) (k : string) :
  get (to_bson o) k = match get o k with JUndef => match o !! k with Some _ => JNull | None => JUndef end | v => v end.
Proof.
  unfold get, to_bson. rewrite lookup_fmap.
  destruct (o !! k) as [[] |]; reflexivity.
Qed.

Lemma get_to_bson_truthy (o : jsobj) (k : string) :
  truthy (get o k) = true → get (to_bson o) k = get o k.
Proof.
  rewrite get_to_bson. destruct (get o k); simpl; try reflexivity; discriminate.
Qed.

Lemma truthy_get_to_bson (o : jsobj) (k : string) :
  truthy (get (to_bson o) k) = truthy (get o k).
Proof.
  rewrite get_to_bson. destruct (get o k); try reflexivity.
  destruct (o !! k); reflexivity.
Qed.

(** C2, counterexample. The principal [a@x.com] posts a review that names
    no reviewer: the check is skipped (it runs only when [reviewerEmail]
    is given) and the review is stored with no owner at all, which is
    not the principal. *)
Lemma review_without_reviewer_is_stored :
  authenticated env0 (bearer "tokA" {[ "foodId" := JStr "m1" ]}) "tokA" (Some "a@x.com")
  ∧ status_of (serve env0 POST_reviews (bearer "tokA" {[ "foodId" := JStr "m1" ]})
                 (world_of plain_db)).1 = Some 200%Z
  ∧ (λ d, get d "reviewerEmail")
      <$> reviews (db (serve env0 POST_reviews (bearer "tokA" {[ "foodId" := JStr "m1" ]})
                         (world_of plain_db)).2)
    = [JUndef]
  ∧ JUndef ≠ email_claim (Some "a@x.com").
Proof.
  split; [by_evaluation |].
  repeat split; try (vm_compute; reflexivity); vm_compute; discriminate.
Qed.

(** POST /orders of this revision compares no field of the body with the
    principal (an earlier revision answered 403 here): [a@x.com] places an
    order whose [userEmail] is [b@x.com], and it is stored as submitted. *)
Lemma order_owner_is_not_compared :
  authenticated env0 (bearer "tokA" {[ "userEmail" := JStr "b@x.com" ]}) "tokA" (Some "a@x.com")
  ∧ status_of (serve env0 POST_orders (bearer "tokA" {[ "userEmail" := JStr "b@x.com" ]})
                 (world_of plain_db)).1 = Some 200%Z
  ∧ (λ d, get d "userEmail")
      <$> orders (db (serve env0 POST_orders (bearer "tokA" {[ "userEmail" := JStr "b@x.com" ]})
                        (world_of plain_db)).2)
    = [JStr "b@x.com"].
Proof.
  split; [by_evaluation |].
  split; vm_compute; reflexivity.
Qed.

(** POST /meals of this revision does not compare an owner field either:
    the chef [b@x.com] creates a meal whose [chefEmail] and [userEmail]
    name [a@x.com]. *)
Lemma meal_owner_is_not_compared :
  authenticated env0
    (bearer "tokB" {[ "chefEmail" := JStr "a@x.com"; "userEmail" := JStr "a@x.com" ]})
    "tokB" (Some "b@x.com")
  ∧ status_of (serve env0 POST_meals
                 (bearer "tokB" {[ "chefEmail" := JStr "a@x.com"; "userEmail" := JStr "a@x.com" ]})
                 (world_of plain_db)).1 = Some 200%Z
  ∧ (λ d, (get d "chefEmail", get d "userEmail"))
      <$> meals (db (serve env0 POST_meals
                       (bearer "tokB" {[ "chefEmail" := JStr "a@x.com"; "userEmail" := JStr "a@x.com" ]})
                       (world_of plain_db)).2)
    = [(JStr "a@x.com", JStr "a@x.com")].
Proof.
  split; [by_evaluation |].
  split; vm_compute; reflexivity.
Qed.

(** C2, amended. Whatever POST /favorites stores carries the principal in
    its owner field [userEmail]; whatever POST /reviews stores carries, in
    [reviewerEmail], either the principal or no reviewer at all (an absent
    or empty value). Either route stores at most one document per request,
    at the end of its collection. (Meals and orders are not part of the
    statement.) *)
Theorem stored_owner_is_principal (env : Env) (req : Request)
    (token : string) (email : option string) (w : World) :
  authenticated env req token email →
  (let w' := (serve env POST_favorites req w).2 in
   db w' = db w
   ∨ ∃ d, db w' = set_coll favoritesCollection (favorites (db w) ++ [d]) (db w)
          ∧ get d "userEmail" = email_claim email)
  ∧ (let w' := (serve env POST_reviews req w).2 in
     db w' = db w
     ∨ ∃ d, db w' = set_coll reviewsCollection (reviews (db w) ++ [d]) (db w)
            ∧ (get d "reviewerEmail" = email_claim email
               ∨ truthy (get d "reviewerEmail") = false)).
Proof.
  intros Hauth. unfold serve. cbn [middlewares handler].
  rewrite !(run_chain_authenticated env _ _ req token email w Hauth).
  cbn [run_chain]. split.
  - unfold post_favorites, try_catch, findOne, insertOne, store, new_Date, ticks,
      console_error, ret, bind.
    cbn [body tokenEmail with_tokenEmail db log_verify store_log log_store with_db coll].
    destruct (negb (truthy (get (body req) "userEmail")) || negb (truthy (get (body req) "mealId")))
      eqn:Hreq; [left; reflexivity |].
    destruct (strict_eq (get (body req) "userEmail") (email_claim email)) eqn:Hown;
      [| left; reflexivity].
    cbn [negb].
    apply orb_false_elim in Hreq as [Hu _]. apply negb_false_iff in Hu.
    handler_cases; cbn [fst snd db with_db log_console]; try (left; reflexivity).
    right. eexists. split; [reflexivity |].
    rewrite get_to_bson_truthy; rewrite get_ensure_id_ne by discriminate;
      rewrite !get_set_ne by discriminate;
      [apply strict_eq_email_claim; assumption | assumption].
  - unfold post_reviews, try_catch, insertOne, store, new_Date, ticks,
      console_error, ret, bind.
    cbn [body tokenEmail with_tokenEmail db log_verify store_log log_store with_db coll].
    destruct (negb (truthy (get (body req) "foodId"))); [left; reflexivity |].
    destruct (truthy (get (body req) "reviewerEmail")) eqn:Hgiven; cbn [andb].
    + destruct (strict_eq (get (body req) "reviewerEmail") (email_claim email)) eqn:Hown;
        cbn [negb]; [| left; reflexivity].
      handler_cases; cbn [fst snd db with_db log_console]; try (left; reflexivity);
        (right; eexists; split; [reflexivity |]; left;
         rewrite get_to_bson_truthy; rewrite get_ensure_id_ne by discriminate;
         rewrite !get_set_ne by discriminate;
         [apply strict_eq_email_claim; assumption | assumption]).
    + handler_cases; cbn [fst snd db with_db log_console]; try (left; reflexivity);
        (right; eexists; split; [reflexivity |]; right;
         rewrite truthy_get_to_bson, get_ensure_id_ne by discriminate;
         rewrite !get_set_ne by discriminate; assumption).
Qed.

Lemma stored_owner_is_principal_witness :
  let w' := (serve env0 POST_favorites
               (bearer "tokA" {[ "userEmail" := JStr "a@x.com"; "mealId" := JStr "m1" ]})
               (world_of plain_db)).2 in
  db w' = db (world_of plain_db)
  ∨ ∃ d, db w' = set_coll favoritesCollection (favorites (db (world_of plain_db)) ++ [d])
                   (db (world_of plain_db))
         ∧ get d "userEmail" = email_claim (Some "a@x.com").
Proof.
  refine (proj1 (stored_owner_is_principal env0
                   (bearer "tokA" {[ "userEmail" := JStr "a@x.com"; "mealId" := JStr "m1" ]})
                   "tokA" (Some "a@x.com") (world_of plain_db) _)).
  by_evaluation.
Defined.

(** ** C7: identifiers that the driver rejects *)

(** The routes that check [ObjectId.isValid] answer 400 before anything
    else happens. *)
Lemma checked_identifier_routes (env : Env) (id : string) (req : Request) (w : World) :
  ObjectId_isValid env id = false →
  serve env (GET_meals_id id) req w
    = (Responded (status_send 400 (message "Invalid meal id")), w)
  ∧ serve env (GET_orders_id id) req w
    = (Responded (status_send 400 (message "Invalid order id")), w)
  ∧ handler env (DELETE_reviews_id id) req w
    = (Val (status_send 400 (message "Invalid review id")), w)
  ∧ handler env (PATCH_reviews_id id) req w
    = (Val (status_send 400 (message "Invalid review id")), w).
Proof.
  intros H. unfold serve. cbn [middlewares handler run_chain].
  unfold get_meals_id, get_orders_id, delete_reviews_id, patch_reviews_id, try_catch.
  rewrite H. repeat split; reflexivity.
Qed.

(** [DELETE /favorites/:id] hands the parameter to [new ObjectId] without
    a check: when the constructor throws, the handler's promise is
    rejected, no response is written and the store is not called. *)
Lemma delete_favorite_rejected_identifier (env : Env) (id : string) (req : Request) (w : World) :
  ObjectId_new env (List.length (store_log w)) (JStr id) = None →
  serve env (DELETE_favorites_id id) req w = (Unhandled BSONError, w).
Proof.
  intros H. unfold serve. cbn [middlewares handler run_chain].
  unfold delete_favorites_id, new_ObjectId, bind, ticks. rewrite H. reflexivity.
Qed.

(** C7, the code at the failing input. The identifier [not-an-id] is not
    valid. GET /meals/not-an-id answers 400 without calling the store,
    but DELETE /favorites/not-an-id writes no response at all: the
    handler throws in [new ObjectId], so the answer is not 400 (the store
    is not called either). *)
Theorem delete_favorite_invalid_id_unhandled :
  ObjectId_isValid env0 "not-an-id" = false
  ∧ serve env0 (GET_meals_id "not-an-id") (anonymous ∅) (world_of plain_db)
    = (Responded (status_send 400 (message "Invalid meal id")), world_of plain_db)
  ∧ serve env0 (DELETE_favorites_id "not-an-id") (anonymous ∅) (world_of plain_db)
    = (Unhandled BSONError, world_of plain_db)
  ∧ status_of (serve env0 (DELETE_favorites_id "not-an-id") (anonymous ∅) (world_of plain_db)).1
    ≠ Some 400%Z.
Proof.
  split; [reflexivity |]. split; [| split].
  - apply checked_identifier_routes. reflexivity.
  - apply delete_favorite_rejected_identifier. reflexivity.
  - rewrite delete_favorite_rejected_identifier by reflexivity. discriminate.
Qed.

(** ** C8: registering twice *)

Lemma find_filter {A} (p : A → bool) (l : list A) :
  List.find p l = head (List.filter p l).
Proof.
  induction l as [| a l IH]; [reflexivity |]. simpl. destruct (p a); [reflexivity | exact IH].
Qed.

(** A filter with one condition. *)
Lemma matches_singleton (env : Env) (k : string) (q : jsval) (doc : jsobj) :
  matches env {[ k := q ]} doc
  = field_matches env (doc !! k) (match q with JUndef => JNull | _ => q end).
Proof.
  unfold matches, to_bson. rewrite map_fmap_singleton.
  destruct (field_matches env (doc !! k) _) eqn:E.
  - apply bool_decide_eq_true_2. apply map_Forall_singleton. exact E.
  - apply bool_decide_eq_false_2. rewrite map_Forall_singleton. congruence.
Qed.

Lemma get_JStr_lookup (o : jsobj) (k s : string) : get o k = JStr s → o !! k = Some (JStr s).
Proof. unfold get. destruct (o !! k); simpl; congruence. Qed.

(** A stored registration is found under its email. *)
Lemma registered_matches (env : Env) (n : nat) (user : jsobj) (e : string) :
  get user "email" = JStr e →
  matches env {[ "email" := JStr e ]} (to_bson (ensure_id env n user)) = true.
Proof.
  intros H. rewrite matches_singleton.
  assert (Hl : to_bson (ensure_id env n user) !! "email" = Some (JStr e)).
  { unfold to_bson. rewrite lookup_fmap.
    assert (Hg : get (ensure_id env n user) "email" = JStr e)
      by (rewrite get_ensure_id_ne by discriminate; exact H).
    rewrite (get_JStr_lookup _ _ _ Hg). reflexivity. }
  rewrite Hl. simpl. apply String.eqb_refl.
Qed.

(** What one registration does, by whether the email is already there. *)
Lemma post_users_registers (env : Env) (req : Request) (token e : string) (w : World) :
  store_reliable env →
  e ≠ "" →
  authenticated env req token (Some e) →
  get (body req) "email" = JStr e →
  ∃ resp w',
    serve env POST_users req w = (Responded resp, w')
    ∧ status resp = 200%Z
    ∧ users (db w')
      = match List.filter (matches env {[ "email" := JStr e ]}) (users (db w)) with
        | [] => (users (db w)
                 ++ [to_bson (ensure_id env (S (List.length (store_log w))) (body req))])%list
        | _ :: _ => users (db w)
        end
    ∧ (List.filter (matches env {[ "email" := JStr e ]}) (users (db w)) ≠ [] → db w' = db w).
Proof.
  intros Hok He Hauth Hbody. unfold serve. cbn [middlewares handler].
  rewrite (run_chain_authenticated env _ _ req token (Some e) w Hauth).
  cbn [run_chain]. unfold post_users, try_catch, bind.
  cbn [body tokenEmail with_tokenEmail email_claim]. rewrite Hbody.
  apply truthy_JStr in He. rewrite He. cbn [negb strict_eq]. rewrite String.eqb_refl.
  cbn [negb]. rewrite findOne_ok by apply Hok.
  cbn [db log_verify coll]. rewrite find_filter.
  destruct (List.filter _ (users (db w))) as [| d l] eqn:Hf; cbn [head].
  - rewrite insertOne_ok by apply Hok.
    do 2 eexists. split; [reflexivity |]. split; [reflexivity |].
    split; [| congruence].
    cbn [db with_db log_store store_log log_verify coll set_coll users].
    rewrite length_app, Nat.add_1_r. reflexivity.
  - do 2 eexists. split; [reflexivity |]. split; [reflexivity |].
    split; intros; reflexivity.
Qed.

(** C8. Registering the same identity twice, each time with a matching
    principal and a store that answers, is answered 200 both times; the
    second call leaves the database as the first left it (it inserts
    nothing); and when the identity had at most one record before, it has
    exactly one after. *)
Theorem self_registration_idempotent (env : Env) (req1 req2 : Request)
    (token1 token2 e : string) (w : World) :
  store_reliable env →
  e ≠ "" →
  authenticated env req1 token1 (Some e) →
  authenticated env req2 token2 (Some e) →
  get (body req1) "email" = JStr e →
  get (body req2) "email" = JStr e →
  (List.length (List.filter (matches env {[ "email" := JStr e ]}) (users (db w))) ≤ 1)%nat →
  ∃ r1 w1 r2 w2,
    serve env POST_users req1 w = (Responded r1, w1) ∧ status r1 = 200%Z
    ∧ serve env POST_users req2 w1 = (Responded r2, w2) ∧ status r2 = 200%Z
    ∧ db w2 = db w1
    ∧ List.length (List.filter (matches env {[ "email" := JStr e ]}) (users (db w2))) = 1.
Proof.
  intros Hok He Ha1 Ha2 Hb1 Hb2 Hcount.
  destruct (post_users_registers env req1 token1 e w Hok He Ha1 Hb1)
    as (r1 & w1 & E1 & S1 & U1 & _).
  destruct (post_users_registers env req2 token2 e w1 Hok He Ha2 Hb2)
    as (r2 & w2 & E2 & S2 & _ & K2).
  assert (Hone : List.length (List.filter (matches env {[ "email" := JStr e ]}) (users (db w1))) = 1).
  { rewrite U1.
    destruct (List.filter _ (users (db w))) as [| d [| d' l]] eqn:Hf.
    - rewrite List.filter_app, Hf. cbn [List.filter].
      rewrite (registered_matches env _ _ e Hb1). reflexivity.
    - rewrite Hf. reflexivity.
    - simpl in Hcount. lia. }
  assert (Hdb : db w2 = db w1).
  { apply K2. intros Hnil. rewrite Hnil in Hone. discriminate. }
  exists r1, w1, r2, w2. rewrite Hdb. auto 10.
Qed.

Lemma self_registration_idempotent_witness :
  ∃ r1 w1 r2 w2,
    serve env0 POST_users (bearer "tokGhost" {[ "email" := JStr "ghost@x.com" ]}) (world_of plain_db)
    = (Responded r1, w1) ∧ status r1 = 200%Z
    ∧ serve env0 POST_users (bearer "tokGhost" {[ "email" := JStr "ghost@x.com" ]}) w1
      = (Responded r2, w2) ∧ status r2 = 200%Z
    ∧ db w2 = db w1
    ∧ List.length (List.filter (matches env0 {[ "email" := JStr "ghost@x.com" ]}) (users (db w2))) = 1.
Proof.
  refine (self_registration_idempotent env0
            (bearer "tokGhost" {[ "email" := JStr "ghost@x.com" ]})
            (bearer "tokGhost" {[ "email" := JStr "ghost@x.com" ]})
            "tokGhost" "tokGhost" "ghost@x.com" (world_of plain_db) _ _ _ _ _ _ _).
  - intros n. reflexivity.
  - discriminate.
  - by_evaluation.
  - by_evaluation.
  - vm_compute. reflexivity.
  - vm_compute. reflexivity.
  - vm_compute. lia.
Defined.

(** ** C10: the payment confirmation *)

Lemma update_first_ext (p : jsobj → bool) (f g : jsobj → jsobj) (l : list jsobj) :
  (∀ d, f d = g d) → update_first p f l = update_first p g l.
Proof.
  intros H. induction l as [| d l IH]; [reflexivity |].
  simpl. rewrite H, IH. reflexivity.
Qed.

(** A [$set] of one defined field is an assignment. *)
Lemma set_one_field (k : string) (v : jsval) (d : jsobj) :
  v ≠ JUndef → to_bson {[ k := v ]} ∪ d = set k v d.
Proof.
  intros H. unfold to_bson, set. rewrite map_fmap_singleton, <- insert_union_singleton_l.
  destruct v; try reflexivity. contradiction.
Qed.

(** C10, counterexample. A body whose [orderId] is not an identifier of
    the driver: the handler throws in [new ObjectId], no order is touched,
    no payment is recorded, and no success is sent. *)
Lemma payment_success_malformed_order_id :
  get ({[ "orderId" := JStr "order-17" ]} : jsobj) "orderId" = JStr "order-17"
  ∧ serve env0 POST_payment_success (anonymous {[ "orderId" := JStr "order-17" ]})
      (world_of plain_db)
    = (Unhandled BSONError, world_of plain_db).
Proof.
  split; vm_compute; reflexivity.
Qed.

(** C10, amended. For every caller, credentials or not, when the body's
    [orderId] is accepted by [new ObjectId] and the store answers:
    POST /payment-success sets [paymentStatus] to [paid] on the order with
    that id (the first match; nothing checks that there is one), appends
    a payment record with the supplied [orderId] and [paymentInfo], and
    answers success. No token is verified and no user record is read. *)
Theorem payment_success_unchecked (env : Env) (req : Request) (hex : string) (w : World) :
  store_reliable env →
  ObjectId_new env (List.length (store_log w)) (get (body req) "orderId") = Some hex →
  ∃ w',
    serve env POST_payment_success req w
    = (Responded (send (JObj {[ "success" := JBool true ]})), w')
    ∧ orders (db w')
      = update_first (matches env {[ "_id" := JOid hex ]})
          (set "paymentStatus" (JStr "paid")) (orders (db w))
    ∧ payments (db w')
      = (payments (db w)
         ++ [to_bson (set "_id" (JOid (ObjectId_generate env (S (List.length (store_log w)))))
                        {[ "orderId" := get (body req) "orderId";
                           "paymentInfo" := get (body req) "paymentInfo";
                           "time" := Date_now env (S (List.length (store_log w))) ]})])%list
    ∧ verify_log w' = verify_log w
    ∧ store_log w'
      = (store_log w
         ++ [CUpdateOne ordersCollection {[ "_id" := JOid hex ]} {[ "paymentStatus" := JStr "paid" ]}]
         ++ [CInsertOne paymentCollection
               (set "_id" (JOid (ObjectId_generate env (S (List.length (store_log w)))))
                  {[ "orderId" := get (body req) "orderId";
                     "paymentInfo" := get (body req) "paymentInfo";
                     "time" := Date_now env (S (List.length (store_log w))) ]})])%list.
Proof.
  intros Hok Hid. unfold serve. cbn [middlewares handler run_chain].
  unfold post_payment_success, new_ObjectId, new_Date, bind, ticks, ret.
  rewrite Hid. rewrite updateOne_ok by apply Hok.
  rewrite insertOne_ok by apply Hok.
  cbn [store_log db with_db log_store coll].
  rewrite length_app, Nat.add_1_r.
  eexists. split; [reflexivity |].
  cbn [db with_db log_store store_log verify_log coll set_coll orders payments].
  split; [| split; [| split]].
  - apply update_first_ext. intros d. apply set_one_field. discriminate.
  - reflexivity.
  - reflexivity.
  - rewrite <- app_assoc. reflexivity.
Qed.

Lemma payment_success_unchecked_witness :
  ∃ w',
    serve env0 POST_payment_success
      (anonymous {[ "orderId" := JStr "0123456789abcdef01234567" ]}) (world_of plain_db)
    = (Responded (send (JObj {[ "success" := JBool true ]})), w')
    ∧ List.length (payments (db w')) = 1.
Proof.
  destruct (payment_success_unchecked env0
              (anonymous {[ "orderId" := JStr "0123456789abcdef01234567" ]})
              "0123456789abcdef01234567" (world_of plain_db))
    as (w' & E & _ & P & _).
  - intros n. reflexivity.
  - vm_compute. reflexivity.
  - exists w'. split; [exact E |]. rewrite P. reflexivity.
Defined.

(** ** C5: deciding a role request *)

Lemma find_update_first (p : jsobj → bool) (f : jsobj → jsobj) (l : list jsobj) (d : jsobj) :
  List.find p l = Some d → p (f d) = true →
  List.find p (update_first p f l) = Some (f d).
Proof.
  intros Hfind Hp. induction l as [| a l IH]; [discriminate |].
  simpl in *. destruct (p a) eqn:Ea.
  - injection Hfind as ->. simpl. rewrite Hp. reflexivity.
  - simpl. rewrite Ea. apply IH, Hfind.
Qed.

Lemma find_holds (p : jsobj → bool) (l : list jsobj) (d : jsobj) :
  List.find p l = Some d → p d = true.
Proof. intros H. apply List.find_some in H. apply H. Qed.

(** A [$set] that leaves the filtered field alone keeps the document
    under a one-condition filter. *)
Lemma matches_singleton_update (env : Env) (k : string) (q : jsval) (fields d : jsobj) :
  fields !! k = None →
  matches env {[ k := q ]} (to_bson fields ∪ d) = matches env {[ k := q ]} d.
Proof.
  intros H. rewrite !matches_singleton. rewrite lookup_union_r; [reflexivity |].
  unfold to_bson. rewrite lookup_fmap, H. reflexivity.
Qed.

Lemma get_update_field (fields d : jsobj) (k : string) (v : jsval) :
  fields !! k = Some v → v ≠ JUndef → get (to_bson fields ∪ d) k = v.
Proof.
  intros H Hv. unfold get.
  rewrite (lookup_union_Some_l _ _ _ v); [reflexivity |].
  unfold to_bson. rewrite lookup_fmap, H. destruct v; try reflexivity. contradiction.
Qed.

(** [PATCH /role-requests/reject/:id] never changes the users: whatever
    the request, the environment and the faults. *)
Lemma reject_leaves_users (env : Env) (id : string) (req : Request) (w : World) :
  users (db (serve env (PATCH_role_requests_reject id) req w).2) = users (db w).
Proof.
  unfold serve. cbn [middlewares handler run_chain run_gate].
  unfold verifyJWT, verifyAdmin, patch_role_requests_reject, try_catch, new_ObjectId,
    findOne, updateOne, store, ticks, console_error, ret, throw, bind.
  destruct (getTokenFromHeader req) as [token |]; [| reflexivity].
  destruct (negb (truthy (JStr token))); [reflexivity |].
  destruct (verifyIdToken env token) as [err | email]; [reflexivity |].
  cbn [fst snd db store_log with_db log_console log_store log_verify coll tokenEmail with_tokenEmail].
  repeat (match goal with
          | |- context [store_fault ?e ?n] => destruct (store_fault e n) eqn:?
          | |- context [ObjectId_new ?e ?n ?x] => destruct (ObjectId_new e n x) eqn:?
          | |- context [List.find ?p ?l] => destruct (List.find p l) eqn:?
          | |- context [if ?b then _ else _] => destruct b eqn:?
          end;
          cbn [fst snd db store_log with_db log_console log_store log_verify coll set_coll users]);
    reflexivity.
Qed.

(** C5. An admin decides the role request [id] (the driver reads [id] as
    the identifier [hex], and [rq] is the request found under it).

    Accepting a request of type [chef] for a registered user, with a store
    that answers: the user record found under the request's email gets
    role [chef] and a non-empty generated [chefId]; the request gets
    status [approved]; and the write to the users precedes the write to
    the requests.

    Accepting when the write to the users fails: the answer is 500 and the
    database is unchanged, so the request keeps the status it had.

    Rejecting: the request gets status [rejected], the only write is the
    one to the requests, and the users are never changed, whatever
    happens. *)
Theorem role_request_decision (env : Env) (req : Request) (token : string)
    (email : option string) (adm : jsobj) (id hex : string) (rq u : jsobj) (w : World) :
  authenticated env req token email →
  user_record env (email_claim email) (db w) = Some adm →
  get adm "role" = JStr "admin" →
  (∀ n, ObjectId_new env n (JStr id) = Some hex) →
  List.find (matches env {[ "_id" := JOid hex ]}) (roleRequests (db w)) = Some rq →
  let n0 := List.length (store_log w) in
  let gate := CFindOne userColl {[ "email" := email_claim email ]} in
  let lookup := CFindOne roleRequestColl {[ "_id" := JOid hex ]} in
  (store_reliable env →
   get rq "requestType" = JStr "chef" →
   user_record env (get rq "userEmail") (db w) = Some u →
   ∃ w' chefId fields u' rq',
     serve env (PATCH_role_requests_accept id) req w
     = (Responded (send (JObj {[ "success" := JBool true;
                                 "message" := JStr "Request Approved!" ]})), w')
     ∧ chefId ≠ ""
     ∧ user_record env (get rq "userEmail") (db w') = Some u'
     ∧ get u' "role" = JStr "chef"
     ∧ get u' "chefId" = JStr chefId
     ∧ List.find (matches env {[ "_id" := JOid hex ]}) (roleRequests (db w')) = Some rq'
     ∧ get rq' "requestStatus" = JStr "approved"
     ∧ store_log w'
       = (store_log w
          ++ [gate; lookup;
              CFindOne userColl {[ "email" := get rq "userEmail" ]};
              CUpdateOne userColl {[ "email" := get rq "userEmail" ]} fields;
              CUpdateOne roleRequestColl {[ "_id" := JOid hex ]}
                {[ "requestStatus" := JStr "approved" ]}])%list)
  ∧ (∀ code,
       (∀ n, n < n0 + 3 → store_fault env n = None) →
       store_fault env (n0 + 3) = Some code →
       get rq "requestType" = JStr "chef" →
       user_record env (get rq "userEmail") (db w) = Some u →
       ∃ w',
         serve env (PATCH_role_requests_accept id) req w
         = (Responded (status_send 500 (message "Server Error")), w')
         ∧ db w' = db w)
  ∧ (store_reliable env →
     ∃ w' rq',
       serve env (PATCH_role_requests_reject id) req w
       = (Responded (send (JObj {[ "success" := JBool true;
                                   "message" := JStr "Request Rejected!" ]})), w')
       ∧ List.find (matches env {[ "_id" := JOid hex ]}) (roleRequests (db w')) = Some rq'
       ∧ get rq' "requestStatus" = JStr "rejected"
       ∧ store_log w'
         = (store_log w
            ++ [gate; lookup;
                CUpdateOne roleRequestColl {[ "_id" := JOid hex ]}
                  {[ "requestStatus" := JStr "rejected" ]}])%list)
  ∧ (∀ req' w0, users (db (serve env (PATCH_role_requests_reject id) req' w0).2) = users (db w0)).
Proof.
  intros Hauth Hadm Hrole Hid Hrq n0 gate lookup.
  assert (Hchain : ∀ h, store_fault env n0 = None →
            run_chain env [verifyJWT_gate; verifyAdmin_gate] h req w
            = h (with_tokenEmail (email_claim email) req) (log_store gate (log_verify token w))).
  { intros h H0. apply (admin_chain_pass env h req token email adm w); assumption. }
  split; [| split; [| split]].
  - (* accept, everything answers *)
    intros Hok Htype Hu.
    unfold serve. cbn [middlewares handler]. rewrite Hchain by apply Hok.
    unfold patch_role_requests_accept, try_catch, new_ObjectId, generate_chefId, bind, ticks, ret.
    rewrite !Hid. rewrite findOne_ok by apply Hok.
    cbn [db log_store log_verify coll]. rewrite Hrq.
    rewrite findOne_ok by apply Hok.
    cbn [db log_store log_verify coll].
    fold (user_record env (get rq "userEmail") (db w)). rewrite Hu, Htype.
    cbn [strict_eq]. rewrite String.eqb_refl.
    rewrite ?Hid. rewrite updateOne_ok by apply Hok.
    rewrite ?Hid. rewrite updateOne_ok by apply Hok.
    do 5 eexists. split; [reflexivity |].
    cbn [db with_db log_store log_verify store_log coll set_coll users roleRequests].
    split; [| split; [| split; [| split; [| split; [| split]]]]].
    + instantiate (1 := "chef-" +:+ pretty (random_chef_number env (n0 + 3))). discriminate.
    + unfold user_record. cbn [users].
      apply find_update_first; [exact Hu |].
      rewrite matches_singleton_update by reflexivity.
      apply (find_holds _ _ _ Hu).
    + apply get_update_field; [reflexivity | discriminate].
    + rewrite !length_app. cbn [List.length]. rewrite <- !Nat.add_assoc. cbn [Nat.add].
      apply get_update_field; [reflexivity | discriminate].
    + apply find_update_first; [exact Hrq |].
      rewrite matches_singleton_update by reflexivity.
      apply (find_holds _ _ _ Hrq).
    + apply get_update_field; [reflexivity | discriminate].
    + rewrite <- !app_assoc. reflexivity.
  - (* accept, the write to the users fails *)
    intros code Hbefore Hfail Htype Hu.
    unfold serve. cbn [middlewares handler]. rewrite Hchain by (apply Hbefore; lia).
    unfold patch_role_requests_accept, try_catch, new_ObjectId, generate_chefId, bind, ticks, ret.
    rewrite !Hid.
    rewrite findOne_ok
      by (apply Hbefore; cbn [store_log log_store log_verify]; rewrite !length_app; simpl; lia).
    cbn [db log_store log_verify coll]. rewrite Hrq.
    rewrite findOne_ok
      by (apply Hbefore; cbn [store_log log_store log_verify]; rewrite !length_app; simpl; lia).
    cbn [db log_store log_verify coll].
    fold (user_record env (get rq "userEmail") (db w)). rewrite Hu, Htype.
    cbn [strict_eq]. rewrite String.eqb_refl.
    unfold updateOne.
    rewrite (store_fails env _ _ _ code)
      by (cbn [store_log log_store log_verify]; rewrite !length_app; simpl;
          rewrite <- Hfail; f_equal; lia).
    eexists. split; reflexivity.
  - (* reject *)
    intros Hok.
    unfold serve. cbn [middlewares handler]. rewrite Hchain by apply Hok.
    unfold patch_role_requests_reject, try_catch, new_ObjectId, bind, ticks, ret.
    rewrite !Hid. rewrite findOne_ok by apply Hok.
    cbn [db log_store log_verify coll]. rewrite Hrq.
    rewrite ?Hid. rewrite updateOne_ok by apply Hok.
    do 2 eexists. split; [reflexivity |].
    cbn [db with_db log_store log_verify store_log coll set_coll users roleRequests].
    split; [| split].
    + apply find_update_first; [exact Hrq |].
      rewrite matches_singleton_update by reflexivity.
      apply (find_holds _ _ _ Hrq).
    + apply get_update_field; [reflexivity | discriminate].
    + rewrite <- !app_assoc. reflexivity.
  - intros req' w0. apply reject_leaves_users.
Qed.

Lemma role_request_decision_witness :
  (∃ w' chefId u',
     serve env0 (PATCH_role_requests_accept "0123456789abcdef01234567")
       (bearer "tokAdmin" ∅) (world_of request_db)
     = (Responded (send (JObj {[ "success" := JBool true;
                                 "message" := JStr "Request Approved!" ]})), w')
     ∧ chefId ≠ ""
     ∧ user_record env0 (JStr "a@x.com") (db w') = Some u'
     ∧ get u' "role" = JStr "chef"
     ∧ get u' "chefId" = JStr chefId)
  ∧ (∃ w',
       serve (env0_failing_at 3) (PATCH_role_requests_accept "0123456789abcdef01234567")
         (bearer "tokAdmin" ∅) (world_of request_db)
       = (Responded (status_send 500 (message "Server Error")), w')
       ∧ db w' = db (world_of request_db)).
Proof.
  split.
  - destruct (role_request_decision env0 (bearer "tokAdmin" ∅) "tokAdmin" (Some "admin@x.com")
                (user_doc "admin@x.com" "admin" "normal")
                "0123456789abcdef01234567" "0123456789abcdef01234567"
                chef_request (user_doc "a@x.com" "user" "normal") (world_of request_db))
      as (Haccept & _).
    + by_evaluation.
    + vm_compute. reflexivity.
    + vm_compute. reflexivity.
    + intros n. vm_compute. reflexivity.
    + vm_compute. reflexivity.
    + destruct Haccept as (w' & chefId & fields & u' & rq' & E & Hc & Hu & Hr & Hi & _).
      * intros n. reflexivity.
      * vm_compute. reflexivity.
      * vm_compute. reflexivity.
      * exists w', chefId, u'. auto.
  - destruct (role_request_decision (env0_failing_at 3) (bearer "tokAdmin" ∅) "tokAdmin"
                (Some "admin@x.com") (user_doc "admin@x.com" "admin" "normal")
                "0123456789abcdef01234567" "0123456789abcdef01234567"
                chef_request (user_doc "a@x.com" "user" "normal") (world_of request_db))
      as (_ & Hfail & _).
    + by_evaluation.
    + vm_compute. reflexivity.
    + vm_compute. reflexivity.
    + intros n. vm_compute. reflexivity.
    + vm_compute. reflexivity.
    + apply (Hfail 89%Z).
      * intros n Hn. cbn in Hn. cbn [env0_failing_at store_fault].
        destruct (Nat.eqb_spec n 3); [lia | reflexivity].
      * reflexivity.
      * vm_compute. reflexivity.
      * vm_compute. reflexivity.
Defined.

(** * Further properties of the server *)

(** ** Splitting and joining on spaces *)

Lemma split_space_nonempty (s : string) : split_space s ≠ [].
Proof.
  destruct s as [| c s]; simpl; [discriminate |].
  destruct (Ascii.eqb c " "); [discriminate |].
  destruct (split_space s); discriminate.
Qed.

Lemma split_space_spaceless (s : string) : forallb spaceless (split_space s) = true.
Proof.
  induction s as [| c s IH]; [reflexivity |]. simpl.
  destruct (Ascii.eqb c " ") eqn:E; [exact IH |].
  destruct (split_space s) as [| p ps]; simpl in *; rewrite E; simpl; [reflexivity | exact IH].
Qed.

Lemma split_space_of_spaceless (p : string) : spaceless p = true → split_space p = [p].
Proof.
  induction p as [| c p IH]; [reflexivity |]. simpl.
  destruct (Ascii.eqb c " "); [discriminate |]. simpl.
  intros H. rewrite (IH H). reflexivity.
Qed.

Lemma split_space_segment (p rest : string) :
  spaceless p = true →
  split_space (p +:+ " " +:+ rest) = p :: split_space rest.
Proof.
  induction p as [| c p IH]; [reflexivity |]. simpl.
  destruct (Ascii.eqb c " "); [discriminate |]. simpl.
  intros H. rewrite (IH H). reflexivity.
Qed.

Lemma join_space_split (s : string) : join_space (split_space s) = s.
Proof.
  induction s as [| c s IH]; [reflexivity |]. simpl.
  pose proof (split_space_nonempty s) as Hne.
  destruct (Ascii.eqb_spec c " ") as [-> | Hc].
  - destruct (split_space s) as [| p ps]; [contradiction |].
    change (join_space ("" :: p :: ps)) with (" " +:+ join_space (p :: ps)).
    rewrite IH. reflexivity.
  - destruct (split_space s) as [| p [| q ps]]; [contradiction | |].
    + simpl in *. rewrite IH. reflexivity.
    + change (join_space (String c p :: q :: ps))
        with (String c (join_space (p :: q :: ps))).
      rewrite IH. reflexivity.
Qed.

Lemma split_space_join (parts : list string) :
  parts ≠ [] → forallb spaceless parts = true → split_space (join_space parts) = parts.
Proof.
  induction parts as [| p ps IH]; [contradiction |].
  intros _ H. simpl in H. apply andb_true_iff in H as [Hp Hps].
  destruct ps as [| q ps].
  - simpl. apply split_space_of_spaceless, Hp.
  - change (join_space (p :: q :: ps)) with (p +:+ " " +:+ join_space (q :: ps)).
    rewrite split_space_segment by exact Hp.
    rewrite IH by (discriminate || exact Hps). reflexivity.
Qed.

(** X1. [split(" ")] and [join(" ")] are inverse to each other: joining the
    segments of a string gives the string back, the segments hold no
    space, and splitting the join of space-free segments (at least one)
    gives the segments back. *)
Theorem split_join_inverse :
  (∀ s, join_space (split_space s) = s ∧ forallb spaceless (split_space s) = true)
  ∧ (∀ parts, parts ≠ [] → forallb spaceless parts = true →
       split_space (join_space parts) = parts).
Proof.
  split.
  - intros s. split; [apply join_space_split | apply split_space_spaceless].
  - apply split_space_join.
Qed.

Lemma split_join_inverse_witness :
  split_space (join_space ["Bearer"; "tokA"]) = ["Bearer"; "tokA"].
Proof.
  apply (proj2 split_join_inverse ["Bearer"; "tokA"]).
  - discriminate.
  - reflexivity.
Defined.

(** X2. [getTokenFromHeader] returns a token exactly for the headers made
    of two space-free segments with one space between them, and the token
    is the second segment; the first segment (the scheme) is not looked
    at and may be anything, even empty. *)
Theorem getToken_characterised (req : Request) (t : string) :
  getTokenFromHeader req = Some t
  ↔ ∃ scheme, authorization req = Some (scheme +:+ " " +:+ t)
              ∧ spaceless scheme = true ∧ spaceless t = true.
Proof.
  unfold getTokenFromHeader. split.
  - destruct (authorization req) as [a |]; [| discriminate].
    destruct (negb (truthy (JStr a))); [discriminate |].
    pose proof (join_space_split a) as Hjoin.
    pose proof (split_space_spaceless a) as Hsp.
    destruct (split_space a) as [| s [| t' [| ? ?]]]; try discriminate.
    simpl. intros [= ->]. exists s. simpl in Hsp, Hjoin.
    apply andb_true_iff in Hsp as [Hs Ht]. apply andb_true_iff in Ht as [Ht _].
    rewrite <- Hjoin. auto.
  - intros (scheme & -> & Hs & Ht).
    assert (Hsplit : split_space (scheme +:+ " " +:+ t) = [scheme; t]).
    { rewrite split_space_segment by exact Hs.
      rewrite split_space_of_spaceless by exact Ht. reflexivity. }
    rewrite Hsplit.
    assert (Htr : truthy (JStr (scheme +:+ " " +:+ t)) = true).
    { apply truthy_JStr. destruct scheme; discriminate. }
    rewrite Htr. reflexivity.
Qed.

(** ** What a computation leaves alone *)

Section Frame.
Context (env : Env) (R : World → World → Prop) `{!Frame R}.

Lemma keeps_ret {A} (a : A) : keeps R (ret a).
Proof. intros w. apply frame_refl. Qed.

Lemma keeps_throw {A} (e : Exn) : keeps R (@throw A e).
Proof. intros w. apply frame_refl. Qed.

Lemma keeps_bind {A B} (m : M A) (k : A → M B) :
  keeps R m → (∀ a, keeps R (k a)) → keeps R (bind m k).
Proof.
  intros Hm Hk w. unfold bind. specialize (Hm w).
  destruct (m w) as [[a | e] w1]; [| exact Hm].
  eapply frame_trans; [exact Hm | apply Hk].
Qed.

Lemma keeps_try_catch {A} (m : M A) (h : Exn → M A) :
  keeps R m → (∀ e, keeps R (h e)) → keeps R (try_catch m h).
Proof.
  intros Hm Hh w. unfold try_catch. specialize (Hm w).
  destruct (m w) as [[a | e] w1]; [exact Hm |].
  eapply frame_trans; [exact Hm | apply Hh].
Qed.

Lemma keeps_console_error (l : string) (e : Exn) : keeps R (console_error l e).
Proof. intros w. apply frame_console. Qed.

Lemma keeps_ticks : keeps R ticks.
Proof. intros w. apply frame_refl. Qed.

Lemma keeps_new_Date : keeps R (new_Date env).
Proof. intros w. apply frame_refl. Qed.

Lemma keeps_new_ObjectId (x : jsval) : keeps R (new_ObjectId env x).
Proof.
  intros w. unfold new_ObjectId, bind, ticks. simpl.
  destruct (ObjectId_new env _ x); apply frame_refl.
Qed.

Lemma keeps_generate_chefId : keeps R (generate_chefId env).
Proof. intros w. apply frame_refl. Qed.

Lemma keeps_store {A} (call : StoreCall) (f : DB → A * DB) :
  (∀ w, R w (with_db (f (db w)).2 (log_store call w))) → keeps R (store env call f).
Proof.
  intros H w. unfold store. destruct (store_fault env _); [apply frame_store |].
  specialize (H w). destruct (f (db w)). exact H.
Qed.

Lemma keeps_findOne (c : Coll) (filter : jsobj) : keeps R (findOne env c filter).
Proof. apply keeps_store. intros w. exact (frame_store _ w). Qed.

Lemma keeps_find_all (c : Coll) (filter : jsobj) : keeps R (find_all env c filter).
Proof. apply keeps_store. intros w. exact (frame_store _ w). Qed.

Lemma keeps_countDocuments (c : Coll) : keeps R (countDocuments env c).
Proof. apply keeps_store. intros w. exact (frame_store _ w). Qed.

Lemma keeps_insertOne (c : Coll) (doc : jsobj) :
  allows_insert R c → keeps R (insertOne env c doc).
Proof.
  intros H. unfold insertOne. apply keeps_bind; [apply keeps_ticks |].
  intros n. apply keeps_store. intros w. apply H.
Qed.

Lemma keeps_updateOne (c : Coll) (filter fields : jsobj) :
  allows_update R c fields → keeps R (updateOne env c filter fields).
Proof. intros H. apply keeps_store. intros w. apply H. Qed.

Lemma keeps_deleteOne (c : Coll) (filter : jsobj) :
  allows_delete R c → keeps R (deleteOne env c filter).
Proof. intros H. apply keeps_store. intros w. apply H. Qed.

Lemma keeps_bind_assoc {A B C} (m : M A) (f : A → M B) (k : B → M C) :
  keeps R (bind m (fun a => bind (f a) k)) → keeps R (bind (bind m f) k).
Proof.
  intros H w. specialize (H w). unfold bind in *.
  destruct (m w) as [[a | e] w1]; exact H.
Qed.

Lemma keeps_verifyAdmin (req : Request) : keeps R (verifyAdmin env req).
Proof.
  unfold verifyAdmin. apply keeps_bind; [apply keeps_findOne |].
  intros [u |]; [destruct (negb _) |]; apply keeps_ret.
Qed.

Lemma keeps_verifyChef (req : Request) : keeps R (verifyChef env req).
Proof.
  unfold verifyChef. apply keeps_try_catch.
  - apply keeps_bind; [apply keeps_findOne |].
    intros [u |]; [destruct (negb _ && negb _) |]; apply keeps_ret.
  - intros e. apply keeps_bind; [apply keeps_console_error | intros _; apply keeps_ret].
Qed.

Context `{!VerifyFrame R}.

Lemma keeps_verifyJWT (req : Request) : keeps R (verifyJWT env req).
Proof.
  intros w. unfold verifyJWT.
  destruct (getTokenFromHeader req) as [t |]; [| apply frame_refl].
  destruct (negb (truthy (JStr t))); [apply frame_refl |].
  destruct (verifyIdToken env t); simpl; [| apply frame_verify].
  eapply frame_trans; [apply frame_verify | apply frame_console].
Qed.

Lemma keeps_run_chain (gs : list Gate) (h : Request → M Response) (req : Request) :
  (∀ req', keeps R (h req')) → keeps R (run_chain env gs h req).
Proof.
  intros Hh. revert req. induction gs as [| g gs IH]; intros req; [apply Hh |].
  simpl. apply keeps_bind.
  - destruct g; [apply keeps_verifyJWT | apply keeps_verifyAdmin | apply keeps_verifyChef].
  - intros [req' | r]; [apply IH | apply keeps_ret].
Qed.

End Frame.

Lemma serve_world (env : Env) (r : Route) (req : Request) (w : World) :
  (serve env r req w).2 = (run_chain env (middlewares r) (handler env r) req w).2.
Proof.
  unfold serve. destruct (run_chain _ _ _ _ _) as [[resp | e] w']; reflexivity.
Qed.

(** Decomposes a handler along its binds, catches and branches; [side]
    settles what the relation lets a write do. *)
Ltac frame_goal :=
  lazymatch goal with
  | |- Frame _ => exact _
  | |- forall _, _ => intros ?
  | |- _ => idtac
  end.

Ltac frame_step side :=
  lazymatch goal with
  | |- keeps ?R (bind (ret ?a) ?k) => change (keeps R (k a)); cbv beta
  | |- keeps _ (bind (bind _ _) _) => apply keeps_bind_assoc; frame_goal
  | |- keeps _ (bind (if ?b then _ else _) _) => destruct b
  | |- keeps _ (bind _ _) => apply keeps_bind; frame_goal
  | |- keeps _ (try_catch _ _) => apply keeps_try_catch; frame_goal
  | |- keeps _ (ret _) => apply keeps_ret; frame_goal
  | |- keeps _ (throw _) => apply keeps_throw; frame_goal
  | |- keeps _ (console_error _ _) => apply keeps_console_error; frame_goal
  | |- keeps _ (new_Date _) => apply keeps_new_Date; frame_goal
  | |- keeps _ (new_ObjectId _ _) => apply keeps_new_ObjectId; frame_goal
  | |- keeps _ (generate_chefId _) => apply keeps_generate_chefId; frame_goal
  | |- keeps _ (findOne _ _ _) => apply keeps_findOne; frame_goal
  | |- keeps _ (find_all _ _ _) => apply keeps_find_all; frame_goal
  | |- keeps _ (countDocuments _ _) => apply keeps_countDocuments; frame_goal
  | |- keeps _ (insertOne _ _ _) => apply keeps_insertOne; [exact _ | side]
  | |- keeps _ (updateOne _ _ _ _) => apply keeps_updateOne; [exact _ | side]
  | |- keeps _ (deleteOne _ _ _) => apply keeps_deleteOne; [exact _ | side]
  | |- keeps _ (match ?x with _ => _ end) => destruct x
  | |- keeps _ (let _ := _ in _) => cbv zeta
  end.

Ltac frame side := repeat frame_step side.

#[local] Instance same_db_frame : Frame same_db.
Proof.
  split; unfold same_db; intros; try reflexivity. congruence.
Qed.

#[local] Instance same_db_verify : VerifyFrame same_db.
Proof. intros t w. reflexivity. Qed.

#[local] Instance same_users_frame : Frame same_users.
Proof.
  split; unfold same_users; intros; try reflexivity. congruence.
Qed.

#[local] Instance same_users_verify : VerifyFrame same_users.
Proof. intros t w. reflexivity. Qed.

#[local] Instance users_persist_frame : Frame users_persist.
Proof.
  split; unfold users_persist; intros; try reflexivity. etrans; eassumption.
Qed.

#[local] Instance users_persist_verify : VerifyFrame users_persist.
Proof. intros t w. unfold users_persist. reflexivity. Qed.

#[local] Instance same_verify_log_frame : Frame same_verify_log.
Proof.
  split; unfold same_verify_log; intros; try reflexivity. congruence.
Qed.

Lemma users_persist_insert : allows_insert users_persist userColl.
Proof.
  intros w d call. unfold users_persist, user_emails. simpl.
  rewrite fmap_app. apply prefix_app_r. reflexivity.
Qed.

(** A [$set] leaves the fields it does not name as they were. *)
Lemma get_update_other (fields d : jsobj) (k : string) :
  fields !! k = None → get (to_bson fields ∪ d) k = get d k.
Proof.
  intros H. unfold get. rewrite lookup_union_r; [reflexivity |].
  unfold to_bson. rewrite lookup_fmap, H. reflexivity.
Qed.

Lemma users_persist_update (fields : jsobj) :
  fields !! "email" = None → allows_update users_persist userColl fields.
Proof.
  intros Hf w p call. unfold users_persist, user_emails. simpl.
  induction (users (db w)) as [| d l IH]; [reflexivity |]. simpl.
  destruct (p d); simpl.
  - rewrite get_update_other by exact Hf. reflexivity.
  - apply prefix_cons, IH.
Qed.

(** Settles a write on a collection the relation does not look at. *)
Ltac other_collection :=
  solve [ intros ? ? ?; reflexivity ].

(** Settles a write for [users_persist]. *)
Ltac users_write :=
  first [ solve [ intros ? ? ?; unfold users_persist; reflexivity ]
        | apply users_persist_insert
        | apply users_persist_update; reflexivity ].

(** Unfolds the handler of a route. *)
Ltac unfold_handlers :=
  unfold post_users, get_users, patch_users_make_fraud, post_meals, get_meals,
    get_meals_id, get_reviews, get_reviews_mealId, post_reviews, post_favorites,
    get_favorites_email, delete_favorites_id, post_orders, get_orders, get_orders_id,
    get_users_email, post_role_requests, get_role_requests, patch_role_requests_accept,
    patch_role_requests_reject, get_user_reviews, delete_reviews_id, patch_reviews_id,
    post_order_requests, get_order_requests, get_orders_chef, patch_order_requests_id,
    patch_orders_id, get_meals_chef, delete_meals_id, patch_meals_id,
    post_create_payment_intent, post_payment_success, get_payments_id,
    get_admin_statistics, get_root.

(** ** Whole-server invariants *)

(** X3. The routes registered with [app.get] only read: whatever the
    request, the collaborators and the store faults, the database after
    the request is the database before it. *)
Theorem get_routes_read_only (env : Env) (r : Route) (req : Request) (w : World) :
  is_get r = true → db (serve env r req w).2 = db w.
Proof.
  intros Hget. rewrite serve_world.
  apply (keeps_run_chain env same_db). clear req w. intros req.
  destruct r; try discriminate Hget; cbn [handler]; unfold_handlers; frame idtac.
Qed.

Lemma get_routes_read_only_witness :
  db (serve env0 GET_admin_statistics (bearer "tokAdmin" ∅) (world_of plain_db)).2
  = db (world_of plain_db).
Proof.
  apply (get_routes_read_only env0 GET_admin_statistics). reflexivity.
Defined.

(** X4. The users are written by three routes only: self-registration,
    the fraud flag and the approval of a role request. On every other
    route, whatever the request and the faults, the users after the
    request are the users before it. *)
Theorem users_written_by_three_routes (env : Env) (r : Route) (req : Request) (w : World) :
  writes_users r = false → users (db (serve env r req w).2) = users (db w).
Proof.
  intros Hr. rewrite serve_world.
  apply (keeps_run_chain env same_users). clear req w. intros req.
  destruct r; try discriminate Hr; cbn [handler]; unfold_handlers;
    frame other_collection.
Qed.

Lemma users_written_by_three_routes_witness :
  users (db (serve env0 POST_payment_success
               (anonymous {[ "orderId" := JStr "0123456789abcdef01234567" ]})
               (world_of plain_db)).2)
  = users (db (world_of plain_db)).
Proof.
  apply (users_written_by_three_routes env0 POST_payment_success). reflexivity.
Defined.

(** X5. No route removes a user record or changes the email of one: after
    any request, whatever the faults, the emails of the records that were
    there are a prefix of the emails of the records that are there (new
    records come after them). *)
Theorem users_are_never_removed (env : Env) (r : Route) (req : Request) (w : World) :
  user_emails (db w) `prefix_of` user_emails (db (serve env r req w).2).
Proof.
  rewrite serve_world.
  apply (keeps_run_chain env users_persist). clear req w. intros req.
  destruct r; cbn [handler]; unfold_handlers; frame users_write.
Qed.


Lemma handlers_verify_nothing (env : Env) (r : Route) (req : Request) :
  keeps same_verify_log (handler env r req).
Proof.
  destruct r; cbn [handler]; unfold_handlers; frame other_collection.
Qed.

Lemma role_gates_verify_nothing (env : Env) (gs : list Gate) (h : Request → M Response)
    (req : Request) :
  verifyJWT_gate ∉ gs →
  (∀ req', keeps same_verify_log (h req')) →
  keeps same_verify_log (run_chain env gs h req).
Proof.
  intros Hgs Hh. revert req. induction gs as [| g gs IH]; intros req; [apply Hh |].
  apply not_elem_of_cons in Hgs as [Hg Hgs].
  simpl. apply keeps_bind; [exact _ | |].
  - destruct g; [contradiction | apply keeps_verifyAdmin | apply keeps_verifyChef]; exact _.
  - intros [req' | resp]; [apply IH, Hgs | apply keeps_ret; exact _].
Qed.

Lemma middlewares_shape (r : Route) :
  ∃ gs, (verifyJWT_gate ∉ gs)
        ∧ middlewares r = (if protected r then verifyJWT_gate :: gs else gs).
Proof.
  destruct r; cbn;
    first [ exists []; split; [apply not_elem_of_nil | reflexivity]
          | exists [verifyAdmin_gate]; split; [| reflexivity]
          | exists [verifyChef_gate]; split; [| reflexivity] ];
    intros H; apply list_elem_of_singleton in H; discriminate.
Qed.

(** X6. A request makes the server verify at most one token: on a
    protected route the token of the header, when the header yields one,
    and on an unprotected route none. This holds whatever the handler
    does afterwards and whatever fails. *)
Theorem one_verification_per_request (env : Env) (r : Route) (req : Request) (w : World) :
  verify_log (serve env r req w).2 = (verify_log w ++ verified_tokens r req)%list.
Proof.
  rewrite serve_world. unfold verified_tokens.
  destruct (middlewares_shape r) as (gs & Hgs & ->).
  pose proof (role_gates_verify_nothing env gs (handler env r)) as Hrest.
  destruct (protected r).
  - cbn [run_chain run_gate]. unfold bind, verifyJWT.
    destruct (getTokenFromHeader req) as [t |]; [| simpl; rewrite app_nil_r; reflexivity].
    destruct (truthy (JStr t)); [| simpl; rewrite app_nil_r; reflexivity].
    cbn [negb]. destruct (verifyIdToken env t) as [err | email].
    + reflexivity.
    + rewrite (Hrest _ Hgs (handlers_verify_nothing env r)). reflexivity.
  - rewrite (Hrest _ Hgs (handlers_verify_nothing env r)), app_nil_r. reflexivity.
Qed.

(** X7. An unprotected route does not look at the credentials: the same
    request sent with any other Authorization header (and any value in
    [req.tokenEmail]) gets the same response and leaves the same world. *)
Theorem public_routes_ignore_credentials (env : Env) (r : Route) (req : Request)
    (a : option string) (t : jsval) (w : World) :
  protected r = false →
  serve env r (with_credentials a t req) w = serve env r req w.
Proof.
  intros Hr. destruct r; try discriminate Hr; reflexivity.
Qed.

Lemma public_routes_ignore_credentials_witness :
  serve env0 (DELETE_favorites_id "0123456789abcdef01234567")
    (with_credentials (Some "Bearer tokA") JUndef (anonymous ∅)) (world_of plain_db)
  = serve env0 (DELETE_favorites_id "0123456789abcdef01234567") (anonymous ∅)
      (world_of plain_db).
Proof.
  apply (public_routes_ignore_credentials env0 (DELETE_favorites_id "0123456789abcdef01234567")).
  reflexivity.
Defined.

(** ** More facts on the store *)

Lemma update_first_none (p : jsobj → bool) (f : jsobj → jsobj) (l : list jsobj) :
  List.find p l = None → update_first p f l = l.
Proof.
  induction l as [| d l IH]; [reflexivity |]. simpl.
  destruct (p d); [discriminate |]. intros H. rewrite (IH H). reflexivity.
Qed.

Lemma count_first_none (p : jsobj → bool) (l : list jsobj) :
  List.find p l = None → count_first p l = 0.
Proof. unfold count_first. intros ->. reflexivity. Qed.

Lemma set_coll_same (c : Coll) (d : DB) : set_coll c (coll c d) d = d.
Proof. destruct c, d; reflexivity. Qed.

Lemma deleteOne_ok (env : Env) (c : Coll) (filter : jsobj) (w : World) :
  store_fault env (List.length (store_log w)) = None →
  deleteOne env c filter w
  = (Val (JObj {[ "acknowledged" := JBool true;
                  "deletedCount" := JNum (num_of_nat (count_first (matches env filter) (coll c (db w)))) ]}),
     with_db (set_coll c (delete_first (matches env filter) (coll c (db w))) (db w))
       (log_store (CDeleteOne c filter) w)).
Proof.
  intros H. unfold deleteOne. rewrite store_ok by exact H. reflexivity.
Qed.



Lemma get_lookup_defined (o : jsobj) (k : string) (v : jsval) :
  get o k = v → v ≠ JUndef → o !! k = Some v.
Proof. unfold get. destruct (o !! k); simpl; congruence. Qed.

(** What is stored for a field whose value is a string. *)
Lemma stored_string_field (env : Env) (n : nat) (o : jsobj) (k s : string) :
  "_id" ≠ k → get o k = JStr s → to_bson (ensure_id env n o) !! k = Some (JStr s).
Proof.
  intros Hk H. unfold to_bson. rewrite lookup_fmap.
  assert (Hg : get (ensure_id env n o) k = JStr s)
    by (rewrite get_ensure_id_ne by exact Hk; exact H).
  rewrite (get_JStr_lookup _ _ _ Hg). reflexivity.
Qed.

(** ** The role gates when the store fails *)

(** X8. When the lookup of the principal's record fails in the store, a
    chef-gated route answers 500 (the gate catches and logs the error)
    while an admin-gated route writes no response at all (the gate has no
    try/catch and the error escapes). In both cases the handler does not
    run and the database is unchanged. *)
Theorem role_gate_store_failure (env : Env) (r : Route) (req : Request)
    (token : string) (email : option string) (code : Z) (w : World) :
  authenticated env req token email →
  store_fault env (List.length (store_log w)) = Some code →
  let w' := log_store (CFindOne userColl {[ "email" := email_claim email ]})
              (log_verify token w) in
  (role_gate r = Some verifyChef_gate →
     serve env r req w
     = (Responded (status_send 500 (message "Server error in verifyChef")),
        log_console "verifyChef error:" (MongoError code) w'))
  ∧ (role_gate r = Some verifyAdmin_gate →
     serve env r req w = (Unhandled (MongoError code), w')).
Proof.
  intros Hauth Hfail w'.
  split; intros Hg; apply role_gate_chain in Hg; unfold serve; rewrite Hg;
    rewrite (run_chain_authenticated env _ _ req token email w Hauth);
    cbn [run_chain run_gate]; unfold bind.
  - unfold verifyChef, try_catch, bind, findOne.
    rewrite (store_fails env _ _ _ code) by exact Hfail. reflexivity.
  - unfold verifyAdmin, bind, findOne.
    rewrite (store_fails env _ _ _ code) by exact Hfail. reflexivity.
Qed.

Lemma role_gate_store_failure_witness :
  serve (env0_failing_at 0) GET_users (bearer "tokAdmin" ∅) (world_of plain_db)
  = (Unhandled (MongoError 89),
     log_store (CFindOne userColl {[ "email" := JStr "admin@x.com" ]})
       (log_verify "tokAdmin" (world_of plain_db))).
Proof.
  refine (proj2 (role_gate_store_failure (env0_failing_at 0) GET_users (bearer "tokAdmin" ∅)
                   "tokAdmin" (Some "admin@x.com") 89 (world_of plain_db) _ _) _).
  - by_evaluation.
  - reflexivity.
  - reflexivity.
Defined.

(** ** The fraud flag *)

Lemma post_meals_fraud_chef (env : Env) (req : Request) (token : string)
    (email : option string) (u : jsobj) (w : World) :
  authenticated env req token email →
  store_reliable env →
  user_record env (email_claim email) (db w) = Some u →
  get u "role" = JStr "chef" →
  get u "status" = JStr "fraud" →
  ∃ w', serve env POST_meals req w
        = (Responded (status_send 403
             (JObj {[ "errorType" := JStr "FRAUD_USER";
                      "message" := JStr "You are marked as fraud. You cannot create meals." ]})), w')
        ∧ db w' = db w.
Proof.
  intros Hauth Hok Hrec Hrole Hstatus. unfold serve. cbn [middlewares handler].
  rewrite (chef_chain_pass env _ req token email u w Hauth (Hok _) Hrec) by (left; exact Hrole).
  unfold post_meals, bind. rewrite findOne_ok by apply Hok.
  cbn [tokenEmail with_tokenEmail db log_verify log_store coll].
  fold (user_record env (email_claim email) (db w)). rewrite Hrec, Hrole, Hstatus.
  eexists. split; reflexivity.
Qed.

(** X9. Flagging composes with the fraud gate: once an admin has flagged
    the email of a chef through PATCH /users/make-fraud/:email, that
    chef's next POST /meals is answered 403 and stores no meal. *)
Theorem flagged_chef_is_blocked (env : Env) (reqA reqC : Request) (tokenA tokenC : string)
    (emailA : option string) (adm u : jsobj) (e : string) (w : World) :
  store_reliable env →
  authenticated env reqA tokenA emailA →
  user_record env (email_claim emailA) (db w) = Some adm →
  get adm "role" = JStr "admin" →
  authenticated env reqC tokenC (Some e) →
  user_record env (JStr e) (db w) = Some u →
  get u "role" = JStr "chef" →
  ∃ r1 w1 w2,
    serve env (PATCH_users_make_fraud e) reqA w = (Responded r1, w1)
    ∧ status r1 = 200%Z
    ∧ serve env POST_meals reqC w1
      = (Responded (status_send 403
           (JObj {[ "errorType" := JStr "FRAUD_USER";
                    "message" := JStr "You are marked as fraud. You cannot create meals." ]})), w2)
    ∧ meals (db w2) = meals (db w).
Proof.
  intros Hok HauthA Hadm Hrole HauthC Hu Hchef.
  assert (E1 : ∃ r1 w1,
             serve env (PATCH_users_make_fraud e) reqA w = (Responded r1, w1)
             ∧ status r1 = 200%Z
             ∧ db w1 = set_coll userColl
                         (update_first (matches env {[ "email" := JStr e ]})
                            (fun doc => to_bson {[ "status" := JStr "fraud" ]} ∪ doc)
                            (users (db w))) (db w)).
  { unfold serve. cbn [middlewares handler].
    rewrite (admin_chain_pass env _ reqA tokenA emailA adm w HauthA (Hok _) Hadm Hrole).
    unfold patch_users_make_fraud, bind. rewrite updateOne_ok by apply Hok.
    do 2 eexists. split; [reflexivity |]. split; reflexivity. }
  destruct E1 as (r1 & w1 & E1 & S1 & D1).
  assert (Hu1 : user_record env (JStr e) (db w1)
                = Some (to_bson {[ "status" := JStr "fraud" ]} ∪ u)).
  { rewrite D1. unfold user_record. cbn [users set_coll].
    apply find_update_first; [exact Hu |].
    rewrite matches_singleton_update by reflexivity.
    apply (find_holds _ _ _ Hu). }
  destruct (post_meals_fraud_chef env reqC tokenC (Some e) _ w1 HauthC Hok Hu1)
    as (w2 & E2 & D2).
  - rewrite get_update_other by reflexivity. exact Hchef.
  - apply get_update_field; [reflexivity | discriminate].
  - exists r1, w1, w2. rewrite E1, E2, D2, D1. auto.
Qed.

Lemma flagged_chef_is_blocked_witness :
  ∃ r1 w1 w2,
    serve env0 (PATCH_users_make_fraud "b@x.com") (bearer "tokAdmin" ∅) (world_of plain_db)
    = (Responded r1, w1)
    ∧ status r1 = 200%Z
    ∧ serve env0 POST_meals (bearer "tokB" ∅) w1
      = (Responded (status_send 403
           (JObj {[ "errorType" := JStr "FRAUD_USER";
                    "message" := JStr "You are marked as fraud. You cannot create meals." ]})), w2)
    ∧ meals (db w2) = meals (db (world_of plain_db)).
Proof.
  refine (flagged_chef_is_blocked env0 (bearer "tokAdmin" ∅) (bearer "tokB" ∅)
            "tokAdmin" "tokB" (Some "admin@x.com")
            (user_doc "admin@x.com" "admin" "normal") (user_doc "b@x.com" "chef" "normal")
            "b@x.com" (world_of plain_db) _ _ _ _ _ _ _).
  - intros n. reflexivity.
  - by_evaluation.
  - vm_compute. reflexivity.
  - vm_compute. reflexivity.
  - by_evaluation.
  - vm_compute. reflexivity.
  - vm_compute. reflexivity.
Defined.

(** X10. Flagging an email that no user record carries is answered like a
    success (200, [success: true]) with [matchedCount] 0, and changes
    nothing in the database. *)
Theorem flagging_unknown_email (env : Env) (req : Request) (token : string)
    (email : option string) (adm : jsobj) (e : string) (w : World) :
  store_reliable env →
  authenticated env req token email →
  user_record env (email_claim email) (db w) = Some adm →
  get adm "role" = JStr "admin" →
  user_record env (JStr e) (db w) = None →
  ∃ w',
    serve env (PATCH_users_make_fraud e) req w
    = (Responded (send (JObj {[ "success" := JBool true;
                                "result" := JObj {[ "acknowledged" := JBool true;
                                                    "matchedCount" := JNum 0 ]} ]})), w')
    ∧ db w' = db w.
Proof.
  intros Hok Hauth Hadm Hrole Hnone.
  unfold serve. cbn [middlewares handler].
  rewrite (admin_chain_pass env _ req token email adm w Hauth (Hok _) Hadm Hrole).
  unfold patch_users_make_fraud, bind. rewrite updateOne_ok by apply Hok.
  cbn [db log_store log_verify coll].
  unfold user_record in Hnone.
  rewrite (update_first_none _ _ _ Hnone), (count_first_none _ _ Hnone).
  eexists. split; [reflexivity |].
  cbn [db with_db]. apply (set_coll_same userColl).
Qed.

Lemma flagging_unknown_email_witness :
  ∃ w',
    serve env0 (PATCH_users_make_fraud "ghost@x.com") (bearer "tokAdmin" ∅) (world_of plain_db)
    = (Responded (send (JObj {[ "success" := JBool true;
                                "result" := JObj {[ "acknowledged" := JBool true;
                                                    "matchedCount" := JNum 0 ]} ]})), w')
    ∧ db w' = db (world_of plain_db).
Proof.
  refine (flagging_unknown_email env0 (bearer "tokAdmin" ∅) "tokAdmin" (Some "admin@x.com")
            (user_doc "admin@x.com" "admin" "normal") "ghost@x.com" (world_of plain_db)
            _ _ _ _ _).
  - intros n. reflexivity.
  - by_evaluation.
  - vm_compute. reflexivity.
  - vm_compute. reflexivity.
  - vm_compute. reflexivity.
Defined.

(** ** Favorites *)




(** ** Reading a profile *)

(** X12. GET /users/:email is for the principal's own profile: asked for
    any other email it answers 403 without calling the store; asked for
    the principal's own email it answers the record, or 404 when there is
    none, and the database is unchanged. *)
Theorem profile_is_read_by_its_owner (env : Env) (e : string) (req : Request)
    (token : string) (email : option string) (w : World) :
  authenticated env req token email →
  (email ≠ Some e →
     serve env (GET_users_email e) req w
     = (Responded (status_send 403 (message "Forbidden!")), log_verify token w))
  ∧ (email = Some e →
     store_fault env (List.length (store_log w)) = None →
     serve env (GET_users_email e) req w
     = (Responded match user_record env (JStr e) (db w) with
                  | Some u => send (JObj u)
                  | None => status_send 404 (message "User not found")
                  end,
        log_store (CFindOne userColl {[ "email" := JStr e ]}) (log_verify token w))).
Proof.
  intros Hauth. unfold serve. cbn [middlewares handler].
  rewrite (run_chain_authenticated env _ _ req token email w Hauth).
  cbn [run_chain]. unfold get_users_email, try_catch.
  cbn [tokenEmail with_tokenEmail]. split.
  - intros Hne.
    assert (Hs : strict_eq (JStr e) (email_claim email) = false).
    { destruct email as [e' |]; [| reflexivity]. cbn [email_claim strict_eq].
      destruct (String.eqb_spec e e'); [congruence | reflexivity]. }
    rewrite Hs. reflexivity.
  - intros -> Hok. cbn [email_claim strict_eq]. rewrite String.eqb_refl. cbn [negb].
    unfold bind. rewrite findOne_ok by exact Hok.
    cbn [db log_verify coll]. fold (user_record env (JStr e) (db w)).
    destruct (user_record env (JStr e) (db w)); reflexivity.
Qed.

Lemma profile_is_read_by_its_owner_witness :
  serve env0 (GET_users_email "b@x.com") (bearer "tokA" ∅) (world_of plain_db)
  = (Responded (status_send 403 (message "Forbidden!")), log_verify "tokA" (world_of plain_db)).
Proof.
  refine (proj1 (profile_is_read_by_its_owner env0 "b@x.com" (bearer "tokA" ∅) "tokA"
                   (Some "a@x.com") (world_of plain_db) _) _).
  - by_evaluation.
  - discriminate.
Defined.

(** ** Changing a review *)

Lemma get_update_set (fields d : jsobj) (k : string) (v : jsval) :
  fields !! k = Some v → get (to_bson fields ∪ d) k = bson_value v.
Proof.
  intros H. unfold get.
  rewrite (lookup_union_Some_l _ _ _ (bson_value v)); [reflexivity |].
  unfold to_bson. rewrite lookup_fmap, H. reflexivity.
Qed.

(** X13. DELETE /reviews/:id and PATCH /reviews/:id act for the reviewer
    only. When the stored review's [reviewerEmail] is not the principal,
    both answer 403 and the database is unchanged. When it is, DELETE
    removes that review, and PATCH rewrites its [rating] and [comment]
    with the body's (null when the body has none) and leaves its owner.
    (The identifier is valid, the store answers.) *)
Theorem review_is_changed_by_its_reviewer (env : Env) (id hex : string) (req : Request)
    (token : string) (email : option string) (rv : jsobj) (w : World) :
  store_reliable env →
  authenticated env req token email →
  ObjectId_isValid env id = true →
  (∀ n, ObjectId_new env n (JStr id) = Some hex) →
  List.find (matches env {[ "_id" := JOid hex ]}) (reviews (db w)) = Some rv →
  (get rv "reviewerEmail" ≠ email_claim email →
     (∃ w', serve env (DELETE_reviews_id id) req w
            = (Responded (status_send 403 (message "Forbidden!")), w') ∧ db w' = db w)
     ∧ (∃ w', serve env (PATCH_reviews_id id) req w
              = (Responded (status_send 403 (message "Forbidden!")), w') ∧ db w' = db w))
  ∧ (get rv "reviewerEmail" = email_claim email →
     (∃ w', serve env (DELETE_reviews_id id) req w
            = (Responded (send (JObj {[ "success" := JBool true ]})), w')
            ∧ db w' = set_coll reviewsCollection
                        (delete_first (matches env {[ "_id" := JOid hex ]}) (reviews (db w)))
                        (db w))
     ∧ (∃ resp w' rv',
          serve env (PATCH_reviews_id id) req w = (Responded resp, w')
          ∧ status resp = 200%Z
          ∧ List.find (matches env {[ "_id" := JOid hex ]}) (reviews (db w')) = Some rv'
          ∧ get rv' "rating" = bson_value (get (body req) "rating")
          ∧ get rv' "comment" = bson_value (get (body req) "comment")
          ∧ get rv' "reviewerEmail" = get rv "reviewerEmail")).
Proof.
  intros Hok Hauth Hvalid Hid Hrv.
  unfold serve. cbn [middlewares handler].
  rewrite !(run_chain_authenticated env _ _ req token email w Hauth).
  cbn [run_chain].
  unfold delete_reviews_id, patch_reviews_id, try_catch, new_ObjectId, new_Date, bind, ticks, ret.
  rewrite Hvalid. cbn [negb]. rewrite !Hid. rewrite !findOne_ok by apply Hok.
  cbn [db log_verify coll tokenEmail with_tokenEmail body]. rewrite Hrv.
  split.
  - intros Hne. rewrite (strict_eq_claim_r _ _ Hne). cbn [negb].
    split; eexists; split; reflexivity.
  - intros Heq.
    assert (Hs : strict_eq (get rv "reviewerEmail") (email_claim email) = true).
    { rewrite Heq. destruct email; simpl; [apply String.eqb_refl | reflexivity]. }
    rewrite Hs. cbn [negb]. rewrite ?Hid.
    rewrite deleteOne_ok by apply Hok. rewrite updateOne_ok by apply Hok.
    split.
    + eexists. split; reflexivity.
    + do 3 eexists. split; [reflexivity |]. split; [reflexivity |].
      cbn [db with_db log_store log_verify coll set_coll reviews].
      split; [| split; [| split]].
      * apply find_update_first; [exact Hrv |].
        rewrite matches_singleton_update by reflexivity.
        apply (find_holds _ _ _ Hrv).
      * apply get_update_set. reflexivity.
      * apply get_update_set. reflexivity.
      * apply get_update_other. reflexivity.
Qed.

Lemma review_is_changed_by_its_reviewer_witness :
  ∃ w', serve env0 (DELETE_reviews_id "0123456789abcdef01234567") (bearer "tokB" ∅)
          (world_of review_db)
        = (Responded (status_send 403 (message "Forbidden!")), w')
        ∧ db w' = db (world_of review_db).
Proof.
  refine (proj1 (proj1 (review_is_changed_by_its_reviewer env0
                          "0123456789abcdef01234567" "0123456789abcdef01234567"
                          (bearer "tokB" ∅) "tokB" (Some "b@x.com") sample_review
                          (world_of review_db) _ _ _ _ _) _)).
  - intros n. reflexivity.
  - by_evaluation.
  - vm_compute. reflexivity.
  - intros n. vm_compute. reflexivity.
  - vm_compute. reflexivity.
  - vm_compute. discriminate.
Defined.

(** ** Fields that the server sets *)

Lemma get_to_bson_set (o : jsobj) (k : string) (v : jsval) :
  get (to_bson (set k v o)) k = bson_value v.
Proof. unfold get, to_bson, set. rewrite lookup_fmap, lookup_insert_eq. reflexivity. Qed.

Lemma get_to_bson_set_ne (o : jsobj) (k k' : string) (v : jsval) :
  k ≠ k' → get (to_bson (set k v o)) k' = get (to_bson o) k'.
Proof.
  intros H. unfold get, to_bson, set. rewrite !lookup_fmap, lookup_insert_ne by exact H.
  reflexivity.
Qed.

Lemma get_to_bson_delete_ne (o : jsobj) (k k' : string) :
  k ≠ k' → get (to_bson (delete k o)) k' = get (to_bson o) k'.
Proof.
  intros H. unfold get, to_bson. rewrite !lookup_fmap, lookup_delete_ne by exact H.
  reflexivity.
Qed.

(** X14. A role request is stored as pending under a server-made id,
    whatever the body says: POST /role-requests drops the body's [_id],
    and overwrites [requestStatus] with [pending] and [requestTime] with
    the server's clock. The request either leaves the database unchanged
    or appends one such document, owned by the principal. *)
Theorem role_request_is_stored_pending (env : Env) (req : Request)
    (token : string) (email : option string) (w : World) :
  authenticated env req token email →
  let w' := (serve env POST_role_requests req w).2 in
  db w' = db w
  ∨ ∃ d, db w' = set_coll roleRequestColl (roleRequests (db w) ++ [d]) (db w)
         ∧ get d "requestStatus" = JStr "pending"
         ∧ get d "_id" = JOid (ObjectId_generate env (List.length (store_log w)))
         ∧ get d "requestTime" = bson_value (Date_now env (List.length (store_log w)))
         ∧ get d "userEmail" = email_claim email
         ∧ get d "requestType" = get (body req) "requestType".
Proof.
  intros Hauth. unfold serve. cbn [middlewares handler].
  rewrite (run_chain_authenticated env _ _ req token email w Hauth).
  cbn [run_chain].
  unfold post_role_requests, try_catch, insertOne, store, new_Date, ticks, console_error,
    ret, bind.
  cbn [body tokenEmail with_tokenEmail db log_verify store_log log_store with_db coll].
  rewrite !get_delete_ne by discriminate.
  destruct (negb (truthy (get (body req) "userEmail"))
            || negb (truthy (get (body req) "requestType"))) eqn:Hreq; [left; reflexivity |].
  destruct (strict_eq (get (body req) "userEmail") (email_claim email)) eqn:Hown;
    [| left; reflexivity].
  cbn [negb store_log log_verify db].
  apply orb_false_elim in Hreq as [Hu Ht]. apply negb_false_iff in Hu, Ht.
  destruct (store_fault env (List.length (store_log w))) as [code |];
    cbn [fst snd db with_db log_console log_store].
  - left. destruct code as [| p | p]; try reflexivity.
    repeat (destruct p as [p | p |]; try reflexivity).
  - right. eexists. split; [reflexivity |].
    assert (Hnoid : get (set "requestStatus" (JStr "pending")
                           (set "requestTime" (Date_now env (List.length (store_log w)))
                              (delete "_id" (body req)))) "_id" = JUndef).
    { rewrite !get_set_ne by discriminate. unfold get. rewrite lookup_delete_eq. reflexivity. }
    unfold ensure_id. rewrite Hnoid. cbn [is_null].
    split; [| split; [| split; [| split]]].
    + rewrite get_to_bson_set_ne by discriminate. apply get_to_bson_set.
    + apply get_to_bson_set.
    + rewrite !get_to_bson_set_ne by discriminate. apply get_to_bson_set.
    + rewrite !get_to_bson_set_ne, get_to_bson_delete_ne by discriminate.
      rewrite get_to_bson_truthy by exact Hu.
      apply strict_eq_email_claim; assumption.
    + rewrite !get_to_bson_set_ne, get_to_bson_delete_ne by discriminate.
      apply get_to_bson_truthy, Ht.
Qed.

Lemma role_request_is_stored_pending_witness :
  let w' := (serve env0 POST_role_requests
               (bearer "tokA" {[ "userEmail" := JStr "a@x.com"; "requestType" := JStr "chef";
                                 "requestStatus" := JStr "approved"; "_id" := JStr "mine" ]})
               (world_of plain_db)).2 in
  db w' = db (world_of plain_db)
  ∨ ∃ d, db w' = set_coll roleRequestColl (roleRequests (db (world_of plain_db)) ++ [d])
                   (db (world_of plain_db))
         ∧ get d "requestStatus" = JStr "pending"
         ∧ get d "_id" = JOid (ObjectId_generate env0 (List.length (store_log (world_of plain_db))))
         ∧ get d "requestTime"
           = bson_value (Date_now env0 (List.length (store_log (world_of plain_db))))
         ∧ get d "userEmail" = email_claim (Some "a@x.com")
         ∧ get d "requestType"
           = get ({[ "userEmail" := JStr "a@x.com"; "requestType" := JStr "chef";
                     "requestStatus" := JStr "approved"; "_id" := JStr "mine" ]} : jsobj)
               "requestType".
Proof.
  refine (role_request_is_stored_pending env0
            (bearer "tokA" {[ "userEmail" := JStr "a@x.com"; "requestType" := JStr "chef";
                              "requestStatus" := JStr "approved"; "_id" := JStr "mine" ]})
            "tokA" (Some "a@x.com") (world_of plain_db) _).
  by_evaluation.
Defined.

(** X15. An order is stored as pending and unpaid, whatever the body
    says: POST /orders overwrites [orderStatus] and [paymentStatus] with
    [pending]. The request either leaves the database unchanged or appends
    one such order; every other field of the body is stored as sent. *)
Theorem order_is_stored_pending (env : Env) (req : Request)
    (token : string) (email : option string) (w : World) :
  authenticated env req token email →
  let w' := (serve env POST_orders req w).2 in
  db w' = db w
  ∨ ∃ d, db w' = set_coll ordersCollection (orders (db w) ++ [d]) (db w)
         ∧ get d "orderStatus" = JStr "pending"
         ∧ get d "paymentStatus" = JStr "pending"
         ∧ ∀ k, k ∉ ["_id"; "orderTime"; "orderStatus"; "paymentStatus"; "createdAt"] →
                get d k = get (to_bson (body req)) k.
Proof.
  intros Hauth. unfold serve. cbn [middlewares handler].
  rewrite (run_chain_authenticated env _ _ req token email w Hauth).
  cbn [run_chain].
  unfold post_orders, findOne, insertOne, store, new_Date, ticks, ret, throw, bind.
  cbn [body tokenEmail with_tokenEmail db log_verify store_log log_store with_db coll].
  handler_cases; try (left; reflexivity).
  right. eexists. split; [reflexivity |].
  match goal with
  | |- context [ensure_id env ?n ?o] =>
      assert (Hdoc : ∀ k, "_id" ≠ k → get (to_bson (ensure_id env n o)) k = get (to_bson o) k)
  end.
  { intros k Hk. unfold ensure_id. destruct (is_null _); [| reflexivity].
    apply get_to_bson_set_ne, Hk. }
  split; [| split].
  - rewrite Hdoc by discriminate.
    rewrite !get_to_bson_set_ne by discriminate. apply get_to_bson_set.
  - rewrite Hdoc by discriminate.
    rewrite get_to_bson_set_ne by discriminate. apply get_to_bson_set.
  - intros k Hk. repeat (apply not_elem_of_cons in Hk as [? Hk]).
    rewrite Hdoc by congruence. rewrite !get_to_bson_set_ne by congruence. reflexivity.
Qed.

Lemma order_is_stored_pending_witness :
  let w' := (serve env0 POST_orders (bearer "tokA" {[ "orderStatus" := JStr "delivered" ]})
               (world_of plain_db)).2 in
  db w' = db (world_of plain_db)
  ∨ ∃ d, db w' = set_coll ordersCollection (orders (db (world_of plain_db)) ++ [d])
                   (db (world_of plain_db))
         ∧ get d "orderStatus" = JStr "pending"
         ∧ get d "paymentStatus" = JStr "pending"
         ∧ ∀ k, k ∉ ["_id"; "orderTime"; "orderStatus"; "paymentStatus"; "createdAt"] →
                get d k = get (to_bson ({[ "orderStatus" := JStr "delivered" ]} : jsobj)) k.
Proof.
  refine (order_is_stored_pending env0 (bearer "tokA" {[ "orderStatus" := JStr "delivered" ]})
            "tokA" (Some "a@x.com") (world_of plain_db) _).
  by_evaluation.
Defined.

(** X16. When the store refuses the insert of a role request, the answer
    depends on the error code alone: the duplicate-key code 11000 is
    answered 409 without a log line, any other code is answered 500 after
    the error is logged. Either way the database is unchanged. *)
Theorem role_request_insert_refused (env : Env) (req : Request)
    (token e : string) (code : Z) (w : World) :
  authenticated env req token (Some e) →
  e ≠ "" →
  get (body req) "userEmail" = JStr e →
  truthy (get (body req) "requestType") = true →
  store_fault env (List.length (store_log w)) = Some code →
  ∃ call,
    let w' := log_store call (log_verify token w) in
    serve env POST_role_requests req w
    = if Z.eqb code 11000
      then (Responded (status_send 409
              (JObj {[ "success" := JBool false;
                       "message" := JStr "You already submitted a request. Please wait for admin approval." ]})),
            w')
      else (Responded (status_send 500 (message "Failed to create role request")),
            log_console "/role-requests POST error:" (MongoError code) w').
Proof.
  intros Hauth He Hbody Htype Hfail. unfold serve. cbn [middlewares handler].
  rewrite (run_chain_authenticated env _ _ req token (Some e) w Hauth).
  cbn [run_chain].
  unfold post_role_requests, try_catch, insertOne, new_Date, ticks, console_error, ret, bind.
  cbn [body tokenEmail with_tokenEmail email_claim].
  rewrite !get_delete_ne by discriminate. rewrite Hbody, Htype.
  apply truthy_JStr in He. rewrite He. cbn [negb orb strict_eq]. rewrite String.eqb_refl.
  cbn [negb]. rewrite (store_fails env _ _ _ code) by exact Hfail.
  eexists.
  destruct (Z.eqb_spec code 11000) as [-> | Hc]; [reflexivity |].
  destruct code as [| p | p]; try reflexivity.
  repeat (destruct p as [p | p |]; try reflexivity).
  contradiction Hc. reflexivity.
Qed.

Lemma role_request_insert_refused_witness :
  ∃ w', serve (env0_failing_with 0 11000) POST_role_requests
          (bearer "tokA" {[ "userEmail" := JStr "a@x.com"; "requestType" := JStr "chef" ]})
          (world_of plain_db)
        = (Responded (status_send 409
             (JObj {[ "success" := JBool false;
                      "message" := JStr "You already submitted a request. Please wait for admin approval." ]})),
           w').
Proof.
  destruct (role_request_insert_refused (env0_failing_with 0 11000)
              (bearer "tokA" {[ "userEmail" := JStr "a@x.com"; "requestType" := JStr "chef" ]})
              "tokA" "a@x.com" 11000 (world_of plain_db)) as [call E].
  - by_evaluation.
  - discriminate.
  - vm_compute. reflexivity.
  - vm_compute. reflexivity.
  - reflexivity.
  - eexists. exact E.
Defined.

(** ** More on deciding a role request *)

(** X17. Approval gives the user whatever role the request asks for: for a
    request whose [requestType] is a string other than [chef] (for
    example [admin]), the user record gets that string as its role and
    keeps the [chefId] it had; the request is marked approved. *)
Theorem approval_grants_requested_role (env : Env) (req : Request) (token : string)
    (email : option string) (adm : jsobj) (id hex role : string) (rq u : jsobj) (w : World) :
  store_reliable env →
  authenticated env req token email →
  user_record env (email_claim email) (db w) = Some adm →
  get adm "role" = JStr "admin" →
  (∀ n, ObjectId_new env n (JStr id) = Some hex) →
  List.find (matches env {[ "_id" := JOid hex ]}) (roleRequests (db w)) = Some rq →
  get rq "requestType" = JStr role →
  role ≠ "chef" →
  user_record env (get rq "userEmail") (db w) = Some u →
  ∃ w' u' rq',
    serve env (PATCH_role_requests_accept id) req w
    = (Responded (send (JObj {[ "success" := JBool true;
                                "message" := JStr "Request Approved!" ]})), w')
    ∧ user_record env (get rq "userEmail") (db w') = Some u'
    ∧ get u' "role" = JStr role
    ∧ get u' "chefId" = get u "chefId"
    ∧ List.find (matches env {[ "_id" := JOid hex ]}) (roleRequests (db w')) = Some rq'
    ∧ get rq' "requestStatus" = JStr "approved".
Proof.
  intros Hok Hauth Hadm Hrole Hid Hrq Htype Hne Hu.
  unfold serve. cbn [middlewares handler].
  rewrite (admin_chain_pass env _ req token email adm w Hauth (Hok _) Hadm Hrole).
  unfold patch_role_requests_accept, try_catch, new_ObjectId, generate_chefId, bind, ticks, ret.
  rewrite !Hid. rewrite findOne_ok by apply Hok.
  cbn [db log_store log_verify coll]. rewrite Hrq.
  rewrite findOne_ok by apply Hok.
  cbn [db log_store log_verify coll].
  fold (user_record env (get rq "userEmail") (db w)). rewrite Hu, Htype.
  cbn [strict_eq].
  assert (Hs : String.eqb role "chef" = false)
    by (destruct (String.eqb_spec role "chef"); [contradiction | reflexivity]).
  rewrite Hs. rewrite ?Hid. rewrite updateOne_ok by apply Hok.
  rewrite ?Hid. rewrite updateOne_ok by apply Hok.
  do 3 eexists. split; [reflexivity |].
  cbn [db with_db log_store log_verify store_log coll set_coll users roleRequests].
  split; [| split; [| split; [| split]]].
  - unfold user_record. cbn [users].
    apply find_update_first; [exact Hu |].
    rewrite matches_singleton_update by reflexivity.
    apply (find_holds _ _ _ Hu).
  - apply get_update_field; [apply lookup_singleton_eq | discriminate].
  - apply get_update_other. apply lookup_singleton_ne. discriminate.
  - apply find_update_first; [exact Hrq |].
    rewrite matches_singleton_update by reflexivity.
    apply (find_holds _ _ _ Hrq).
  - apply get_update_field; [reflexivity | discriminate].
Qed.

Lemma approval_grants_requested_role_witness :
  ∃ w' u' rq',
    serve env0 (PATCH_role_requests_accept "0123456789abcdef01234567") (bearer "tokAdmin" ∅)
      (world_of admin_request_db)
    = (Responded (send (JObj {[ "success" := JBool true;
                                "message" := JStr "Request Approved!" ]})), w')
    ∧ user_record env0 (get admin_request "userEmail") (db w') = Some u'
    ∧ get u' "role" = JStr "admin"
    ∧ get u' "chefId" = get (user_doc "a@x.com" "user" "normal") "chefId"
    ∧ List.find (matches env0 {[ "_id" := JOid "0123456789abcdef01234567" ]})
        (roleRequests (db w')) = Some rq'
    ∧ get rq' "requestStatus" = JStr "approved".
Proof.
  refine (approval_grants_requested_role env0 (bearer "tokAdmin" ∅) "tokAdmin"
            (Some "admin@x.com") (user_doc "admin@x.com" "admin" "normal")
            "0123456789abcdef01234567" "0123456789abcdef01234567" "admin"
            admin_request (user_doc "a@x.com" "user" "normal") (world_of admin_request_db)
            _ _ _ _ _ _ _ _ _).
  - intros n. reflexivity.
  - by_evaluation.
  - vm_compute. reflexivity.
  - vm_compute. reflexivity.
  - intros n. vm_compute. reflexivity.
  - vm_compute. reflexivity.
  - vm_compute. reflexivity.
  - discriminate.
  - vm_compute. reflexivity.
Defined.

(** X18. A decision on a request that cannot be found changes nothing.
    For an admin: when [new ObjectId] rejects the identifier, accept and
    reject both answer 500 (their catch logs the error) without calling
    the store; when no request has the identifier, both answer 404; and
    accept answers 404 as well when the request's user has no record.
    The database is unchanged in every one of these cases. *)
Theorem decision_on_missing_request (env : Env) (req : Request) (token : string)
    (email : option string) (adm : jsobj) (id : string) (w : World) :
  store_reliable env →
  authenticated env req token email →
  user_record env (email_claim email) (db w) = Some adm →
  get adm "role" = JStr "admin" →
  let w0 := log_store (CFindOne userColl {[ "email" := email_claim email ]})
              (log_verify token w) in
  ((∀ n, ObjectId_new env n (JStr id) = None) →
     serve env (PATCH_role_requests_accept id) req w
     = (Responded (status_send 500 (message "Server Error")),
        log_console "/role-requests/accept error:" BSONError w0)
     ∧ serve env (PATCH_role_requests_reject id) req w
       = (Responded (status_send 500 (message "Server Error")),
          log_console "/role-requests/reject error:" BSONError w0))
  ∧ (∀ hex,
       (∀ n, ObjectId_new env n (JStr id) = Some hex) →
       (List.find (matches env {[ "_id" := JOid hex ]}) (roleRequests (db w)) = None →
          (∃ w', serve env (PATCH_role_requests_accept id) req w
                 = (Responded (status_send 404 (message "Request not found")), w')
                 ∧ db w' = db w)
          ∧ (∃ w', serve env (PATCH_role_requests_reject id) req w
                   = (Responded (status_send 404 (message "Request not found")), w')
                   ∧ db w' = db w))
       ∧ (∀ rq,
            List.find (matches env {[ "_id" := JOid hex ]}) (roleRequests (db w)) = Some rq →
            user_record env (get rq "userEmail") (db w) = None →
            ∃ w', serve env (PATCH_role_requests_accept id) req w
                  = (Responded (status_send 404 (message "User not found")), w')
                  ∧ db w' = db w)).
Proof.
  intros Hok Hauth Hadm Hrole w0.
  unfold serve. cbn [middlewares handler].
  rewrite !(admin_chain_pass env _ req token email adm w Hauth (Hok _) Hadm Hrole).
  unfold patch_role_requests_accept, patch_role_requests_reject, try_catch, new_ObjectId,
    console_error, throw, bind, ticks, ret.
  split; [| intros hex Hid; split].
  - intros Hid. rewrite !Hid. split; reflexivity.
  - intros Hnone. rewrite !Hid. rewrite !findOne_ok by apply Hok.
    cbn [db log_store log_verify coll]. rewrite Hnone.
    split; eexists; split; reflexivity.
  - intros rq Hrq Hu. rewrite !Hid. rewrite findOne_ok by apply Hok.
    cbn [db log_store log_verify coll]. rewrite Hrq.
    rewrite findOne_ok by apply Hok.
    cbn [db log_store log_verify coll].
    fold (user_record env (get rq "userEmail") (db w)). rewrite Hu.
    eexists. split; reflexivity.
Qed.

Lemma decision_on_missing_request_witness :
  ∃ w', serve env0 (PATCH_role_requests_reject "0123456789abcdef01234567")
          (bearer "tokAdmin" ∅) (world_of plain_db)
        = (Responded (status_send 404 (message "Request not found")), w')
        ∧ db w' = db (world_of plain_db).
Proof.
  destruct (decision_on_missing_request env0 (bearer "tokAdmin" ∅) "tokAdmin"
              (Some "admin@x.com") (user_doc "admin@x.com" "admin" "normal")
              "0123456789abcdef01234567" (world_of plain_db)) as [_ H].
  - intros n. reflexivity.
  - by_evaluation.
  - vm_compute. reflexivity.
  - vm_compute. reflexivity.
  - destruct (H "0123456789abcdef01234567") as [Hnone _].
    + intros n. vm_compute. reflexivity.
    + destruct Hnone as [_ Hreject]; [vm_compute; reflexivity |]. exact Hreject.
Defined.

(** ** Round trips through the store *)

Lemma find_app_new (p : jsobj → bool) (l : list jsobj) (d : jsobj) :
  List.find p l = None → p d = true → List.find p (l ++ [d]) = Some d.
Proof.
  intros Hl Hd. induction l as [| a l IH]; simpl in *; [rewrite Hd; reflexivity |].
  destruct (p a); [discriminate | apply IH, Hl].
Qed.

Lemma find_all_ok (env : Env) (c : Coll) (filter : jsobj) (w : World) :
  store_fault env (List.length (store_log w)) = None →
  find_all env c filter w
  = (Val (List.filter (matches env filter) (coll c (db w))), log_store (CFind c filter) w).
Proof.
  intros H. unfold find_all. rewrite store_ok by exact H. reflexivity.
Qed.

(** X19. A confirmed payment can be read back: after POST /payment-success
    for an order id that has no payment yet, GET /payments/:id with that
    id answers 200 with the record just stored, which carries the order id
    and the payment info of the confirmation (null when none was sent).
    Neither request needs credentials. *)
Theorem payment_is_read_back (env : Env) (req req' : Request) (s hex : string) (w : World) :
  store_reliable env →
  get (body req) "orderId" = JStr s →
  ObjectId_new env (List.length (store_log w)) (JStr s) = Some hex →
  List.find (matches env {[ "orderId" := JStr s ]}) (payments (db w)) = None →
  ∃ w1 w2 d,
    serve env POST_payment_success req w
    = (Responded (send (JObj {[ "success" := JBool true ]})), w1)
    ∧ serve env (GET_payments_id s) req' w1 = (Responded (send (JObj d)), w2)
    ∧ get d "orderId" = JStr s
    ∧ get d "paymentInfo" = bson_value (get (body req) "paymentInfo")
    ∧ db w2 = db w1.
Proof.
  intros Hok Hbody Hid Hnone.
  unfold serve. cbn [middlewares handler run_chain].
  unfold post_payment_success, new_ObjectId, new_Date, bind, ticks, ret.
  rewrite Hbody, Hid. rewrite updateOne_ok by apply Hok.
  rewrite insertOne_ok by apply Hok.
  cbn [store_log db with_db log_store coll].
  match goal with
  | |- context [to_bson (ensure_id env ?n ?o)] => set (doc := ensure_id env n o)
  end.
  do 3 eexists. split; [reflexivity |].
  unfold get_payments_id, try_catch, bind. rewrite findOne_ok by apply Hok.
  cbn [db with_db log_store coll set_coll payments].
  assert (Hdoc : to_bson doc !! "orderId" = Some (JStr s)).
  { apply stored_string_field; [discriminate | reflexivity]. }
  rewrite (find_app_new _ _ (to_bson doc) Hnone)
    by (rewrite matches_singleton, Hdoc; simpl; apply String.eqb_refl).
  split; [reflexivity |]. split; [| split; [| reflexivity]].
  - unfold get. rewrite Hdoc. reflexivity.
  - unfold doc, ensure_id. cbn [is_null get].
    replace (is_null _) with true by reflexivity.
    rewrite get_to_bson_set_ne by discriminate.
    unfold get at 1, to_bson. rewrite lookup_fmap.
    rewrite lookup_insert_ne by discriminate. rewrite lookup_insert_eq. reflexivity.
Qed.

Lemma payment_is_read_back_witness :
  ∃ w1 w2 d,
    serve env0 POST_payment_success
      (anonymous {[ "orderId" := JStr "0123456789abcdef01234567"; "paymentInfo" := JStr "pi_1" ]})
      (world_of plain_db)
    = (Responded (send (JObj {[ "success" := JBool true ]})), w1)
    ∧ serve env0 (GET_payments_id "0123456789abcdef01234567") (anonymous ∅) w1
      = (Responded (send (JObj d)), w2)
    ∧ get d "orderId" = JStr "0123456789abcdef01234567"
    ∧ get d "paymentInfo"
      = bson_value (get ({[ "orderId" := JStr "0123456789abcdef01234567";
                            "paymentInfo" := JStr "pi_1" ]} : jsobj) "paymentInfo")
    ∧ db w2 = db w1.
Proof.
  refine (payment_is_read_back env0
            (anonymous {[ "orderId" := JStr "0123456789abcdef01234567";
                          "paymentInfo" := JStr "pi_1" ]})
            (anonymous ∅) "0123456789abcdef01234567" "0123456789abcdef01234567"
            (world_of plain_db) _ _ _ _).
  - intros n. reflexivity.
  - vm_compute. reflexivity.
  - vm_compute. reflexivity.
  - reflexivity.
Defined.

(** X20. Self-registration stores the role the body gives. A principal
    without a record who registers with [role: "admin"] is from then on
    let through the admin gate: the next GET /users of that principal is
    answered 200. *)
Theorem registered_role_is_trusted (env : Env) (req req2 : Request)
    (token token2 e : string) (w : World) :
  store_reliable env →
  e ≠ "" →
  authenticated env req token (Some e) →
  authenticated env req2 token2 (Some e) →
  get (body req) "email" = JStr e →
  get (body req) "role" = JStr "admin" →
  user_record env (JStr e) (db w) = None →
  ∃ r1 w1 r2 w2 u,
    serve env POST_users req w = (Responded r1, w1) ∧ status r1 = 200%Z
    ∧ user_record env (JStr e) (db w1) = Some u ∧ get u "role" = JStr "admin"
    ∧ serve env GET_users req2 w1 = (Responded r2, w2) ∧ status r2 = 200%Z.
Proof.
  intros Hok He Hauth Hauth2 Hbody Hrole Hnone.
  assert (E1 : ∃ r1 w1,
             serve env POST_users req w = (Responded r1, w1) ∧ status r1 = 200%Z
             ∧ users (db w1)
               = (users (db w)
                  ++ [to_bson (ensure_id env (S (List.length (store_log w))) (body req))])%list).
  { unfold serve. cbn [middlewares handler].
    rewrite (run_chain_authenticated env _ _ req token (Some e) w Hauth).
    cbn [run_chain]. unfold post_users, try_catch, bind.
    cbn [body tokenEmail with_tokenEmail email_claim]. rewrite Hbody.
    pose proof (proj2 (truthy_JStr e) He) as Ht. rewrite Ht.
    cbn [negb strict_eq]. rewrite String.eqb_refl.
    cbn [negb]. rewrite findOne_ok by apply Hok.
    cbn [db log_verify coll]. unfold user_record in Hnone. rewrite Hnone.
    rewrite insertOne_ok by apply Hok.
    do 2 eexists. split; [reflexivity |]. split; [reflexivity |].
    cbn [db with_db log_store store_log log_verify coll set_coll users].
    rewrite length_app, Nat.add_1_r. reflexivity. }
  destruct E1 as (r1 & w1 & E1 & S1 & U1).
  set (u := to_bson (ensure_id env (S (List.length (store_log w))) (body req))) in *.
  assert (Hu : user_record env (JStr e) (db w1) = Some u).
  { unfold user_record. rewrite U1. apply find_app_new; [exact Hnone |].
    apply registered_matches, Hbody. }
  assert (Hr : get u "role" = JStr "admin").
  { unfold get, u. rewrite (stored_string_field env _ _ "role" "admin"); [reflexivity | discriminate | exact Hrole]. }
  exists r1, w1. 
  assert (E2 : ∃ r2 w2, serve env GET_users req2 w1 = (Responded r2, w2) ∧ status r2 = 200%Z).
  { unfold serve. cbn [middlewares handler].
    rewrite (admin_chain_pass env _ req2 token2 (Some e) u w1 Hauth2 (Hok _) Hu Hr).
    unfold get_users, bind. rewrite find_all_ok by apply Hok.
    do 2 eexists. split; reflexivity. }
  destruct E2 as (r2 & w2 & E2 & S2).
  exists r2, w2, u. auto 10.
Qed.

Lemma registered_role_is_trusted_witness :
  ∃ r1 w1 r2 w2 u,
    serve env0 POST_users
      (bearer "tokGhost" {[ "email" := JStr "ghost@x.com"; "role" := JStr "admin" ]})
      (world_of plain_db) = (Responded r1, w1) ∧ status r1 = 200%Z
    ∧ user_record env0 (JStr "ghost@x.com") (db w1) = Some u ∧ get u "role" = JStr "admin"
    ∧ serve env0 GET_users (bearer "tokGhost" ∅) w1 = (Responded r2, w2) ∧ status r2 = 200%Z.
Proof.
  refine (registered_role_is_trusted env0
            (bearer "tokGhost" {[ "email" := JStr "ghost@x.com"; "role" := JStr "admin" ]})
            (bearer "tokGhost" ∅) "tokGhost" "tokGhost" "ghost@x.com" (world_of plain_db)
            _ _ _ _ _ _ _).
  - intros n. reflexivity.
  - discriminate.
  - by_evaluation.
  - by_evaluation.
  - vm_compute. reflexivity.
  - vm_compute. reflexivity.
  - vm_compute. reflexivity.
Defined.

(** ** Required query and body fields *)

(** X21. The routes that read [req.query.email] refuse a missing or empty
    one before anything else: GET /orders answers 400 without calling the
    store, and GET /user-reviews (after the token check) answers 400 for a
    missing email and 403 for the email of somebody else, again without
    calling the store. *)
Theorem email_query_is_required (env : Env) (req : Request) (w : World) :
  (truthy (get (query req) "email") = false →
     serve env GET_orders req w
     = (Responded (status_send 400 (message "Email query required")), w))
  ∧ (∀ token email,
       authenticated env req token email →
       (truthy (get (query req) "email") = false →
          serve env GET_user_reviews req w
          = (Responded (status_send 400 (message "email is required")), log_verify token w))
       ∧ (truthy (get (query req) "email") = true →
          get (query req) "email" ≠ email_claim email →
          serve env GET_user_reviews req w
          = (Responded (status_send 403 (message "Forbidden!")), log_verify token w))).
Proof.
  unfold serve. cbn [middlewares handler]. split.
  - intros H. cbn [run_chain]. unfold get_orders, try_catch. rewrite H. reflexivity.
  - intros token email Hauth.
    rewrite (run_chain_authenticated env _ _ req token email w Hauth).
    cbn [run_chain]. unfold get_user_reviews, try_catch.
    cbn [query tokenEmail with_tokenEmail]. split.
    + intros H. rewrite H. reflexivity.
    + intros H Hne. rewrite H, (strict_eq_claim_r _ _ Hne). reflexivity.
Qed.

Lemma email_query_is_required_witness :
  serve env0 GET_orders (anonymous ∅) (world_of plain_db)
  = (Responded (status_send 400 (message "Email query required")), world_of plain_db).
Proof.
  refine (proj1 (email_query_is_required env0 (anonymous ∅) (world_of plain_db)) _).
  reflexivity.
Defined.

(** X22. POST /reviews needs a meal and stores its id as a string: without
    a [foodId] (missing, empty, 0, null) the answer is 400 and the store
    is not called; otherwise whatever is stored carries
    [String(foodId)] as its [foodId]. *)
Theorem review_meal_id_is_a_string (env : Env) (req : Request)
    (token : string) (email : option string) (w : World) :
  authenticated env req token email →
  (truthy (get (body req) "foodId") = false →
     serve env POST_reviews req w
     = (Responded (status_send 400 (message "foodId required")), log_verify token w))
  ∧ (let w' := (serve env POST_reviews req w).2 in
     db w' = db w
     ∨ ∃ d, db w' = set_coll reviewsCollection (reviews (db w) ++ [d]) (db w)
            ∧ get d "foodId" = JStr (String_ env (get (body req) "foodId"))).
Proof.
  intros Hauth. unfold serve. cbn [middlewares handler].
  rewrite !(run_chain_authenticated env _ _ req token email w Hauth).
  cbn [run_chain]. split.
  - intros H. unfold post_reviews, try_catch. cbn [body with_tokenEmail]. rewrite H.
    reflexivity.
  - unfold post_reviews, try_catch, insertOne, store, new_Date, ticks, console_error, ret, bind.
    cbn [body tokenEmail with_tokenEmail db log_verify store_log log_store with_db coll].
    handler_cases; try (left; reflexivity);
      (right; eexists; split; [reflexivity |];
       unfold ensure_id;
       match goal with |- context [is_null ?x] => destruct (is_null x) end;
       rewrite ?(get_to_bson_set_ne _ "_id") by discriminate;
       rewrite (get_to_bson_set_ne _ "date") by discriminate;
       apply get_to_bson_set).
Qed.

Lemma review_meal_id_is_a_string_witness :
  serve env0 POST_reviews (bearer "tokA" {[ "foodId" := JStr "" ]}) (world_of plain_db)
  = (Responded (status_send 400 (message "foodId required")),
     log_verify "tokA" (world_of plain_db)).
Proof.
  refine (proj1 (review_meal_id_is_a_string env0 (bearer "tokA" {[ "foodId" := JStr "" ]})
                   "tokA" (Some "a@x.com") (world_of plain_db) _) _).
  - by_evaluation.
  - reflexivity.
Defined.

(** ** The statuses the server answers with *)

Lemma known_ret (r : Response) : known_status (status r) = true → answers_known (ret r).
Proof. intros H w. exact H. Qed.

Lemma known_throw (e : Exn) : answers_known (throw e).
Proof. intros w. exact I. Qed.

Lemma known_bind {A} (m : M A) (k : A → M Response) :
  (∀ a, answers_known (k a)) → answers_known (bind m k).
Proof.
  intros Hk w. unfold bind. destruct (m w) as [[a | e] w1]; [apply Hk | exact I].
Qed.

Lemma known_try_catch (m : M Response) (h : Exn → M Response) :
  answers_known m → (∀ e, answers_known (h e)) → answers_known (try_catch m h).
Proof.
  intros Hm Hh w. unfold try_catch. specialize (Hm w).
  destruct (m w) as [[a | e] w1]; [exact Hm | apply Hh].
Qed.

Ltac known_step :=
  lazymatch goal with
  | |- answers_known (bind _ _) => apply known_bind; intros ?
  | |- answers_known (try_catch _ _) => apply known_try_catch; [| intros ?]
  | |- answers_known (ret _) => apply known_ret; reflexivity
  | |- answers_known (throw _) => apply known_throw
  | |- answers_known (match ?x with _ => _ end) => destruct x
  | |- answers_known (let _ := _ in _) => cbv zeta
  end.

Lemma handlers_answer_known (env : Env) (r : Route) (req : Request) :
  answers_known (handler env r req).
Proof.
  destruct r; cbn [handler]; unfold_handlers; repeat known_step.
Qed.

Lemma gates_answer_known (env : Env) (g : Gate) (req : Request) (w : World) :
  match (run_gate env g req w).1 with
  | Val (Respond r) => known_status (status r) = true
  | _ => True
  end.
Proof.
  destruct g; cbn [run_gate].
  - unfold verifyJWT. destruct (getTokenFromHeader req) as [t |]; [| reflexivity].
    destruct (negb (truthy (JStr t))); [reflexivity |].
    destruct (verifyIdToken env t); [reflexivity | exact I].
  - unfold verifyAdmin, bind, findOne, store.
    destruct (store_fault env _); [exact I |]. cbn.
    destruct (List.find _ _); [| reflexivity]. destruct (negb _); [reflexivity | exact I].
  - unfold verifyChef, try_catch, bind, findOne, store.
    destruct (store_fault env _); [reflexivity |]. cbn.
    destruct (List.find _ _); [| reflexivity]. destruct (negb _ && negb _); [reflexivity | exact I].
Qed.

(** X23. Whatever the request, the collaborators and the faults, a
    response written by the server's code has one of seven statuses: 200,
    400, 401, 403, 404, 409 or 500. *)
Theorem statuses_are_known (env : Env) (r : Route) (req : Request) (w : World) (s : Z) :
  status_of (serve env r req w).1 = Some s →
  s ∈ [200; 400; 401; 403; 404; 409; 500]%Z.
Proof.
  assert (Hchain : ∀ gs req, answers_known (run_chain env gs (handler env r) req)).
  { induction gs as [| g gs IH]; intros req0; [apply handlers_answer_known |].
    intros w0. simpl. unfold bind.
    pose proof (gates_answer_known env g req0 w0) as Hg.
    destruct (run_gate env g req0 w0) as [[[req1 | resp] | e] w1]; simpl in *.
    - apply IH.
    - exact Hg.
    - exact I. }
  unfold serve. specialize (Hchain (middlewares r) req w).
  destruct (run_chain env (middlewares r) (handler env r) req w) as [[resp | e] w1];
    simpl in *; [| discriminate].
  intros [= <-]. unfold known_status in Hchain. apply bool_decide_eq_true in Hchain.
  exact Hchain.
Qed.

Lemma statuses_are_known_witness :
  status_of (serve (env0_failing_with 0 11000) POST_role_requests
               (bearer "tokA" {[ "userEmail" := JStr "a@x.com"; "requestType" := JStr "chef" ]})
               (world_of plain_db)).1 = Some 409%Z
  ∧ (409 ∈ [200; 400; 401; 403; 404; 409; 500])%Z.
Proof.
  assert (H : status_of (serve (env0_failing_with 0 11000) POST_role_requests
                           (bearer "tokA" {[ "userEmail" := JStr "a@x.com";
                                             "requestType" := JStr "chef" ]})
                           (world_of plain_db)).1 = Some 409%Z)
    by (vm_compute; reflexivity).
  split; [exact H |].
  exact (statuses_are_known _ _ _ _ _ H).
Defined.

(** ** The earliest revision *)

(** The header carries, as its second segment, a token that the identity
    provider verifies. *)
Lemma legacy_verifyJWT_second_segment (env : Env) (req : Request) (a t : string) (w : World) :
  authorization req = Some a →
  split_space a !! 1 = Some t →
  t ≠ "" →
  Legacy.verifyJWT env req w
  = match verifyIdToken env t with
    | inr email => (Val (Next (with_tokenEmail (email_claim email) req)), log_verify t w)
    | inl err =>
        (Val (Respond (status_send 401
                (JObj {[ "message" := JStr "Unauthorized Access!"; "err" := JErr err ]}))),
         log_console "" err (log_verify t w))
    end.
Proof.
  intros Ha Ht Hne. unfold Legacy.verifyJWT. rewrite Ha, Ht.
  apply truthy_JStr in Hne. rewrite Hne. simpl.
  destruct (verifyIdToken env t); reflexivity.
Qed.

(** X24. The two revisions of the token middleware differ on headers with
    more than two segments. The earliest one hands the second segment to
    the identity provider whatever follows it; the newest one answers 401
    without verifying anything unless the header has exactly two
    segments. *)
Theorem legacy_token_ignores_extra_segments (env : Env) (req : Request) (a t : string)
    (w : World) :
  authorization req = Some a →
  split_space a !! 1 = Some t →
  t ≠ "" →
  verify_log (Legacy.verifyJWT env req w).2 = (verify_log w ++ [t])%list
  ∧ (List.length (split_space a) ≠ 2 →
     verifyJWT env req w
     = (Val (Respond (status_send 401 (message "Unauthorized Access!"))), w))
  ∧ (List.length (split_space a) = 2 →
     verifyJWT env req w
     = match verifyIdToken env t with
       | inr email => (Val (Next (with_tokenEmail (email_claim email) req)), log_verify t w)
       | inl err =>
           (Val (Respond (status_send 401
                   (JObj {[ "message" := JStr "Unauthorized Access!"; "err" := JErr err ]}))),
            log_console "verifyJWT error:" err (log_verify t w))
       end).
Proof.
  intros Ha Ht Hne. split; [| split].
  - rewrite (legacy_verifyJWT_second_segment env req a t w Ha Ht Hne).
    destruct (verifyIdToken env t); reflexivity.
  - intros Hlen. apply verifyJWT_malformed. unfold malformed_header. rewrite Ha. exact Hlen.
  - intros Hlen. unfold verifyJWT, getTokenFromHeader. rewrite Ha.
    assert (Hnonempty : truthy (JStr a) = true).
    { apply truthy_JStr. intros ->. discriminate Ht. }
    rewrite Hnonempty, Hlen, Ht. cbn [negb Nat.eqb].
    apply truthy_JStr in Hne. rewrite Hne. cbn [negb].
    destruct (verifyIdToken env t); reflexivity.
Qed.

Lemma legacy_token_ignores_extra_segments_witness :
  verify_log (Legacy.verifyJWT env0
                {| authorization := Some "Bearer tokA extra"; body := ∅; query := ∅;
                   tokenEmail := JUndef |} (world_of plain_db)).2
  = (verify_log (world_of plain_db) ++ ["tokA"])%list.
Proof.
  refine (proj1 (legacy_token_ignores_extra_segments env0
                   {| authorization := Some "Bearer tokA extra"; body := ∅; query := ∅;
                      tokenEmail := JUndef |}
                   "Bearer tokA extra" "tokA" (world_of plain_db) _ _ _)).
  - reflexivity.
  - reflexivity.
  - discriminate.
Defined.

Lemma legacy_serve_guarded (env : Env) (r : Legacy.Route) (req : Request) (a token : string)
    (email : option string) (w : World) :
  Legacy.guarded r = true →
  authorization req = Some a →
  split_space a !! 1 = Some token →
  token ≠ "" →
  verifyIdToken env token = inr email →
  Legacy.serve env r req w
  = match Legacy.handler env r (with_tokenEmail (email_claim email) req) (log_verify token w) with
    | (Val resp, w') => (Responded resp, w')
    | (Exc e, w') => (Unhandled e, w')
    end.
Proof.
  intros Hg Ha Ht Hne Hver. unfold Legacy.serve. rewrite Hg. unfold bind.
  rewrite (legacy_verifyJWT_second_segment env req a token w Ha Ht Hne), Hver.
  reflexivity.
Qed.

(** X25. In the earliest revision a meal is created under the caller's own
    email only: POST /meals answers 403 without calling the store when the
    body's [userEmail] is not the principal, and whatever it stores carries
    the principal as its [userEmail]. *)
Theorem legacy_meal_owner_is_the_principal (env : Env) (req : Request) (a token : string)
    (email : option string) (w : World) :
  authorization req = Some a →
  split_space a !! 1 = Some token →
  token ≠ "" →
  verifyIdToken env token = inr email →
  (get (body req) "userEmail" ≠ email_claim email →
     Legacy.serve env Legacy.POST_meals req w
     = (Responded (status_send 403 (message "Forbidden!")), log_verify token w))
  ∧ (let w' := (Legacy.serve env Legacy.POST_meals req w).2 in
     db w' = db w
     ∨ ∃ d, db w' = set_coll mealsColl (meals (db w) ++ [d]) (db w)
            ∧ get (body req) "userEmail" = email_claim email
            ∧ ∀ e, email = Some e → get d "userEmail" = JStr e).
Proof.
  intros Ha Ht Hne Hver.
  rewrite !(legacy_serve_guarded env Legacy.POST_meals req a token email w eq_refl Ha Ht Hne Hver).
  cbn [Legacy.handler]. unfold Legacy.post_meals, try_catch.
  cbn [body tokenEmail with_tokenEmail]. split.
  - intros Hdiff. rewrite (strict_eq_claim_r _ _ Hdiff). reflexivity.
  - destruct (strict_eq (get (body req) "userEmail") (email_claim email)) eqn:Hown;
      [| left; reflexivity].
    cbn [negb].
    assert (Heq : get (body req) "userEmail" = email_claim email).
    { destruct email as [e |]; cbn [email_claim] in *.
      - apply strict_eq_JStr_r, Hown.
      - destruct (get (body req) "userEmail"); try discriminate Hown. reflexivity. }
    unfold insertOne, store, new_Date, ticks, ret, bind.
    cbn [db log_verify store_log log_store with_db coll].
    handler_cases; try (left; reflexivity);
      (right; eexists; split; [reflexivity |]; split; [exact Heq |];
       intros e ->; cbn [email_claim] in Heq;
       unfold get; erewrite stored_string_field;
       [reflexivity | discriminate | rewrite get_set_ne by discriminate; exact Heq]).
Qed.

Lemma legacy_meal_owner_is_the_principal_witness :
  Legacy.serve env0 Legacy.POST_meals (bearer "tokA" {[ "userEmail" := JStr "b@x.com" ]})
    (world_of plain_db)
  = (Responded (status_send 403 (message "Forbidden!")), log_verify "tokA" (world_of plain_db)).
Proof.
  refine (proj1 (legacy_meal_owner_is_the_principal env0
                   (bearer "tokA" {[ "userEmail" := JStr "b@x.com" ]})
                   "Bearer tokA" "tokA" (Some "a@x.com") (world_of plain_db) _ _ _ _) _).
  - reflexivity.
  - reflexivity.
  - discriminate.
  - reflexivity.
  - vm_compute. discriminate.
Defined.

(** X26. The identifier check of GET /meals/:id came with the newest
    revision. On an identifier that the driver rejects, the earliest
    revision throws in [new ObjectId] and writes no response, while the
    newest answers 400; neither calls the store. *)
Theorem legacy_meal_lookup_is_unchecked (env : Env) (id : string) (req : Request) (w : World) :
  ObjectId_isValid env id = false →
  ObjectId_new env (List.length (store_log w)) (JStr id) = None →
  Legacy.serve env (Legacy.GET_meals_id id) req w = (Unhandled BSONError, w)
  ∧ serve env (GET_meals_id id) req w
    = (Responded (status_send 400 (message "Invalid meal id")), w).
Proof.
  intros Hvalid Hnew. split.
  - unfold Legacy.serve. cbn [Legacy.guarded Legacy.handler].
    unfold Legacy.get_meals_id, new_ObjectId, bind, ticks. rewrite Hnew. reflexivity.
  - unfold serve. cbn [middlewares handler run_chain].
    unfold get_meals_id, try_catch. rewrite Hvalid. reflexivity.
Qed.

Lemma legacy_meal_lookup_is_unchecked_witness :
  Legacy.serve env0 (Legacy.GET_meals_id "not-an-id") (anonymous ∅) (world_of plain_db)
  = (Unhandled BSONError, world_of plain_db).
Proof.
  refine (proj1 (legacy_meal_lookup_is_unchecked env0 "not-an-id" (anonymous ∅)
                   (world_of plain_db) _ _)).
  - reflexivity.
  - reflexivity.
Defined.

(** ** Orders and meals in the hands of the chefs *)

Lemma delete_first_length (p : jsobj → bool) (l : list jsobj) (d : jsobj) :
  List.find p l = Some d → S (List.length (delete_first p l)) = List.length l.
Proof.
  induction l as [| a l IH]; [discriminate |].
  simpl. destruct (p a); [reflexivity |].
  intros H. simpl. rewrite (IH H). reflexivity.
Qed.

(** X27. PATCH /orders/:id sets the status the body gives, whatever the
    order's status was and whichever chef the order belongs to: for a
    chef or an admin (and a store that answers), the order with that id
    gets the body's [orderStatus] (null when the body has none) and keeps
    every other field. *)
Theorem order_status_is_unconstrained (env : Env) (id hex : string) (req : Request)
    (token : string) (email : option string) (u o : jsobj) (w : World) :
  store_reliable env →
  authenticated env req token email →
  user_record env (email_claim email) (db w) = Some u →
  get u "role" = JStr "chef" ∨ get u "role" = JStr "admin" →
  (∀ n, ObjectId_new env n (JStr id) = Some hex) →
  List.find (matches env {[ "_id" := JOid hex ]}) (orders (db w)) = Some o →
  ∃ resp w' o',
    serve env (PATCH_orders_id id) req w = (Responded resp, w')
    ∧ status resp = 200%Z
    ∧ List.find (matches env {[ "_id" := JOid hex ]}) (orders (db w')) = Some o'
    ∧ get o' "orderStatus" = bson_value (get (body req) "orderStatus")
    ∧ ∀ k, k ≠ "orderStatus" → get o' k = get o k.
Proof.
  intros Hok Hauth Hrec Hrole Hid Ho.
  unfold serve. cbn [middlewares handler].
  rewrite (chef_chain_pass env _ req token email u w Hauth (Hok _) Hrec Hrole).
  unfold patch_orders_id, try_catch, new_ObjectId, bind, ticks, ret.
  rewrite Hid. rewrite updateOne_ok by apply Hok.
  do 3 eexists. split; [reflexivity |]. split; [reflexivity |].
  cbn [db with_db log_store log_verify coll set_coll orders body with_tokenEmail].
  split; [| split].
  - apply find_update_first; [exact Ho |].
    rewrite matches_singleton_update by reflexivity.
    apply (find_holds _ _ _ Ho).
  - apply get_update_set. apply lookup_singleton_eq.
  - intros k Hk. apply get_update_other. apply lookup_singleton_ne. congruence.
Qed.

Lemma order_status_is_unconstrained_witness :
  ∃ resp w' o',
    serve env0 (PATCH_orders_id "0123456789abcdef01234567")
      (bearer "tokB" {[ "orderStatus" := JStr "pending" ]}) (world_of order_db)
    = (Responded resp, w')
    ∧ status resp = 200%Z
    ∧ List.find (matches env0 {[ "_id" := JOid "0123456789abcdef01234567" ]}) (orders (db w'))
      = Some o'
    ∧ get o' "orderStatus"
      = bson_value (get (body (bearer "tokB" {[ "orderStatus" := JStr "pending" ]})) "orderStatus")
    ∧ ∀ k, k ≠ "orderStatus" → get o' k = get delivered_order k.
Proof.
  refine (order_status_is_unconstrained env0
            "0123456789abcdef01234567" "0123456789abcdef01234567"
            (bearer "tokB" {[ "orderStatus" := JStr "pending" ]}) "tokB" (Some "b@x.com")
            (user_doc "b@x.com" "chef" "normal") delivered_order (world_of order_db)
            _ _ _ _ _ _).
  - intros n. reflexivity.
  - by_evaluation.
  - vm_compute. reflexivity.
  - left. vm_compute. reflexivity.
  - intros n. vm_compute. reflexivity.
  - vm_compute. reflexivity.
Defined.

(** X28. DELETE /meals/:id compares no owner: for a chef or an admin (and
    a store that answers), the meal with that id is removed, whichever
    chef it belongs to; exactly one meal goes, and the other collections
    are as they were. *)
Theorem meal_is_deleted_by_any_chef (env : Env) (id hex : string) (req : Request)
    (token : string) (email : option string) (u m : jsobj) (w : World) :
  store_reliable env →
  authenticated env req token email →
  user_record env (email_claim email) (db w) = Some u →
  get u "role" = JStr "chef" ∨ get u "role" = JStr "admin" →
  (∀ n, ObjectId_new env n (JStr id) = Some hex) →
  List.find (matches env {[ "_id" := JOid hex ]}) (meals (db w)) = Some m →
  ∃ resp w',
    serve env (DELETE_meals_id id) req w = (Responded resp, w')
    ∧ status resp = 200%Z
    ∧ db w' = set_coll mealsColl
                (delete_first (matches env {[ "_id" := JOid hex ]}) (meals (db w))) (db w)
    ∧ S (List.length (meals (db w'))) = List.length (meals (db w)).
Proof.
  intros Hok Hauth Hrec Hrole Hid Hm.
  unfold serve. cbn [middlewares handler].
  rewrite (chef_chain_pass env _ req token email u w Hauth (Hok _) Hrec Hrole).
  unfold delete_meals_id, new_ObjectId, bind, ticks, ret.
  rewrite Hid. rewrite deleteOne_ok by apply Hok.
  do 2 eexists. split; [reflexivity |]. split; [reflexivity |].
  cbn [db with_db log_store log_verify coll set_coll meals].
  split; [reflexivity |].
  apply (delete_first_length _ _ _ Hm).
Qed.

Lemma meal_is_deleted_by_any_chef_witness :
  ∃ resp w',
    serve env0 (DELETE_meals_id "0123456789abcdef01234567") (bearer "tokB" ∅)
      (world_of order_db)
    = (Responded resp, w')
    ∧ status resp = 200%Z
    ∧ db w' = set_coll mealsColl
                (delete_first (matches env0 {[ "_id" := JOid "0123456789abcdef01234567" ]})
                   (meals (db (world_of order_db)))) (db (world_of order_db))
    ∧ S (List.length (meals (db w'))) = List.length (meals (db (world_of order_db))).
Proof.
  refine (meal_is_deleted_by_any_chef env0
            "0123456789abcdef01234567" "0123456789abcdef01234567"
            (bearer "tokB" ∅) "tokB" (Some "b@x.com")
            (user_doc "b@x.com" "chef" "normal") other_chefs_meal (world_of order_db)
            _ _ _ _ _ _).
  - intros n. reflexivity.
  - by_evaluation.
  - vm_compute. reflexivity.
  - left. vm_compute. reflexivity.
  - intros n. vm_compute. reflexivity.
  - vm_compute. reflexivity.
Defined.

(** ** The statistics *)






